(** * Professor-Rag: content guardrails and the answer pipeline

    A shallow embedding of [guardrails/content_filter.py],
    [rag/enhanced_rag_orchestrator.py], the result filter of
    [rag/vector_store.py], [llm/groq_client.py] and the answer validator
    and context formatter of [mcp/web_search_agent.py].

    Python [str] values are lists of Unicode code points, Python [float]
    values are binary64 primitive floats, and every call that leaves the
    process (vector index, web search, LLM API, feedback database) is an
    oracle over an abstract world; the pipeline runs in a small monad that
    threads the world, may raise, and records the collaborator calls it
    makes. *)

From Stdlib Require Import String Ascii.
From Stdlib Require Import ZArith NArith List Bool Lia Floats.
From Stdlib Require DecimalString.
Import ListNotations.
Local Open Scope list_scope.

Set Warnings "-inexact-float".

(** ** Python text *)

Definition pychar := N.
Definition pystr := list pychar.

(** An ASCII literal of the source as a Python string. *)
Definition u (s : string) : pystr :=
  map N_of_ascii (list_ascii_of_string s).

Fixpoint str_eqb (a b : pystr) : bool :=
  match a, b with
  | [], [] => true
  | x :: a', y :: b' => N.eqb x y && str_eqb a' b'
  | _, _ => false
  end.

Fixpoint starts_with (p s : pystr) : bool :=
  match p, s with
  | [], _ => true
  | _ :: _, [] => false
  | x :: p', y :: s' => N.eqb x y && starts_with p' s'
  end.

(** [contains needle hay] is Python's [needle in hay] on strings. *)
Fixpoint contains (needle hay : pystr) : bool :=
  match hay with
  | [] => starts_with needle []
  | _ :: rest => starts_with needle hay || contains needle rest
  end.

(** [x in xs] on a list of strings. *)
Definition str_in (x : pystr) (xs : list pystr) : bool :=
  existsb (str_eqb x) xs.

(** [sep.join(parts)]. *)
Fixpoint join (sep : pystr) (parts : list pystr) : pystr :=
  match parts with
  | [] => []
  | [p] => p
  | p :: rest => p ++ sep ++ join sep rest
  end.

(** [str.isspace] for one code point: the white-space table of CPython. *)
Definition isspace (c : pychar) : bool :=
  ((9 <=? c) && (c <=? 13) || (28 <=? c) && (c <=? 32)
   || (c =? 133) || (c =? 160) || (c =? 5760)
   || (8192 <=? c) && (c <=? 8202)
   || (c =? 8232) || (c =? 8233) || (c =? 8239) || (c =? 8287)
   || (c =? 12288))%N.

Fixpoint lstrip (s : pystr) : pystr :=
  match s with
  | [] => []
  | c :: rest => if isspace c then lstrip rest else s
  end.

(** [s.strip()]. *)
Definition strip (s : pystr) : pystr := rev (lstrip (rev (lstrip s))).

Definition is_ascii (c : pychar) : bool := (c <? 128)%N.

Definition ascii_lower (c : pychar) : pychar :=
  if ((65 <=? c) && (c <=? 90))%N then (c + 32)%N else c.

Definition ascii_digit (c : pychar) : bool := ((48 <=? c) && (c <=? 57))%N.

Definition ascii_word (c : pychar) : bool :=
  (ascii_digit c || (65 <=? c) && (c <=? 90) || (97 <=? c) && (c <=? 122)
   || (c =? 95))%N.

(** [str(i)] for a natural number. *)
Definition str_of_nat (n : nat) : pystr :=
  u (DecimalString.NilZero.string_of_uint (Nat.to_uint n)).

(** ** Results of calls that may raise *)

(** A raised exception is kept as its [str(e)]. *)
Inductive Res (A : Type) : Type :=
| Ok (a : A)
| Raise (e : pystr).
Arguments Ok {A} a.
Arguments Raise {A} e.

(** ** Python floats *)

(** [min(a, b)] of the Python builtin on two floats: the first argument
    unless the second is strictly smaller. *)
Definition py_min (a b : float) : float :=
  if (b <? a)%float then b else a.

(** [float(n)] for the small integers the code multiplies by a float. *)
Definition float_of_nat (n : nat) : float :=
  PrimFloat.of_uint63 (Uint63.of_Z (Z.of_nat n)).

(** ** What the Python runtime and its libraries provide

    [str.lower], the Unicode classes of [re] and TextBlob's sentiment are
    not code of the repository. They are taken as they are, with what
    CPython guarantees on ASCII text. *)
Class TextRuntime : Type := {
  lower : pystr -> pystr;
  re_digit : pychar -> bool;
  re_word : pychar -> bool;
  polarity : pystr -> Res float;
  lower_ascii :
    forall s, forallb is_ascii s = true -> lower s = map ascii_lower s;
  re_digit_ascii :
    forall c, is_ascii c = true -> re_digit c = ascii_digit c;
  re_word_ascii :
    forall c, is_ascii c = true -> re_word c = ascii_word c
}.

(** ** guardrails/content_filter.py *)

Record verdict : Type := {
  is_valid : bool;
  reason : string;
  message : pystr;
  severity : string;
  warning : option bool;
  math_score : option nat;
  quality_score : option nat;
  has_refusal : option bool;
  has_explanation : option bool
}.

Definition math_keywords : list pystr := map u
  ["algebra"; "calculus"; "geometry"; "trigonometry"; "statistics";
   "probability"; "equation"; "derivative"; "integral"; "matrix";
   "vector"; "function"; "theorem"; "proof"; "solve"; "calculate";
   "graph"; "formula"; "number"; "polynomial"; "exponential";
   "logarithm"; "differential"; "limit"; "series"; "sequence";
   "angle"; "triangle"; "circle"; "sine"; "cosine"; "tangent";
   "mean"; "median"; "variance"; "distribution"; "regression";
   "topology"; "analysis"; "linear"; "optimization"; "pi"; "ratio"]%string.

Definition forbidden_keywords : list pystr := map u
  ["violence"; "weapon"; "hate"; "explicit"; "illegal"; "drug";
   "nsfw"; "adult"; "harmful"; "suicide"; "bomb"; "kill"]%string.

(** [sum(1 for keyword in keywords if keyword in text)]. *)
Definition keyword_hits (keywords : list pystr) (text : pystr) : nat :=
  length (filter (fun keyword => contains keyword text) keywords).

(** [any(keyword in text for keyword in keywords)]. *)
Definition any_in (keywords : list pystr) (text : pystr) : bool :=
  existsb (fun keyword => contains keyword text) keywords.

(** The characters of the class [[+\-*/=<>≤≥≠∞∑∏∫√π]]. *)
Definition math_symbol_chars : list pychar :=
  [43; 45; 42; 47; 61; 60; 62;
   8804; 8805; 8800; 8734; 8721; 8719; 8747; 8730; 960]%N.

Definition is_math_symbol (c : pychar) : bool :=
  existsb (N.eqb c) math_symbol_chars.

Definition refusal_patterns : list pystr := map u
  ["i don't know"; "i cannot"; "i'm not sure"; "i don't have";
   "cannot determine"; "insufficient information"]%string.

Definition explanation_words : list pystr := map u
  ["because"; "therefore"; "thus"; "hence"; "since"; "which means";
   "step"; "first"; "second"; "next"; "finally"; "explanation"]%string.

Definition question_words : list pystr := map u
  ["what"; "how"; "why"; "when"; "where"; "solve"; "find"; "calculate";
   "prove"]%string.

Section Guardrails.
Context {rt : TextRuntime}.

(** [re.search(r'\d+', text)] succeeds when some character is a digit. *)
Definition search_digits (text : pystr) : bool := existsb re_digit text.

(** [re.search] with the symbol class succeeds when some character is in
    the class. *)
Definition search_symbols (text : pystr) : bool :=
  existsb is_math_symbol text.

(** [re.search(r'x|y|z|n|f\(|g\(', text)]: one of the six literals occurs. *)
Definition search_variables (text : pystr) : bool :=
  any_in (map u ["x"; "y"; "z"; "n"; "f("; "g("]%string) text.

Definition math_patterns : list (pystr -> bool) :=
  [search_digits; search_symbols; search_variables].

Definition _contains_numbers_or_symbols (text : pystr) : bool :=
  existsb (fun pattern => pattern text) math_patterns.

Definition validate_input (user_input : pystr) : verdict :=
  let input_lower := lower user_input in
  if any_in forbidden_keywords input_lower then
    {| is_valid := false;
       reason := "inappropriate_content";
       message := u "I can only help with mathematics education. Please ask a math-related question.";
       severity := "high";
       warning := None; math_score := None; quality_score := None;
       has_refusal := None; has_explanation := None |}
  else
  let score := keyword_hits math_keywords input_lower in
  if (length (strip user_input) <? 5)%nat then
    {| is_valid := false;
       reason := "too_short";
       message := u "Please provide a more detailed question.";
       severity := "low";
       warning := None; math_score := None; quality_score := None;
       has_refusal := None; has_explanation := None |}
  else
  if match polarity user_input with
     | Ok sentiment => (sentiment <? -0.5)%float
     | Raise _ => false
     end
  then
    {| is_valid := false;
       reason := "negative_tone";
       message := u "Please rephrase your question in a respectful manner.";
       severity := "medium";
       warning := None; math_score := None; quality_score := None;
       has_refusal := None; has_explanation := None |}
  else
  if (score =? 0)%nat && negb (_contains_numbers_or_symbols user_input) then
    {| is_valid := true;
       reason := "low_math_relevance";
       message := u "This doesn't seem to be a math question. I'm optimized for mathematics education.";
       severity := "low";
       warning := Some true; math_score := None; quality_score := None;
       has_refusal := None; has_explanation := None |}
  else
    {| is_valid := true;
       reason := "valid";
       message := u "Input validated successfully";
       severity := "none";
       warning := None; math_score := Some score; quality_score := None;
       has_refusal := None; has_explanation := None |}.

Definition validate_output (response : pystr) : verdict :=
  let response_lower := lower response in
  if (length (strip response) <? 20)%nat then
    {| is_valid := false;
       reason := "response_too_short";
       message := u "Generated response is too short. Regenerating...";
       severity := "medium";
       warning := None; math_score := None; quality_score := None;
       has_refusal := None; has_explanation := None |}
  else
  if any_in forbidden_keywords response_lower then
    {| is_valid := false;
       reason := "inappropriate_output";
       message := u "Response contains inappropriate content.";
       severity := "high";
       warning := None; math_score := None; quality_score := None;
       has_refusal := None; has_explanation := None |}
  else
  let refusal := any_in refusal_patterns response_lower in
  let explanation := any_in explanation_words response_lower in
  let quality := 0%nat in
  let quality := if explanation then (quality + 1)%nat else quality in
  let quality := if (100 <? length response)%nat then (quality + 1)%nat else quality in
  let quality := if negb refusal then (quality + 1)%nat else quality in
  {| is_valid := true;
     reason := "valid";
     message := u "Output validated successfully";
     severity := "none";
     warning := None; math_score := None; quality_score := Some quality;
     has_refusal := Some refusal; has_explanation := Some explanation |}.

(** The confidence of [is_math_related] from the three facts it reads off
    the text. *)
Definition math_confidence_of (keyword_count : nat) (has_numbers has_question : bool)
  : float :=
  let confidence := 0.0%float in
  let confidence :=
    if (0 <? keyword_count)%nat
    then (confidence + py_min (float_of_nat keyword_count * 0.2) 0.6)%float
    else confidence in
  let confidence :=
    if has_numbers then (confidence + 0.3)%float else confidence in
  let confidence :=
    if has_question then (confidence + 0.1)%float else confidence in
  confidence.

Definition is_math_related (text : pystr) : bool * float :=
  let text_lower := lower text in
  let keyword_count := keyword_hits math_keywords text_lower in
  let has_numbers := _contains_numbers_or_symbols text in
  let confidence :=
    math_confidence_of keyword_count has_numbers
      (any_in question_words text_lower) in
  let is_math := (0.3 <? confidence)%float in
  (is_math, py_min confidence 1.0).

End Guardrails.

(** ** Formatting numbers *)

(** [str(z)] for a non-negative integer. *)
Definition str_of_Z (z : Z) : pystr :=
  u (DecimalString.NilZero.string_of_uint (N.to_uint (Z.to_N z))).

(** Round the fraction [num / den] ([den > 0]) to an integer, ties to even. *)
Definition round_half_even (num den : Z) : Z :=
  let q := (num / den)%Z in
  let r := (num mod den)%Z in
  if (2 * r <? den)%Z then q
  else if (den <? 2 * r)%Z then (q + 1)%Z
  else if Z.even q then q else (q + 1)%Z.

(** [f"{x:.2f}"]: the exact value of the float, rounded to two decimals,
    ties to even. *)
Definition format_2f (x : float) : pystr :=
  let minus (s : bool) : pystr := if s then u "-" else [] in
  match Prim2SF x with
  | S754_nan => u "nan"
  | S754_infinity s => minus s ++ u "inf"
  | S754_zero s => minus s ++ u "0.00"
  | S754_finite s m e =>
      let hundredths :=
        if (0 <=? e)%Z then (Z.pos m * 100 * 2 ^ e)%Z
        else round_half_even (Z.pos m * 100) (2 ^ (- e)) in
      let cents := (hundredths mod 100)%Z in
      minus s ++ str_of_Z (hundredths / 100) ++ u "."
        ++ (if (cents <? 10)%Z then u "0" else []) ++ str_of_Z cents
  end.

(** ** Data passed between the collaborators and the pipeline *)

(** One entry of the list [VectorStore.search] returns: the keys ['text'],
    ['metadata'] and ['score']. *)
Record passage : Type := {
  chunk_text : pystr;
  chunk_metadata : list (string * pystr);
  chunk_score : float
}.

(** [d.get(key, default)]. *)
Fixpoint dict_get (d : list (string * pystr)) (key : string) (default : pystr)
  : pystr :=
  match d with
  | [] => default
  | (k, v) :: rest => if String.eqb k key then v else dict_get rest key default
  end.

(** One enriched result of [WebSearchAgent.search_math_content]. *)
Record web_result : Type := {
  title : pystr;
  url : pystr;
  snippet : pystr;
  content : pystr;
  is_trusted : bool
}.

(** The dictionary [search_math_content] returns. *)
Record web_search_result : Type := {
  ws_success : bool;
  ws_results : list web_result;
  ws_message : pystr
}.

(** The instance attributes set by [EnhancedRAGOrchestrator.__init__]. *)
Record config : Type := {
  min_confidence_score : float;
  enable_web_search : bool;
  web_search_threshold : float
}.

Definition default_config : config :=
  {| min_confidence_score := 0.5;
     enable_web_search := true;
     web_search_threshold := 0.4 |}.

(** The dictionaries [answer_question] returns; a key that a branch does
    not set is [None]. *)
Record answer_record : Type := {
  answer : pystr;
  source : string;
  success : bool;
  validation : option verdict;
  math_confidence : option float;
  sources : option (list pystr);
  used_kb : option bool;
  used_web : option bool;
  kb_confidence : option float;
  math_relevance : option float;
  input_validation : option verdict;
  output_validation : option verdict;
  session_id : option (option pystr)
}.

(** The dictionary [refine_response] returns. *)
Record refined_record : Type := {
  refined_answer : pystr;
  refined_validation : verdict;
  refined_success : bool
}.

(** ** rag/vector_store.py: the filter of [VectorStore.search] *)

(** One row of the ChromaDB query result: document, metadata, distance. *)
Record raw_hit : Type := {
  hit_document : pystr;
  hit_metadata : list (string * pystr);
  hit_distance : float
}.

(** The formatting loop of [search]: keep the rows whose similarity
    [1 - distance] is at least the threshold. *)
Fixpoint format_results (hits : list raw_hit) (score_threshold : float)
  : list passage :=
  match hits with
  | [] => []
  | hit :: rest =>
      let distance := hit_distance hit in
      let similarity_score := (1 - distance)%float in
      if (score_threshold <=? similarity_score)%float
      then {| chunk_text := hit_document hit;
              chunk_metadata := hit_metadata hit;
              chunk_score := similarity_score |}
           :: format_results rest score_threshold
      else format_results rest score_threshold
  end.

(** ** The collaborators and the calls made to them *)

Inductive event : Type :=
| CallSearch (query : pystr) (n_results : nat) (score_threshold : float)
| CallWebSearch (query : pystr)
| CallGenerate (question : pystr) (context : option pystr) (reply : pystr)
| CallStoreRefined (feedback_id : Z) (refined_response refinement_reason : pystr).

Definition is_search_call (e : event) : bool :=
  match e with CallSearch _ _ _ => true | _ => false end.
Definition is_web_call (e : event) : bool :=
  match e with CallWebSearch _ => true | _ => false end.
Definition is_generate_call (e : event) : bool :=
  match e with CallGenerate _ _ _ => true | _ => false end.

(** The outside world as the pipeline meets it. [vector_store_search] is
    [VectorStore.search]; [search_math_content] is the web agent's method,
    whose whole body sits in a [try] that turns every exception into a
    [success = False] result; [chat_completions_create] is the Groq API call
    with the user message (system prompt, model and sampling parameters are
    the same at every call); [store_refined_response] is the SQLite insert
    of the feedback system, which has no handler of its own. *)
Class Collaborators (World : Type) : Type := {
  vector_store_search :
    World -> pystr -> nat -> float -> Res (list passage) * World;
  search_math_content : World -> pystr -> web_search_result * World;
  chat_completions_create : World -> pystr -> Res pystr * World;
  store_refined_response :
    World -> Z -> pystr -> pystr -> Res unit * World
}.

(** [VectorStore.search] over the raw ChromaDB query. *)
Definition VectorStore_search {World : Type}
    (collection_query : World -> pystr -> nat -> Res (list raw_hit) * World)
    (w : World) (query : pystr) (n_results : nat) (score_threshold : float)
  : Res (list passage) * World :=
  match collection_query w query n_results with
  | (Ok hits, w') => (Ok (format_results hits score_threshold), w')
  | (Raise e, w') => (Raise e, w')
  end.

(** ** The pipeline monad: world passing, exceptions, call trace *)

Definition M (World A : Type) : Type := World -> Res A * World * list event.

Definition ret {World A : Type} (a : A) : M World A :=
  fun w => (Ok a, w, []).

Definition raise {World A : Type} (e : pystr) : M World A :=
  fun w => (Raise e, w, []).

Definition bind {World A B : Type} (m : M World A) (k : A -> M World B)
  : M World B :=
  fun w =>
    match m w with
    | (Ok a, w1, t1) =>
        match k a w1 with
        | (r, w2, t2) => (r, w2, t1 ++ t2)
        end
    | (Raise e, w1, t1) => (Raise e, w1, t1)
    end.

Notation "x <- m ;; k" := (bind m (fun x => k))
  (at level 100, m at next level, right associativity).
Notation "' pat <- m ;; k" :=
  (bind m (fun x => match x with pat => k end))
  (at level 100, pat pattern, m at next level, right associativity).

(** The parts of a finished run. *)
Definition result_of {World A : Type} (run : Res A * World * list event) : Res A :=
  fst (fst run).
Definition trace_of {World A : Type} (run : Res A * World * list event)
  : list event :=
  snd run.

Definition nl : pystr := [10%N].

(** Truth value of a string ([if s:]) and of an optional string. *)
Definition truthy (s : pystr) : bool :=
  match s with [] => false | _ :: _ => true end.
Definition truthy_opt (s : option pystr) : bool :=
  match s with Some t => truthy t | None => false end.

(** [enumerate(xs, start)]. *)
Definition enumerate {A : Type} (start : nat) (xs : list A) : list (nat * A) :=
  combine (seq start (length xs)) xs.

(** The elements of a list without repetitions, each at the place where it
    is first seen. *)
Fixpoint dedup_first_seen (xs : list pystr) : list pystr :=
  match xs with
  | [] => []
  | x :: rest =>
      x :: filter (fun y => negb (str_eqb y x)) (dedup_first_seen rest)
  end.

(** ** mcp/web_search_agent.py *)

Section WebSearchAgent.
Context {rt : TextRuntime}.

(** [re.findall(r'\b\w+\b', s)]: the maximal runs of word characters;
    [cur] is the run being read, last character first. *)
Fixpoint word_runs (s cur : pystr) : list pystr :=
  match s with
  | [] => match cur with [] => [] | _ :: _ => [rev cur] end
  | c :: rest =>
      if re_word c then word_runs rest (c :: cur)
      else match cur with
           | [] => word_runs rest []
           | _ :: _ => rev cur :: word_runs rest []
           end
  end.

Definition result_text (result : web_result) : pystr :=
  lower (title result ++ u " " ++ snippet result ++ u " " ++ content result).

Definition validate_answer_exists (query : pystr) (search_results : list web_result)
  : bool :=
  match search_results with
  | [] => false
  | _ :: _ =>
      let query_terms := dedup_first_seen (word_runs (lower query) []) in
      existsb
        (fun result =>
           let text := result_text result in
           let matches := keyword_hits query_terms text in
           (float_of_nat (length query_terms) * 0.5 <=? float_of_nat matches)%float)
        search_results
  end.

Definition format_search_context (search_results : list web_result) : pystr :=
  match search_results with
  | [] => []
  | _ :: _ =>
      join (nl ++ nl)
        (map
           (fun ir : nat * web_result =>
              let (i, result) := ir in
              let trust_badge :=
                if is_trusted result then u " [TRUSTED SOURCE]" else [] in
              u "Source " ++ str_of_nat i ++ trust_badge ++ u ":" ++ nl
                ++ u "Title: " ++ title result ++ nl
                ++ u "URL: " ++ url result ++ nl
                ++ u "Content: " ++ content result ++ nl)
           (enumerate 1 search_results))
  end.

End WebSearchAgent.

(** ** llm/groq_client.py and rag/enhanced_rag_orchestrator.py

    The [print] calls of the source write to standard output only and are
    left out. *)

Section Pipeline.
Context {World : Type} {rt : TextRuntime} {co : Collaborators World}.

(** The user message [generate_response] builds. *)
Definition user_message (question : pystr) (context : option pystr) : pystr :=
  if truthy_opt context then
    u "Based on the following context from my knowledge base:" ++ nl ++ nl
      ++ match context with Some c => c | None => [] end ++ nl ++ nl
      ++ u "Please answer this question: " ++ question ++ nl ++ nl
      ++ u "Provide a detailed, step-by-step explanation."
  else
    u "I couldn't find relevant information in my knowledge base for this question."
      ++ nl ++ nl
      ++ u "Question: " ++ question ++ nl ++ nl
      ++ u "Please provide a comprehensive, step-by-step explanation using your mathematical expertise.".

Definition llm_error_prefix : pystr := u "Error generating response from LLM: ".

(** What [generate_response] returns for an outcome of the API call: the
    text, or the message of the [except] branch. *)
Definition llm_reply (r : Res pystr) : pystr :=
  match r with
  | Ok text => text
  | Raise e => llm_error_prefix ++ e
  end.

(** [GroqClient.generate_response]: the API call inside [try]; an exception
    becomes the returned text. The call and its reply are recorded. *)
Definition generate_response (question : pystr) (context : option pystr)
  : M World pystr :=
  fun w =>
    let (r, w') := chat_completions_create w (user_message question context) in
    (Ok (llm_reply r), w', [CallGenerate question context (llm_reply r)]).

(** [self.vector_store.search(query=..., n_results=..., score_threshold=...)]. *)
Definition search (query : pystr) (n_results : nat) (score_threshold : float)
  : M World (list passage) :=
  fun w =>
    let (r, w') := vector_store_search w query n_results score_threshold in
    (r, w', [CallSearch query n_results score_threshold]).

(** [self.web_search.search_math_content(question)]. *)
Definition web_search (query : pystr) : M World web_search_result :=
  fun w =>
    let (r, w') := search_math_content w query in
    (Ok r, w', [CallWebSearch query]).

(** [self.feedback_system.store_refined_response(...)]. *)
Definition store_refinement (feedback_id : Z) (refined reason_text : pystr)
  : M World unit :=
  fun w =>
    let (r, w') := store_refined_response w feedback_id refined reason_text in
    (r, w', [CallStoreRefined feedback_id refined reason_text]).

(** [chunk['metadata'].get('source', 'Unknown')]. *)
Definition passage_source (chunk : passage) : pystr :=
  dict_get (chunk_metadata chunk) "source" (u "Unknown").

(** The labelled, scored block of one passage:
    [f"[PDF Source {i+1}: {source} (Relevance: {score:.2f})]\n{chunk['text']}"]. *)
Definition kb_block (ic : nat * passage) : pystr :=
  let (i, chunk) := ic in
  u "[PDF Source " ++ str_of_nat (i + 1) ++ u ": " ++ passage_source chunk
    ++ u " (Relevance: " ++ format_2f (chunk_score chunk) ++ u ")]" ++ nl
    ++ chunk_text chunk.

(** One turn of the loop over [enumerate(kb_results)] in step 4. *)
Definition kb_context_step (acc : list pystr * list pystr) (ic : nat * passage)
  : list pystr * list pystr :=
  let (context_parts, sources) := acc in
  let source := passage_source (snd ic) in
  let context_parts := context_parts ++ [kb_block ic] in
  let sources :=
    if negb (str_in source sources) then sources ++ [source] else sources in
  (context_parts, sources).

Definition kb_context_loop (kb_results : list passage) : list pystr * list pystr :=
  fold_left kb_context_step (enumerate 0 kb_results) ([], []).

Definition safety_instruction : pystr :=
  u " [Please provide a safe, educational response]".

(** Step 3 of [answer_question], after the web agent has answered: the
    pair [(web_context, web_results)]. Results that fail
    [validate_answer_exists] are dropped. *)
Definition web_outcome (question : pystr) (web_search_result : web_search_result)
  : option pystr * option (list web_result) :=
  if ws_success web_search_result
     && match ws_results web_search_result with [] => false | _ :: _ => true end
  then
    let web_results := ws_results web_search_result in
    if validate_answer_exists question web_results
    then (Some (format_search_context web_results), Some web_results)
    else (None, None)
  else (None, None).

(** Step 3 of [answer_question]: the web agent is asked when web search is
    enabled and the knowledge base gave nothing or a weak best score. *)
Definition web_step (cfg : config) (question : pystr)
    (has_kb_context : bool) (best_kb_score : float)
  : M World (option pystr * option (list web_result)) :=
  if enable_web_search cfg
     && (negb has_kb_context || (best_kb_score <? web_search_threshold cfg)%float)
  then
    web_search_result <- web_search question ;;
    ret (web_outcome question web_search_result)
  else ret (None, None).

(** Step 4 of [answer_question]: [(final_context, sources, source_type)]. *)
Definition prepare_context (kb_results : list passage) (has_kb_context : bool)
    (web_context : option pystr) (web_results : option (list web_result))
  : M World (option pystr * list pystr * string) :=
  if has_kb_context then
    let (context_parts, sources) := kb_context_loop kb_results in
    ret (Some (join (nl ++ nl) context_parts), sources, "Knowledge Base (PDF)"%string)
  else if truthy_opt web_context then
    match web_results with
    | Some results =>
        ret (web_context, map url (firstn 2 results), "Web Search"%string)
    | None => raise (u "'NoneType' object is not subscriptable")
    end
  else ret (None, [], "LLM General Knowledge"%string).

(** Steps 5 and 6 of [answer_question]: generate, validate, and generate
    once more when the output verdict is invalid with severity high. *)
Definition generate_validated (question : pystr) (final_context : option pystr)
  : M World (pystr * verdict) :=
  reply <- generate_response question final_context ;;
  let output_verdict := validate_output reply in
  if negb (is_valid output_verdict)
     && String.eqb (severity output_verdict) "high"
  then
    reply <- generate_response (question ++ safety_instruction) final_context ;;
    ret (reply, validate_output reply)
  else ret (reply, output_verdict).

(** Steps 2 to 7 of [answer_question]. *)
Definition answer_from_sources (cfg : config) (question : pystr)
    (session : option pystr) (input_verdict : verdict) (confidence : float)
  : M World answer_record :=
  (* STEP 2: knowledge base search *)
  kb_results <- search question 3 (min_confidence_score cfg) ;;
  let has_kb_context := (0 <? length kb_results)%nat in
  let best_kb_score :=
    match kb_results with
    | first :: _ => chunk_score first
    | [] => 0%float
    end in
  (* STEP 3: web search *)
  '(web_context, web_results) <-
    web_step cfg question has_kb_context best_kb_score ;;
  (* STEP 4: prepare context *)
  '(final_context, cited, source_type) <-
    prepare_context kb_results has_kb_context web_context web_results ;;
  (* STEP 5: generate response; STEP 6: output guardrails *)
  '(reply, output_verdict) <- generate_validated question final_context ;;
  (* STEP 7: prepare response *)
  ret {| answer := reply;
         source := source_type;
         success := true;
         validation := None; math_confidence := None;
         sources := Some cited;
         used_kb := Some has_kb_context;
         used_web := Some (match web_results with Some _ => true | None => false end);
         kb_confidence := Some best_kb_score;
         math_relevance := Some confidence;
         input_validation := Some input_verdict;
         output_validation := Some output_verdict;
         session_id := Some session |}.

Definition answer_question (cfg : config) (question : pystr)
    (session : option pystr) : M World answer_record :=
  (* STEP 1: input guardrails *)
  let input_verdict := validate_input question in
  if negb (is_valid input_verdict) && String.eqb (severity input_verdict) "high"
  then
    ret {| answer := message input_verdict;
           source := "Guardrails Blocked";
           success := false;
           validation := Some input_verdict;
           math_confidence := None; sources := None; used_kb := None;
           used_web := None; kb_confidence := None; math_relevance := None;
           input_validation := None; output_validation := None;
           session_id := None |}
  else
  (* Check math relevance *)
  let (is_math, confidence) := is_math_related question in
  if negb is_math && (confidence <? 0.3)%float then
    ret {| answer := u "I'm a mathematics education assistant. Please ask a math-related question, and I'll be happy to help!";
           source := "Math Filter";
           success := false;
           validation := Some input_verdict;
           math_confidence := Some confidence;
           sources := None; used_kb := None;
           used_web := None; kb_confidence := None; math_relevance := None;
           input_validation := None; output_validation := None;
           session_id := None |}
  else answer_from_sources cfg question session input_verdict confidence.

Definition refinement_prompt (original_question original_response user_feedback : pystr)
  : pystr :=
  nl ++ u "Original Question: " ++ original_question ++ nl ++ nl
    ++ u "Original Answer: " ++ original_response ++ nl ++ nl
    ++ u "User Feedback: " ++ user_feedback ++ nl ++ nl
    ++ u "Please provide an improved answer that addresses the user's feedback." ++ nl
    ++ u "Make sure to:" ++ nl
    ++ u "1. Address the specific concerns mentioned" ++ nl
    ++ u "2. Provide more clarity where requested" ++ nl
    ++ u "3. Include additional examples if needed" ++ nl
    ++ u "4. Maintain mathematical accuracy" ++ nl.

(** [if feedback_id:] on an [Optional[int]]. *)
Definition feedback_id_given (feedback_id : option Z) : bool :=
  match feedback_id with
  | Some id => negb (id =? 0)%Z
  | None => false
  end.

Definition refine_response (original_question original_response user_feedback : pystr)
    (feedback_id : option Z) : M World refined_record :=
  let prompt := refinement_prompt original_question original_response user_feedback in
  refined <- generate_response prompt None ;;
  let verdict_out := validate_output refined in
  _ <- match feedback_id with
       | Some id =>
           if feedback_id_given feedback_id
           then store_refinement id refined user_feedback
           else ret tt
       | None => ret tt
       end ;;
  ret {| refined_answer := refined;
         refined_validation := verdict_out;
         refined_success := true |}.

End Pipeline.

(** ** Names for the decisions of the pipeline, used to state its properties *)

Section Decisions.
Context {rt : TextRuntime}.

(** The test of step 1: the input verdict is invalid with severity high. *)
Definition input_blocked (question : pystr) : bool :=
  negb (is_valid (validate_input question))
  && String.eqb (severity (validate_input question)) "high".

(** The test of the relevance gate. *)
Definition math_filtered (question : pystr) : bool :=
  negb (fst (is_math_related question))
  && (snd (is_math_related question) <? 0.3)%float.

(** The test of step 6 on an output verdict. *)
Definition needs_regeneration (v : verdict) : bool :=
  negb (is_valid v) && String.eqb (severity v) "high".

(** The verdict of [validate_input] on forbidden content, and on a text
    that is too short. *)
Definition forbidden_verdict : verdict :=
  {| is_valid := false;
     reason := "inappropriate_content";
     message := u "I can only help with mathematics education. Please ask a math-related question.";
     severity := "high";
     warning := None; math_score := None; quality_score := None;
     has_refusal := None; has_explanation := None |}.

Definition too_short_verdict : verdict :=
  {| is_valid := false;
     reason := "too_short";
     message := u "Please provide a more detailed question.";
     severity := "low";
     warning := None; math_score := None; quality_score := None;
     has_refusal := None; has_explanation := None |}.

(** What the three patterns of [_contains_numbers_or_symbols] look for. *)
Definition has_math_pattern (text : pystr) : Prop :=
  (exists c, In c text /\
     (re_digit c = true \/ is_math_symbol c = true \/ In c (u "xyzn")))
  \/ contains (u "f(") text = true
  \/ contains (u "g(") text = true.

End Decisions.

(** [kb_results[0]['score'] if kb_results else 0]. *)
Definition best_kb_score (kb_results : list passage) : float :=
  match kb_results with
  | first :: _ => chunk_score first
  | [] => 0%float
  end.

(** The context step 4 joins from the passages. *)
Definition kb_context (kb_results : list passage) : pystr :=
  join (nl ++ nl) (map kb_block (enumerate 0 kb_results)).

(** The condition under which step 3 asks the web agent. *)
Definition web_trigger (cfg : config) (kb_results : list passage) : bool :=
  enable_web_search cfg
  && (negb (0 <? length kb_results)%nat
      || (best_kb_score kb_results <? web_search_threshold cfg)%float).

(** The web-agent calls of a run whose retrieval returned [kb_results]. *)
Definition web_calls (cfg : config) (question : pystr) (kb_results : list passage)
  : list event :=
  if web_trigger cfg kb_results then [CallWebSearch question] else [].

(** The pair of step 3 is consistent: a context comes with its results. *)
Definition web_consistent (web : option pystr * option (list web_result)) : Prop :=
  web = (None, None)
  \/ exists results, web = (Some (format_search_context results), Some results).

(** What step 4 yields on a consistent pair: the context, the cited
    sources and the source label. *)
Definition select_context (kb_results : list passage)
    (web : option pystr * option (list web_result))
  : option pystr * list pystr * string :=
  if (0 <? length kb_results)%nat then
    (Some (kb_context kb_results),
     dedup_first_seen (map passage_source kb_results),
     "Knowledge Base (PDF)"%string)
  else
    match web with
    | (Some c, Some results) =>
        if truthy c then (Some c, map url (firstn 2 results), "Web Search"%string)
        else (None, [], "LLM General Knowledge"%string)
    | _ => (None, [], "LLM General Knowledge"%string)
    end.

(** The context a recorded generator call was given. *)
Definition generate_context (e : event) : option (option pystr) :=
  match e with
  | CallGenerate _ context _ => Some context
  | _ => None
  end.

Section RunShapes.
Context {rt : TextRuntime}.

(** The generator calls of steps 5 and 6: one, or two when the first output
    verdict asks for a regeneration; [reply] is the last reply. *)
Definition generation_shape (question : pystr) (context : option pystr)
    (reply : pystr) (gens : list event) : Prop :=
  (gens = [CallGenerate question context reply]
   /\ needs_regeneration (validate_output reply) = false)
  \/ (exists reply1,
        gens = [CallGenerate question context reply1;
                CallGenerate (question ++ safety_instruction) context reply]
        /\ needs_regeneration (validate_output reply1) = true).

(** The record of step 7. *)
Definition full_record (cfg : config) (session : option pystr)
    (input_verdict : verdict) (confidence : float)
    (kb_results : list passage)
    (web : option pystr * option (list web_result)) (reply : pystr)
  : answer_record :=
  {| answer := reply;
     source := snd (select_context kb_results web);
     success := true;
     validation := None; math_confidence := None;
     sources := Some (snd (fst (select_context kb_results web)));
     used_kb := Some (0 <? length kb_results)%nat;
     used_web := Some (match snd web with Some _ => true | None => false end);
     kb_confidence := Some (best_kb_score kb_results);
     math_relevance := Some confidence;
     input_validation := Some input_verdict;
     output_validation := Some (validate_output reply);
     session_id := Some session |}.

End RunShapes.

(** ** A scripted world and an ASCII runtime, for running the pipeline *)

(** The ASCII runtime: lower-casing, digits and word characters of ASCII
    text, and a sentiment analysis that finds every text neutral. *)
#[export] Instance ascii_runtime : TextRuntime := {|
  lower := map ascii_lower;
  re_digit := ascii_digit;
  re_word := ascii_word;
  polarity := fun _ => Ok 0.0%float;
  lower_ascii := fun _ _ => eq_refl;
  re_digit_ascii := fun _ _ => eq_refl;
  re_word_ascii := fun _ _ => eq_refl
|}.

(** A world that answers from a script: one reply of the retriever, one of
    the web agent, the replies of the LLM API in order, one outcome of the
    feedback database. *)
Record script : Type := {
  kb_reply : Res (list passage);
  web_reply : web_search_result;
  llm_replies : list (Res pystr);
  store_reply : Res unit
}.

#[export] Instance scripted : Collaborators script := {|
  vector_store_search := fun w _ _ _ => (kb_reply w, w);
  search_math_content := fun w _ => (web_reply w, w);
  chat_completions_create := fun w _ =>
    match llm_replies w with
    | [] => (Raise (u "script exhausted"), w)
    | r :: rest =>
        (r, {| kb_reply := kb_reply w; web_reply := web_reply w;
               llm_replies := rest; store_reply := store_reply w |})
    end;
  store_refined_response := fun w _ _ _ => (store_reply w, w)
|}.

Definition no_web : web_search_result :=
  {| ws_success := false; ws_results := []; ws_message := u "No search results found" |}.

(** An empty knowledge base, no web results, and an LLM that answers. *)
Definition quiet_world : script :=
  {| kb_reply := Ok [];
     web_reply := no_web;
     llm_replies :=
       [Ok (u "First, y is a variable; it stands for an unknown number.")];
     store_reply := Ok tt |}.

(** The same world with a feedback database that raises on the insert. *)
Definition failing_store_world : script :=
  {| kb_reply := Ok [];
     web_reply := no_web;
     llm_replies :=
       [Ok (u "First, y is a variable; it stands for an unknown number.")];
     store_reply := Raise (u "database is locked") |}.

(** The scripted world behind an LLM API that is down: every call raises. *)
Definition llm_outage : Collaborators script := {|
  vector_store_search := fun w _ _ _ => (kb_reply w, w);
  search_math_content := fun w _ => (web_reply w, w);
  chat_completions_create := fun w _ => (Raise (u "Connection error."), w);
  store_refined_response := fun w _ _ _ => (store_reply w, w)
|}.

Definition integral_question : pystr := u "Solve the integral of x^2 dx".

Definition calculus_passage (score : float) : passage :=
  {| chunk_text := u "The integral of x^2 is x^3/3 + C.";
     chunk_metadata := [("source"%string, u "calculus.pdf"); ("page"%string, u "12")];
     chunk_score := score |}.

Definition integral_page : web_result :=
  {| title := u "Solve the integral of x^2";
     url := u "https://mathworld.wolfram.com/Integral.html";
     snippet := u "How to solve the integral of x^2 dx";
     content := u "The integral of x^2 dx is x^3/3 + C.";
     is_trusted := true |}.

(** A knowledge base that returns two passages of the given best score, a
    web agent with one relevant page, and an LLM that answers twice. *)
Definition library_world (score : float) : script :=
  {| kb_reply := Ok [calculus_passage score; calculus_passage score];
     web_reply :=
       {| ws_success := true; ws_results := [integral_page];
          ws_message := u "Found 1 relevant sources" |};
     llm_replies :=
       [Ok (u "First, raise the power by one; next, divide by the new power.");
        Ok (u "Because the derivative of x^3/3 is x^2, the integral is x^3/3 + C.")];
     store_reply := Ok tt |}.

(** * More of the repository *)

From Stdlib Require Import Permutation Sorted.
From Stdlib Require DecimalNat DecimalFacts.

(** ** Stages of a run in closed form *)

Section RunStages.
Context {World : Type} {rt : TextRuntime} {co : Collaborators World}.

(** The pair of step 3 and the world after it, for a retrieval that
    returned [kb_results] and left the world [w1]. *)
Definition web_stage (cfg : config) (question : pystr)
    (kb_results : list passage) (w1 : World)
  : (option pystr * option (list web_result)) * World :=
  if web_trigger cfg kb_results
  then (web_outcome question (fst (search_math_content w1 question)),
        snd (search_math_content w1 question))
  else ((None, None), w1).

(** The reply of steps 5 and 6, the world after them and their calls. *)
Definition generation_stage (question : pystr) (context : option pystr)
    (w : World) : pystr * World * list event :=
  let call1 := chat_completions_create w (user_message question context) in
  let reply1 := llm_reply (fst call1) in
  if needs_regeneration (validate_output reply1) then
    let call2 :=
      chat_completions_create (snd call1)
        (user_message (question ++ safety_instruction) context) in
    (llm_reply (fst call2), snd call2,
     [CallGenerate question context reply1;
      CallGenerate (question ++ safety_instruction) context
        (llm_reply (fst call2))])
  else (reply1, snd call1, [CallGenerate question context reply1]).

End RunStages.

(** The reply recorded with a generator call. *)
Definition generate_reply (e : event) : option pystr :=
  match e with
  | CallGenerate _ _ reply => Some reply
  | _ => None
  end.

Definition is_store_call (e : event) : bool :=
  match e with CallStoreRefined _ _ _ => true | _ => false end.

(** The configuration of [__init__] with web search switched off. *)
Definition offline_config : config :=
  {| min_confidence_score := 0.5;
     enable_web_search := false;
     web_search_threshold := 0.4 |}.

(** A world whose vector index raises on every query. *)
Definition broken_index_world : script :=
  {| kb_reply := Raise (u "Collection math_knowledge does not exist.");
     web_reply := no_web;
     llm_replies :=
       [Ok (u "First, y is a variable; it stands for an unknown number.")];
     store_reply := Ok tt |}.

(** An empty knowledge base, a web agent with one relevant page, and an
    LLM whose first reply is too short to pass the output guard. *)
Definition web_only_world : script :=
  {| kb_reply := Ok [];
     web_reply :=
       {| ws_success := true; ws_results := [integral_page];
          ws_message := u "Found 1 relevant sources" |};
     llm_replies := [Ok (u "x^3/3 + C"); Ok (u "never asked for")];
     store_reply := Ok tt |}.

(** ** rag/vector_store.py: the retriever behind the pipeline, and
    [add_documents] *)

(** The collaborators [co] with [VectorStore.search] over the raw query
    [collection_query] as their retriever. *)
Definition with_vector_store {World : Type} (co : Collaborators World)
    (collection_query : World -> pystr -> nat -> Res (list raw_hit) * World)
  : Collaborators World :=
  {| vector_store_search := VectorStore_search collection_query;
     search_math_content := @search_math_content World co;
     chat_completions_create := @chat_completions_create World co;
     store_refined_response := @store_refined_response World co |}.

(** One chunk of [PDFProcessor.split_into_chunks]: the keys ['text'],
    ['metadata'], ['start_index'] and ['end_index']. *)
Record chunk : Type := {
  text_of : pystr;
  metadata_of : list (string * pystr);
  start_index : Z;
  end_index : Z
}.

(** The keyword arguments of one [collection.add] call: four parallel
    lists. *)
Record add_request : Type := {
  add_embeddings : list (list float);
  add_texts : list pystr;
  add_metadatas : list (list (string * pystr));
  add_ids : list pystr
}.

(** [xs[i:j]] for indices that are not negative. *)
Definition slice {A : Type} (xs : list A) (i j : nat) : list A :=
  firstn (j - i) (skipn i xs).

(** [range(0, stop, step)] for a positive step. *)
Definition range_step (stop step : nat) : list nat :=
  map (fun k => k * step)%nat (seq 0 ((stop + step - 1) / step)).

(** [[f"chunk_{i}" for i in range(n)]]. *)
Definition chunk_ids (n : nat) : list pystr :=
  map (fun i => u "chunk_" ++ str_of_nat i) (seq 0 n).

Definition batch_size : nat := 100.

(** The [collection.add] calls [add_documents] makes for the given
    embeddings, in order: one per step of [range(0, len(texts), 100)]. *)
Definition add_requests (chunks : list chunk) (embeddings : list (list float))
  : list add_request :=
  let texts := map text_of chunks in
  let metadatas := map metadata_of chunks in
  let ids := chunk_ids (length chunks) in
  map (fun i =>
         let end_idx := Nat.min (i + batch_size) (length texts) in
         {| add_embeddings := slice embeddings i end_idx;
            add_texts := slice texts i end_idx;
            add_metadatas := slice metadatas i end_idx;
            add_ids := slice ids i end_idx |})
      (range_step (length texts) batch_size).

(** The embedding model and the ChromaDB collection. *)
Class IndexBackend (World : Type) : Type := {
  embed_text : World -> pystr -> Res (list float) * World;
  collection_add : World -> add_request -> Res unit * World;
  reset_collection : World -> World
}.

Section AddDocuments.
Context {World : Type} {ix : IndexBackend World}.

(** [[self.embed_text(text) for text in texts]]: left to right, ending at
    the first exception. *)
Fixpoint embed_all (texts : list pystr) (w : World)
  : Res (list (list float)) * World :=
  match texts with
  | [] => (Ok [], w)
  | text :: rest =>
      match embed_text w text with
      | (Raise e, w1) => (Raise e, w1)
      | (Ok embedding, w1) =>
          match embed_all rest w1 with
          | (Raise e, w2) => (Raise e, w2)
          | (Ok embeddings, w2) => (Ok (embedding :: embeddings), w2)
          end
      end
  end.

(** The loop over the batches; the third component lists the requests the
    collection accepted. *)
Fixpoint add_all (requests : list add_request) (w : World)
  : Res unit * World * list add_request :=
  match requests with
  | [] => (Ok tt, w, [])
  | request :: rest =>
      match collection_add w request with
      | (Raise e, w1) => (Raise e, w1, [])
      | (Ok _, w1) =>
          match add_all rest w1 with
          | (r, w2, accepted) => (r, w2, request :: accepted)
          end
      end
  end.

(** [VectorStore.add_documents]. *)
Definition add_documents (chunks : list chunk) (w : World)
  : Res unit * World * list add_request :=
  match chunks with
  | [] => (Ok tt, w, [])
  | _ :: _ =>
      match embed_all (map text_of chunks) w with
      | (Raise e, w1) => (Raise e, w1, [])
      | (Ok embeddings, w1) => add_all (add_requests chunks embeddings) w1
      end
  end.

End AddDocuments.

(** ** llm/groq_client.py: [generate_followup_response] *)

(** One chat message: role and content. *)
Definition chat_message : Type := (string * pystr)%type.

Definition followup_system_prompt : pystr :=
  u "You are an expert Mathematics Professor. Maintain context from the conversation and provide clear, step-by-step mathematical explanations.".

(** [xs[-n:]] for a positive [n]: the last [n] elements, or all of them. *)
Definition last_n {A : Type} (n : nat) (xs : list A) : list A :=
  skipn (length xs - n) xs.

(** The [messages] list of [generate_followup_response]. *)
Definition followup_messages (question : pystr) (chat_history : list chat_message)
  : list chat_message :=
  [("system"%string, followup_system_prompt)]
    ++ last_n 6 chat_history
    ++ [("user"%string, question)].

(** [generate_followup_response] over the API call [create], which is
    given the whole message list. *)
Definition generate_followup_response {World : Type}
    (create : World -> list chat_message -> Res pystr * World)
    (question : pystr) (chat_history : list chat_message) (w : World)
  : pystr * World :=
  match create w (followup_messages question chat_history) with
  | (Ok content, w') => (content, w')
  | (Raise e, w') => (u "Error generating response: " ++ e, w')
  end.

(** ** mcp/web_search_agent.py: query, ranking, page extraction, search *)

(** One result of the DuckDuckGo client: the keys ['title'], ['href'] and
    ['body'], each read with [.get(key, '')], so that a missing key is the
    empty string. *)
Record raw_result : Type := {
  raw_title : pystr;
  raw_href : pystr;
  raw_body : pystr
}.

Definition trusted_domains : list pystr := map u
  ["khanacademy.org"; "mathworld.wolfram.com"; "wikipedia.org";
   "brilliant.org"; "mathisfun.com";
   "stackoverflow.com/questions/tagged/math"; "math.stackexchange.com";
   "brilliant.org"; "coursera.org"; "mit.edu"; "stanford.edu"]%string.

Definition math_context : list pystr := map u
  ["mathematics"; "math"; "explanation"; "how to"]%string.

Definition edu_keywords : list pystr := map u
  ["tutorial"; "explanation"; "learn"; "guide"; "how to"; "step by step"]%string.

Definition ranking_math_keywords : list pystr := map u
  ["formula"; "equation"; "theorem"; "proof"; "solution"; "calculate"]%string.

(** [re.sub(r'\s+', ' ', text)]: every maximal run of white space becomes
    one space; [in_run] tells that the previous character was white
    space. *)
Fixpoint collapse_whitespace_from (in_run : bool) (text : pystr) : pystr :=
  match text with
  | [] => []
  | c :: rest =>
      if isspace c then
        if in_run then collapse_whitespace_from true rest
        else 32%N :: collapse_whitespace_from true rest
      else c :: collapse_whitespace_from false rest
  end.

Definition collapse_whitespace (text : pystr) : pystr :=
  collapse_whitespace_from false text.

(** [well_spaced after_space text]: every white-space character of [text]
    is a plain space and no two of them stand side by side; [after_space]
    tells that the character before [text] was white space. *)
Fixpoint well_spaced (after_space : bool) (text : pystr) : bool :=
  match text with
  | [] => true
  | c :: rest =>
      if isspace c
      then (c =? 32)%N && negb after_space && well_spaced true rest
      else well_spaced false rest
  end.

(** The text [_extract_content] makes of the texts of the paragraphs it
    found: joined, white space normalised, cut after 1000 characters;
    [None] when nothing is left. *)
Definition extract_text (paragraphs : list pystr) : option pystr :=
  let text := join (u " ") (map strip paragraphs) in
  let text := strip (collapse_whitespace text) in
  let text :=
    if (1000 <? length text)%nat then firstn 1000 text ++ u "..." else text in
  if truthy text then Some text else None.

(** [scored_results.sort(reverse=True, key=lambda x: x[0])]: Python's sort
    is stable, with [reverse=True] too; the one stable descending order is
    built here by insertion, starting from the right end. *)
Fixpoint insert_by_score {A : Type} (x : Z * A) (sorted : list (Z * A))
  : list (Z * A) :=
  match sorted with
  | [] => [x]
  | y :: rest =>
      if (fst y <=? fst x)%Z then x :: sorted
      else y :: insert_by_score x rest
  end.

Definition sort_by_score {A : Type} (scored : list (Z * A)) : list (Z * A) :=
  fold_right insert_by_score [] scored.

(** The search client and the page fetcher: [ddgs_text] is
    [DDGS().text(query, max_results=n)] as a list; [fetch_paragraphs] is
    the HTTP request and the HTML parsing of [_extract_content], giving the
    texts of the paragraphs found. *)
Class WebBackend (World : Type) : Type := {
  ddgs_text : World -> pystr -> nat -> Res (list raw_result) * World;
  fetch_paragraphs : World -> pystr -> Res (list pystr) * World
}.

Section WebSearchAgentSearch.
Context {rt : TextRuntime}.

Definition _is_trusted_domain (url : pystr) : bool :=
  existsb (fun domain => contains domain (lower url)) trusted_domains.

Definition _enhance_math_query (query : pystr) : pystr :=
  let query_lower := lower query in
  if negb (existsb (fun keyword => contains keyword query_lower) math_context)
  then u "mathematics " ++ query ++ u " explanation"
  else query.

(** The score [_filter_results] gives one result. *)
Definition result_score (result : raw_result) : Z :=
  let score := 0%Z in
  let url := lower (raw_href result) in
  let title := lower (raw_title result) in
  let body := lower (raw_body result) in
  let score := if _is_trusted_domain url then (score + 10)%Z else score in
  let score :=
    (score + 2 * Z.of_nat (length (filter
       (fun keyword => contains keyword title || contains keyword body)
       edu_keywords)))%Z in
  let score :=
    (score + 1 * Z.of_nat (length (filter
       (fun keyword => contains keyword title || contains keyword body)
       ranking_math_keywords)))%Z in
  let score :=
    if contains (u "forum") url || contains (u "reddit") url
    then (score - 5)%Z else score in
  score.

Definition _filter_results (results : list raw_result) : list raw_result :=
  let scored_results := map (fun result => (result_score result, result)) results in
  map snd (sort_by_score scored_results).

Context {World : Type} {wb : WebBackend World}.

Definition _extract_content (url : pystr) (w : World) : option pystr * World :=
  match fetch_paragraphs w url with
  | (Ok paragraphs, w') => (extract_text paragraphs, w')
  | (Raise _, w') => (None, w')
  end.

(** The loop over [filtered_results[:2]]: fetch each page, keep the
    results whose content was extracted. *)
Fixpoint enrich (results : list raw_result) (w : World)
  : list web_result * World :=
  match results with
  | [] => ([], w)
  | result :: rest =>
      let (extracted, w1) := _extract_content (raw_href result) w in
      let (more, w2) := enrich rest w1 in
      (match extracted with
       | Some text =>
           if truthy text
           then {| title := raw_title result;
                   url := raw_href result;
                   snippet := raw_body result;
                   content := text;
                   is_trusted := _is_trusted_domain (raw_href result) |} :: more
           else more
       | None => more
       end, w2)
  end.

(** [WebSearchAgent.search_math_content]. *)
Definition WebSearchAgent_search_math_content (query : pystr) (w : World)
  : web_search_result * World :=
  let enhanced_query := _enhance_math_query query in
  match ddgs_text w enhanced_query 3 with
  | (Raise e, w1) =>
      ({| ws_success := false; ws_results := [];
          ws_message := u "Search error: " ++ e |}, w1)
  | (Ok [], w1) =>
      ({| ws_success := false; ws_results := [];
          ws_message := u "No search results found" |}, w1)
  | (Ok results, w1) =>
      let filtered_results := _filter_results results in
      let (enriched_results, w2) := enrich (firstn 2 filtered_results) w1 in
      ({| ws_success := true; ws_results := enriched_results;
          ws_message :=
            u "Found " ++ str_of_nat (length enriched_results)
              ++ u " relevant sources" |}, w2)
  end.

End WebSearchAgentSearch.

(** ** rag/pdf_processor.py: [clean_text] and [split_into_chunks] *)

(** The punctuation the second substitution of [clean_text] keeps: full
    stop, comma, colon, semicolon, exclamation and question mark, minus,
    plus, equals, asterisk, slash, the round, square and curly brackets,
    less-than, greater-than, caret, tilde, and the single and double
    quote. *)
Definition kept_punctuation : list pychar :=
  [46; 44; 58; 59; 33; 63; 45; 43; 61; 42; 47; 40; 41; 91; 93; 123; 125;
   60; 62; 94; 126; 39; 34]%N.

Definition is_kept_punctuation (c : pychar) : bool :=
  existsb (N.eqb c) kept_punctuation.

Section PdfCleaning.
Context {rt : TextRuntime}.

(** [PDFProcessor.clean_text]: white-space runs become one space, then
    every character that is neither a word character, nor white space, nor
    kept punctuation is removed, then the ends are stripped. *)
Definition clean_text (text : pystr) : pystr :=
  let text := collapse_whitespace text in
  let text :=
    filter (fun c => re_word c || isspace c || is_kept_punctuation c) text in
  strip text.

End PdfCleaning.

Definition py_len (text : pystr) : Z := Z.of_nat (length text).

(** An index of a slice, as Python reads it: negative indices count from
    the end, and the result is clamped to the text. *)
Definition slice_index (len i : Z) : Z :=
  if (i <? 0)%Z then Z.max 0 (i + len) else Z.min i len.

(** [text[start:stop]]. *)
Definition py_slice (text : pystr) (start stop : Z) : pystr :=
  let i := slice_index (py_len text) start in
  let j := slice_index (py_len text) stop in
  firstn (Z.to_nat (j - i)) (skipn (Z.to_nat i) text).

(** The candidates of [rfind], from the highest down: [start + count - 1],
    ..., [start]. *)
Fixpoint rfind_down (sub text : pystr) (start : Z) (count : nat) : Z :=
  match count with
  | O => (-1)%Z
  | S k =>
      let i := (start + Z.of_nat k)%Z in
      if starts_with sub (skipn (Z.to_nat i) text) then i
      else rfind_down sub text start k
  end.

(** [text.rfind(sub, start, stop)]: the highest index at which [sub]
    occurs inside [text[start:stop]], or -1. *)
Definition rfind (sub text : pystr) (start stop : Z) : Z :=
  let len := py_len text in
  let stop :=
    if (len <? stop)%Z then len
    else if (stop <? 0)%Z then Z.max 0 (stop + len) else stop in
  let start := if (start <? 0)%Z then Z.max 0 (start + len) else start in
  rfind_down sub text start (Z.to_nat (stop - py_len sub - start + 1)).

(** Where the chunk that begins at [start] ends: [chunk_size] characters
    on, or just after the last '. ' of the window when that lies in its
    second half and the text goes on beyond the window. *)
Definition chunk_end (text : pystr) (chunk_size start : Z) : Z :=
  let stop := (start + chunk_size)%Z in
  if (stop <? py_len text)%Z then
    let last_period := rfind (u ". ") text start stop in
    if negb (last_period =? -1)%Z && (start + chunk_size / 2 <? last_period)%Z
    then (last_period + 1)%Z
    else stop
  else stop.

(** The [while] loop of [split_into_chunks] from the position [start];
    [None] when [fuel] turns of the loop were not enough. *)
Fixpoint split_loop (fuel : nat) (text : pystr) (chunk_size chunk_overlap : Z)
    (metadata : list (string * pystr)) (start : Z) : option (list chunk) :=
  match fuel with
  | O => None
  | S fuel' =>
      if (start <? py_len text)%Z then
        let stop := chunk_end text chunk_size start in
        let chunk_text := strip (py_slice text start stop) in
        match split_loop fuel' text chunk_size chunk_overlap metadata
                (stop - chunk_overlap) with
        | None => None
        | Some later =>
            Some (if truthy chunk_text
                  then {| text_of := chunk_text;
                          metadata_of := metadata;
                          start_index := start;
                          end_index := stop |} :: later
                  else later)
        end
      else Some []
  end.

(** [PDFProcessor.split_into_chunks] with the attributes [chunk_size] and
    [chunk_overlap]; [metadata or {}] is the given dictionary, or the
    empty one. *)
Definition split_into_chunks (fuel : nat) (chunk_size chunk_overlap : Z)
    (text : pystr) (metadata : option (list (string * pystr)))
  : option (list chunk) :=
  if truthy text then
    split_loop fuel text chunk_size chunk_overlap
      (match metadata with Some m => m | None => [] end) 0
  else Some [].

(** ** feedback/human_loop.py: the feedback database

    The three tables as lists of rows in insertion order. Each function
    is what its SQL statements do on a database that executes them; the
    errors of SQLite itself are not part of this model. The [timestamp]
    and [last_updated] columns, which these functions never read, are left
    out. *)

Record feedback_row : Type := {
  fb_id : Z;
  fb_question : pystr;
  fb_response : pystr;
  fb_source : pystr;
  fb_rating : option Z;
  fb_feedback_text : option pystr;
  fb_session_id : option pystr;
  fb_is_refined : bool
}.

Record refinement_row : Type := {
  rf_id : Z;
  rf_original_feedback_id : Z;
  rf_refined_response : pystr;
  rf_refinement_reason : pystr
}.

Record analytics_row : Type := {
  an_id : Z;
  an_question_type : pystr;
  an_avg_rating : float;
  an_total_responses : Z;
  an_positive_feedback : Z;
  an_negative_feedback : Z
}.

(** The database: the rows of each table and, for each, the largest id
    [AUTOINCREMENT] has given out. *)
Record feedback_db : Type := {
  feedback_table : list feedback_row;
  feedback_seq : Z;
  refinements_table : list refinement_row;
  refinements_seq : Z;
  analytics_table : list analytics_row;
  analytics_seq : Z
}.

(** The database after [_initialize_database] on a new file. *)
Definition empty_db : feedback_db :=
  {| feedback_table := []; feedback_seq := 0;
     refinements_table := []; refinements_seq := 0;
     analytics_table := []; analytics_seq := 0 |}.

(** An integer stored in a [REAL] column or met by a float in Python
    arithmetic (exact below 2^53). *)
Definition float_of_Z (z : Z) : float :=
  match z with
  | Z0 => 0%float
  | Zpos _ => PrimFloat.of_uint63 (Uint63.of_Z z)
  | Zneg _ => (- PrimFloat.of_uint63 (Uint63.of_Z (- z)))%float
  end.

(** [1 if rating >= 4 else 0] and [1 if rating <= 2 else 0]. *)
Definition positive_vote (rating : Z) : Z := if (4 <=? rating)%Z then 1 else 0.
Definition negative_vote (rating : Z) : Z := if (rating <=? 2)%Z then 1 else 0.

(** [UPDATE response_analytics SET ... WHERE id = aid]. *)
Definition update_analytics_row (aid : Z) (new_avg : float)
    (new_total new_positive new_negative : Z) (rows : list analytics_row)
  : list analytics_row :=
  map (fun row =>
         if (an_id row =? aid)%Z
         then {| an_id := an_id row;
                 an_question_type := an_question_type row;
                 an_avg_rating := new_avg;
                 an_total_responses := new_total;
                 an_positive_feedback := new_positive;
                 an_negative_feedback := new_negative |}
         else row)
      rows.

(** [FeedbackSystem._update_analytics]. *)
Definition _update_analytics (source : pystr) (rating : option Z)
    (db : feedback_db) : feedback_db :=
  match rating with
  | None => db
  | Some rating =>
      match find (fun row => str_eqb (an_question_type row) source)
                 (analytics_table db) with
      | Some result =>
          let aid := an_id result in
          let avg_rating := an_avg_rating result in
          let total := an_total_responses result in
          let new_total := (total + 1)%Z in
          let new_avg :=
            ((avg_rating * float_of_Z total + float_of_Z rating)
             / float_of_Z new_total)%float in
          let new_positive := (an_positive_feedback result + positive_vote rating)%Z in
          let new_negative := (an_negative_feedback result + negative_vote rating)%Z in
          {| feedback_table := feedback_table db;
             feedback_seq := feedback_seq db;
             refinements_table := refinements_table db;
             refinements_seq := refinements_seq db;
             analytics_table :=
               update_analytics_row aid new_avg new_total new_positive
                 new_negative (analytics_table db);
             analytics_seq := analytics_seq db |}
      | None =>
          {| feedback_table := feedback_table db;
             feedback_seq := feedback_seq db;
             refinements_table := refinements_table db;
             refinements_seq := refinements_seq db;
             analytics_table :=
               analytics_table db ++
                 [{| an_id := analytics_seq db + 1;
                     an_question_type := source;
                     an_avg_rating := float_of_Z rating;
                     an_total_responses := 1;
                     an_positive_feedback := positive_vote rating;
                     an_negative_feedback := negative_vote rating |}];
             analytics_seq := (analytics_seq db + 1)%Z |}
      end
  end.

(** [FeedbackSystem.record_feedback]: the new id and the database. *)
Definition record_feedback (question response source : pystr)
    (rating : option Z) (feedback_text session : option pystr)
    (db : feedback_db) : Z * feedback_db :=
  let feedback_id := (feedback_seq db + 1)%Z in
  let db :=
    {| feedback_table :=
         feedback_table db ++
           [{| fb_id := feedback_id;
               fb_question := question;
               fb_response := response;
               fb_source := source;
               fb_rating := rating;
               fb_feedback_text := feedback_text;
               fb_session_id := session;
               fb_is_refined := false |}];
       feedback_seq := feedback_id;
       refinements_table := refinements_table db;
       refinements_seq := refinements_seq db;
       analytics_table := analytics_table db;
       analytics_seq := analytics_seq db |} in
  (feedback_id, _update_analytics source rating db).

(** The dictionary [request_refinement] returns. *)
Record refinement_request : Type := {
  rr_success : bool;
  rr_message : option pystr;
  rr_feedback_id : option Z;
  rr_question : option pystr;
  rr_original_response : option pystr;
  rr_user_input : option pystr;
  rr_source : option pystr
}.

(** [FeedbackSystem.request_refinement]. *)
Definition request_refinement (feedback_id : Z) (user_input : pystr)
    (db : feedback_db) : refinement_request * feedback_db :=
  match find (fun row => (fb_id row =? feedback_id)%Z) (feedback_table db) with
  | None =>
      ({| rr_success := false;
          rr_message := Some (u "Feedback not found");
          rr_feedback_id := None; rr_question := None;
          rr_original_response := None; rr_user_input := None;
          rr_source := None |}, db)
  | Some result =>
      ({| rr_success := true;
          rr_message := None;
          rr_feedback_id := Some feedback_id;
          rr_question := Some (fb_question result);
          rr_original_response := Some (fb_response result);
          rr_user_input := Some user_input;
          rr_source := Some (fb_source result) |},
       {| feedback_table :=
            map (fun row =>
                   if (fb_id row =? feedback_id)%Z
                   then {| fb_id := fb_id row;
                           fb_question := fb_question row;
                           fb_response := fb_response row;
                           fb_source := fb_source row;
                           fb_rating := fb_rating row;
                           fb_feedback_text := fb_feedback_text row;
                           fb_session_id := fb_session_id row;
                           fb_is_refined := true |}
                   else row)
                (feedback_table db);
          feedback_seq := feedback_seq db;
          refinements_table := refinements_table db;
          refinements_seq := refinements_seq db;
          analytics_table := analytics_table db;
          analytics_seq := analytics_seq db |})
  end.

(** One call of [record_feedback]: its arguments. *)
Record feedback_call : Type := {
  call_question : pystr;
  call_response : pystr;
  call_source : pystr;
  call_rating : option Z;
  call_feedback_text : option pystr;
  call_session_id : option pystr
}.

(** The database after a series of [record_feedback] calls. *)
Definition record_all (calls : list feedback_call) (db : feedback_db)
  : feedback_db :=
  fold_left
    (fun db call =>
       snd (record_feedback (call_question call) (call_response call)
              (call_source call) (call_rating call)
              (call_feedback_text call) (call_session_id call) db))
    calls db.

(** The sources and ratings a series of calls passes, in order. *)
Definition given_by_calls (calls : list feedback_call)
  : list (pystr * option Z) :=
  map (fun call => (call_source call, call_rating call)) calls.

(** The ratings given for one source, oldest first. *)
Definition ratings_of (source : pystr) (given : list (pystr * option Z))
  : list Z :=
  flat_map (fun entry =>
              if str_eqb (fst entry) source
              then match snd entry with Some r => [r] | None => [] end
              else [])
           given.

(** The row of [response_analytics] the [SELECT] of [_update_analytics]
    fetches for a source. *)
Definition analytics_of (source : pystr) (db : feedback_db)
  : option analytics_row :=
  find (fun row => str_eqb (an_question_type row) source) (analytics_table db).

Definition count_if (p : Z -> bool) (xs : list Z) : Z :=
  Z.of_nat (length (filter p xs)).

(** The analytics table agrees with the sources and ratings recorded so
    far. *)
Definition analytics_agree (given : list (pystr * option Z))
    (db : feedback_db) : Prop :=
  NoDup (map an_id (analytics_table db))
  /\ Forall (fun i => (i <= analytics_seq db)%Z)
            (map an_id (analytics_table db))
  /\ NoDup (map an_question_type (analytics_table db))
  /\ forall source,
       let ratings := ratings_of source given in
       match analytics_of source db with
       | None => ratings = []
       | Some row =>
           ratings <> []
           /\ an_total_responses row = Z.of_nat (length ratings)
           /\ an_positive_feedback row = count_if (Z.leb 4) ratings
           /\ an_negative_feedback row = count_if (fun r => (r <=? 2)%Z) ratings
       end.

(** The answer of [request_refinement] to an id it does not find. *)
Definition feedback_not_found : refinement_request :=
  {| rr_success := false;
     rr_message := Some (u "Feedback not found");
     rr_feedback_id := None; rr_question := None;
     rr_original_response := None; rr_user_input := None;
     rr_source := None |}.

(** ** rag/pdf_processor.py: loading, and [initialize_knowledge_base] *)

(** Opening a file and reading its pages with PyPDF2: the texts of the
    pages, or the exception of [open], [PdfReader] or [extract_text]. *)
Class PdfFiles (World : Type) : Type := {
  pdf_pages : World -> pystr -> Res (list pystr) * World
}.

(** [pdf_path.split('/')[-1]]: what follows the last slash. *)
Fixpoint last_component (path : pystr) : pystr :=
  match path with
  | [] => []
  | c :: rest =>
      if existsb (N.eqb 47) rest then last_component rest
      else if N.eqb c 47 then rest
      else c :: rest
  end.

(** [d[k] = v] on a dictionary kept in insertion order: a key that is
    present keeps its place. *)
Fixpoint dict_set (d : list (pystr * pystr)) (k v : pystr)
  : list (pystr * pystr) :=
  match d with
  | [] => [(k, v)]
  | (k', v') :: rest =>
      if str_eqb k' k then (k', v) :: rest
      else (k', v') :: dict_set rest k v
  end.

(** The report [initialize_knowledge_base] returns; the key
    ['pdfs_loaded'] is only there on success. *)
Record kb_report : Type := {
  kb_success : bool;
  kb_message : pystr;
  kb_chunks_count : nat;
  kb_pdfs_loaded : option nat
}.

Section KnowledgeBase.
Context {World : Type} {rt : TextRuntime} {files : PdfFiles World}
        {ix : IndexBackend World}.

(** [PDFProcessor.load_pdf]. *)
Definition load_pdf (pdf_path : pystr) (w : World) : Res pystr * World :=
  match pdf_pages w pdf_path with
  | (Ok pages, w1) => (Ok (concat (map (fun page => page ++ nl) pages)), w1)
  | (Raise e, w1) =>
      (Raise (u "Error loading PDF " ++ pdf_path ++ u ": " ++ e), w1)
  end.

(** The loop of [load_multiple_pdfs] over the paths left, with the
    dictionary built so far; a file that cannot be loaded is skipped with a
    printed warning. *)
Fixpoint load_loop (pdf_paths : list pystr) (pdf_texts : list (pystr * pystr))
    (w : World) : list (pystr * pystr) * World :=
  match pdf_paths with
  | [] => (pdf_texts, w)
  | pdf_path :: rest =>
      let filename := last_component pdf_path in
      match load_pdf pdf_path w with
      | (Ok text, w1) => load_loop rest (dict_set pdf_texts filename text) w1
      | (Raise _, w1) => load_loop rest pdf_texts w1
      end
  end.

(** [PDFProcessor.load_multiple_pdfs]. *)
Definition load_multiple_pdfs (pdf_paths : list pystr) (w : World)
  : list (pystr * pystr) * World :=
  load_loop pdf_paths [] w.

(** The loop of [process_pdfs] over the loaded texts; the chunking of a
    text gets one turn more than the text has characters, and [None] says
    it did not end within them. *)
Fixpoint chunk_texts (chunk_size chunk_overlap : Z)
    (pdf_texts : list (pystr * pystr)) : option (list chunk) :=
  match pdf_texts with
  | [] => Some []
  | (filename, text) :: rest =>
      let cleaned_text := clean_text text in
      match split_into_chunks (S (length cleaned_text)) chunk_size
              chunk_overlap cleaned_text (Some [("source"%string, filename)]) with
      | None => None
      | Some chunks =>
          match chunk_texts chunk_size chunk_overlap rest with
          | None => None
          | Some more => Some (chunks ++ more)
          end
      end
  end.

(** [PDFProcessor.process_pdfs]. *)
Definition process_pdfs (chunk_size chunk_overlap : Z) (pdf_paths : list pystr)
    (w : World) : option (list chunk) * World :=
  let (pdf_texts, w1) := load_multiple_pdfs pdf_paths w in
  (chunk_texts chunk_size chunk_overlap pdf_texts, w1).

(** [EnhancedRAGOrchestrator.initialize_knowledge_base], whose processor
    is built with a chunk size of 1000 and an overlap of 200: the report,
    the world and the requests the collection accepted. *)
Definition initialize_knowledge_base (pdf_paths : list pystr) (w : World)
  : option (kb_report * World * list add_request) :=
  match process_pdfs 1000 200 pdf_paths w with
  | (None, _) => None
  | (Some [], w1) =>
      Some ({| kb_success := false;
               kb_message := u "No content extracted from PDFs";
               kb_chunks_count := 0;
               kb_pdfs_loaded := None |}, w1, [])
  | (Some chunks, w1) =>
      let w2 := reset_collection w1 in
      match add_documents chunks w2 with
      | (Ok _, w3, accepted) =>
          Some ({| kb_success := true;
                   kb_message :=
                     u "Successfully loaded " ++ str_of_nat (length pdf_paths)
                       ++ u " PDFs";
                   kb_chunks_count := length chunks;
                   kb_pdfs_loaded := Some (length pdf_paths) |}, w3, accepted)
      | (Raise e, w3, accepted) =>
          Some ({| kb_success := false;
                   kb_message := u "Error: " ++ e;
                   kb_chunks_count := 0;
                   kb_pdfs_loaded := None |}, w3, accepted)
      end
  end.

End KnowledgeBase.

(** ** Concrete inputs for the further properties *)

Definition calculus_hit (distance : float) : raw_hit :=
  {| hit_document := u "The integral of x^2 is x^3/3 + C.";
     hit_metadata := [("source"%string, u "calculus.pdf")];
     hit_distance := distance |}.

(** A collection that answers every query with one near and one far hit. *)
Definition shelf_query (w : script) (query : pystr) (n_results : nat)
  : Res (list raw_hit) * script :=
  (Ok [calculus_hit 0.2; calculus_hit 0.7], w).

(** An index that keeps nothing: every text embeds to its length, every
    [add] is accepted. *)
Definition memory_index : IndexBackend unit :=
  {| embed_text := fun w text => (Ok [float_of_nat (length text)], w);
     collection_add := fun w _ => (Ok tt, w);
     reset_collection := fun w => w |}.

Definition two_chunks : list chunk :=
  [{| text_of := u "The integral of x^2 is x^3/3 + C.";
      metadata_of := [("source"%string, u "calculus.pdf")];
      start_index := 0; end_index := 33 |};
   {| text_of := u "The derivative of x^3/3 is x^2.";
      metadata_of := [("source"%string, u "calculus.pdf")];
      start_index := 30; end_index := 61 |}].

Definition sample_paragraphs : list pystr :=
  [u "  The integral   of x^2 "; u "is x^3/3 + C.  "].

Definition sample_text : pystr :=
  u "One is less. Two is more than one. Three is most of all.".

(** * Properties *)

(** ** The model on small inputs *)

Example format_2f_values :
  map format_2f [0.8; 0.125; 2.675; 0.39; 99.995; -0.001]%float
  = map u ["0.80"; "0.12"; "2.67"; "0.39"; "100.00"; "-0.00"]%string.
Proof. vm_compute. reflexivity. Qed.

Example strip_value : strip (u "  ab c
 ") = u "ab c".
Proof. reflexivity. Qed.

Example contains_values :
  (contains (u "kill") (u "skills"), contains (u "ab") (u "b"), contains [] [])
  = (true, false, true).
Proof. reflexivity. Qed.

Example float_sums :
  ((0.2 + 0.1 <? 0.3)%float, (0.3 <? 0.2 + 0.1)%float, (0.0 + 0.3 <? 0.3)%float,
   py_min (float_of_nat 3 * 0.2) 0.6)
  = (false, true, false, 0.6%float).
Proof. vm_compute. reflexivity. Qed.

Example is_math_related_values :
  (is_math_related (u "y"), is_math_related (u "hello there"),
   fst (is_math_related (u "what is algebra")))
  = ((false, 0.3%float), (false, 0%float), true).
Proof. vm_compute. reflexivity. Qed.

Example word_runs_value :
  word_runs (u "solve x^2, please") [] = map u ["solve"; "x"; "2"; "please"]%string.
Proof. reflexivity. Qed.

Example kb_context_value :
  kb_context [calculus_passage 0.8] =
  u "[PDF Source 1: calculus.pdf (Relevance: 0.80)]
The integral of x^2 is x^3/3 + C.".
Proof. vm_compute. reflexivity. Qed.

(** ** Text *)

Lemma str_eqb_eq (a b : pystr) : str_eqb a b = true <-> a = b.
Proof.
  revert b. induction a as [| x a IH]; intros [| y b]; simpl;
    try (split; [discriminate | congruence]).
  - tauto.
  - rewrite andb_true_iff, N.eqb_eq, IH. split.
    + intros [-> ->]. reflexivity.
    + intros E. injection E as -> ->. split; reflexivity.
Qed.

Lemma str_eqb_refl (a : pystr) : str_eqb a a = true.
Proof. apply str_eqb_eq. reflexivity. Qed.

Lemma str_in_In (x : pystr) (xs : list pystr) : str_in x xs = true <-> In x xs.
Proof.
  unfold str_in. rewrite existsb_exists. split.
  - intros [y [Hy E]]. apply str_eqb_eq in E. subst. exact Hy.
  - intros H. exists x. split; [exact H | apply str_eqb_refl].
Qed.

(** A one-character needle is found exactly when the character occurs. *)
Lemma contains_char (c : pychar) (s : pystr) :
  contains [c] s = true <-> In c s.
Proof.
  induction s as [| d s IH]; simpl.
  - split; [discriminate | tauto].
  - rewrite orb_true_iff, IH. destruct (N.eqb_spec c d) as [-> | Hne]; simpl.
    + split; auto.
    + split.
      * intros [H | H]; [discriminate | auto].
      * intros [H | H]; [congruence | auto].
Qed.

Lemma any_in_intro (keywords : list pystr) (k text : pystr) :
  In k keywords -> contains k text = true -> any_in keywords text = true.
Proof.
  intros Hin Hc. unfold any_in. apply existsb_exists. exists k. auto.
Qed.

Lemma keyword_hits_le (keywords : list pystr) (text : pystr) :
  (keyword_hits keywords text <= length keywords)%nat.
Proof. unfold keyword_hits. apply filter_length_le. Qed.

(** ** Floats *)

(** A score that passes the retriever's threshold 0.5 is not below the
    web-search threshold 0.4. *)
Lemma above_half_not_below_two_fifths (s : float) :
  (0.5 <=? s)%float = true -> (s <? 0.4)%float = false.
Proof.
  rewrite FloatAxioms.leb_spec, FloatAxioms.ltb_spec.
  replace (Prim2SF 0.5) with (S754_finite false 4503599627370496 (-53))
    by (vm_compute; reflexivity).
  replace (Prim2SF 0.4) with (S754_finite false 7205759403792794 (-54))
    by (vm_compute; reflexivity).
  destruct (Prim2SF s) as [sg | sg | | sg m e]; unfold SFleb, SFltb, SFcompare.
  - discriminate.
  - destruct sg; [discriminate | reflexivity].
  - reflexivity.
  - destruct sg; [discriminate |].
    destruct (Z.compare_spec (-53) e) as [E | E | E].
    + subst e. intros _. reflexivity.
    + intros _. destruct (Z.compare_spec e (-54)); try lia; reflexivity.
    + discriminate.
Qed.

(** With a numeric or symbolic pattern present the confidence is at least
    0.3, whatever the number of keyword hits the vocabulary allows. *)
Lemma confidence_with_numbers (keyword_count : nat) (has_question : bool) :
  (keyword_count <= length math_keywords)%nat ->
  let confidence :=
    py_min (math_confidence_of keyword_count true has_question) 1.0 in
  (0.3 <=? confidence)%float = true /\ (confidence <? 0.3)%float = false.
Proof.
  intros Hle.
  assert (Hall :
    forallb (fun kc =>
      forallb (fun hq =>
        let c := py_min (math_confidence_of kc true hq) 1.0 in
        (0.3 <=? c)%float && negb (c <? 0.3)%float) [true; false])
      (seq 0 (S (length math_keywords))) = true) by (vm_compute; reflexivity).
  rewrite forallb_forall in Hall.
  specialize (Hall keyword_count).
  rewrite forallb_forall in Hall.
  assert (Hin : In keyword_count (seq 0 (S (length math_keywords)))).
  { apply in_seq. lia. }
  specialize (Hall Hin has_question).
  assert (Hq : In has_question [true; false]) by (destruct has_question; simpl; auto).
  specialize (Hall Hq). cbv zeta in Hall.
  apply andb_true_iff in Hall as [H1 H2]. apply negb_true_iff in H2.
  split; assumption.
Qed.

(** ** Deduplication in first-seen order *)

Lemma dedup_first_seen_In (x : pystr) (xs : list pystr) :
  In x (dedup_first_seen xs) <-> In x xs.
Proof.
  induction xs as [| y xs IH]; simpl; [tauto |].
  rewrite filter_In, IH, negb_true_iff.
  destruct (str_eqb x y) eqn:E.
  - apply str_eqb_eq in E. subst. split; auto.
  - split.
    + intros [H | [H _]]; auto.
    + intros [H | H]; [subst; rewrite str_eqb_refl in E; discriminate | auto].
Qed.

Lemma dedup_first_seen_NoDup (xs : list pystr) : NoDup (dedup_first_seen xs).
Proof.
  induction xs as [| y xs IH]; simpl; constructor.
  - rewrite filter_In, str_eqb_refl. intros [_ H]. discriminate.
  - apply NoDup_filter. exact IH.
Qed.

Lemma filter_both {A : Type} (f g : A -> bool) (l : list A) :
  filter f (filter g l) = filter (fun x => g x && f x) l.
Proof.
  induction l as [| a l IH]; simpl; [reflexivity |].
  destruct (g a); simpl; [destruct (f a) |]; rewrite IH; reflexivity.
Qed.

(** The loop of step 4, started from the lists [parts] and [seen]: the
    blocks are appended in order, and [seen] is followed by the labels that
    are new, each once, in first-seen order. *)
Lemma kb_context_loop_from (items : list (nat * passage))
    (parts seen : list pystr) :
  fold_left kb_context_step items (parts, seen) =
    (parts ++ map kb_block items,
     seen ++ filter (fun y => negb (str_in y seen))
               (dedup_first_seen (map (fun ic => passage_source (snd ic)) items))).
Proof.
  revert parts seen. induction items as [| ic items IH]; intros parts seen; simpl.
  - rewrite !app_nil_r. reflexivity.
  - rewrite IH. f_equal.
    + rewrite <- app_assoc. reflexivity.
    + set (src := passage_source (snd ic)).
      set (rest := dedup_first_seen _).
      rewrite filter_both.
      destruct (str_in src seen) eqn:Hin; simpl.
      * f_equal. apply filter_ext_in. intros y _.
        destruct (str_eqb y src) eqn:E; [| reflexivity].
        apply str_eqb_eq in E. subst y. rewrite Hin. reflexivity.
      * rewrite <- app_assoc. simpl. f_equal. f_equal.
        apply filter_ext. intros y. unfold str_in.
        rewrite existsb_app. simpl. rewrite orb_false_r.
        rewrite negb_orb. apply andb_comm.
Qed.

Lemma enumerate_snd {A : Type} (start : nat) (xs : list A) :
  map snd (enumerate start xs) = xs.
Proof.
  unfold enumerate. revert start.
  induction xs as [| x xs IH]; intros start; simpl; [reflexivity |].
  rewrite IH. reflexivity.
Qed.

(** The loop of step 4 computes the blocks of the passages and their
    labels, deduplicated in first-seen order. *)
Lemma kb_context_loop_eq (kb_results : list passage) :
  kb_context_loop kb_results =
    (map kb_block (enumerate 0 kb_results),
     dedup_first_seen (map passage_source kb_results)).
Proof.
  unfold kb_context_loop. rewrite kb_context_loop_from. simpl. f_equal.
  rewrite <- (map_map snd passage_source), enumerate_snd.
  induction (dedup_first_seen (map passage_source kb_results)) as [| y l IH];
    simpl; [reflexivity |].
  rewrite IH. reflexivity.
Qed.

(** ** The retriever *)

(** [VectorStore.search] keeps its contract: every score it returns is at
    least the threshold it was passed. *)
Lemma format_results_scores (hits : list raw_hit) (score_threshold : float) :
  forall p, In p (format_results hits score_threshold) ->
    (score_threshold <=? chunk_score p)%float = true.
Proof.
  induction hits as [| hit hits IH]; simpl; [contradiction |].
  destruct (score_threshold <=? 1 - hit_distance hit)%float eqn:Hkeep.
  - intros p [<- | Hin]; [exact Hkeep | apply IH; exact Hin].
  - exact IH.
Qed.

Lemma VectorStore_search_contract {World : Type}
    (collection_query : World -> pystr -> nat -> Res (list raw_hit) * World)
    (w w' : World) (query : pystr) (n_results : nat) (score_threshold : float)
    (kb_results : list passage) :
  VectorStore_search collection_query w query n_results score_threshold
    = (Ok kb_results, w') ->
  forall p, In p kb_results -> (score_threshold <=? chunk_score p)%float = true.
Proof.
  unfold VectorStore_search.
  destruct (collection_query w query n_results) as [[hits | e] w0];
    [| discriminate].
  intros H. injection H as <- _. apply format_results_scores.
Qed.

(** ** The guardrails *)

Section GuardrailFacts.
Context {rt : TextRuntime}.

Lemma validate_input_forbidden (user_input : pystr) :
  any_in forbidden_keywords (lower user_input) = true ->
  validate_input user_input = forbidden_verdict.
Proof. intros H. unfold validate_input. rewrite H. reflexivity. Qed.

Lemma validate_input_too_short (user_input : pystr) :
  any_in forbidden_keywords (lower user_input) = false ->
  (length (strip user_input) < 5)%nat ->
  validate_input user_input = too_short_verdict.
Proof.
  intros H Hlen. unfold validate_input. rewrite H.
  apply Nat.ltb_lt in Hlen. rewrite Hlen. reflexivity.
Qed.

Lemma input_blocked_forbidden (question : pystr) :
  any_in forbidden_keywords (lower question) = true ->
  input_blocked question = true.
Proof.
  intros H. unfold input_blocked. rewrite (validate_input_forbidden _ H).
  reflexivity.
Qed.

(** The verdict is invalid with severity high only for forbidden content. *)
Lemma input_blocked_iff (question : pystr) :
  input_blocked question = any_in forbidden_keywords (lower question).
Proof.
  unfold input_blocked, validate_input.
  destruct (any_in forbidden_keywords (lower question)); [reflexivity |].
  destruct (length (strip question) <? 5)%nat; [reflexivity |].
  destruct (match polarity question with
            | Ok sentiment => (sentiment <? -0.5)%float
            | Raise _ => false
            end); [reflexivity |].
  destruct ((keyword_hits math_keywords (lower question) =? 0)%nat
            && negb (_contains_numbers_or_symbols question)); reflexivity.
Qed.

Lemma contains_numbers_or_symbols_intro (text : pystr) :
  has_math_pattern text -> _contains_numbers_or_symbols text = true.
Proof.
  unfold _contains_numbers_or_symbols, math_patterns. simpl.
  rewrite orb_false_r.
  intros [[c [Hin [Hd | [Hs | Hv]]]] | [Hf | Hg]].
  - apply orb_true_iff. left. unfold search_digits.
    apply existsb_exists. eauto.
  - apply orb_true_iff. right. apply orb_true_iff. left.
    unfold search_symbols. apply existsb_exists. eauto.
  - apply orb_true_iff. right. apply orb_true_iff. right.
    unfold search_variables.
    apply any_in_intro with (k := [c]).
    + simpl in Hv. destruct Hv as [<- | [<- | [<- | [<- | []]]]]; simpl; auto.
    + apply contains_char. exact Hin.
  - apply orb_true_iff. right. apply orb_true_iff. right.
    unfold search_variables. apply any_in_intro with (k := u "f("); simpl; auto 8.
  - apply orb_true_iff. right. apply orb_true_iff. right.
    unfold search_variables. apply any_in_intro with (k := u "g("); simpl; auto 9.
Qed.

(** An ASCII digit is a digit for the first pattern, whatever the runtime. *)
Lemma ascii_digit_has_math_pattern (text : pystr) (c : pychar) :
  In c text -> ascii_digit c = true -> has_math_pattern text.
Proof.
  intros Hin Hdigit. left. exists c. split; [exact Hin |]. left.
  rewrite re_digit_ascii; [exact Hdigit |].
  unfold ascii_digit in Hdigit. unfold is_ascii.
  apply andb_true_iff in Hdigit as [_ Hle].
  apply N.leb_le in Hle. apply N.ltb_lt. lia.
Qed.

Lemma math_filtered_with_numbers (text : pystr) :
  _contains_numbers_or_symbols text = true ->
  (0.3 <=? snd (is_math_related text))%float = true
  /\ math_filtered text = false.
Proof.
  intros H. unfold math_filtered, is_math_related. rewrite H. cbn [fst snd].
  destruct (confidence_with_numbers
              (keyword_hits math_keywords (lower text))
              (any_in question_words (lower text))
              (keyword_hits_le _ _)) as [H1 H2].
  cbv zeta in H1, H2. split; [exact H1 |].
  rewrite H2. apply andb_false_r.
Qed.

End GuardrailFacts.

(** ** Runs of the pipeline *)

Section PipelineFacts.
Context {World : Type} {rt : TextRuntime} {co : Collaborators World}.

Lemma bind_ok {A B : Type} (m : M World A) (k : A -> M World B)
    (w w1 w2 : World) (a : A) (r : Res B) (t1 t2 t : list event) :
  m w = (Ok a, w1, t1) -> k a w1 = (r, w2, t2) -> t = t1 ++ t2 ->
  bind m k w = (r, w2, t).
Proof. intros Hm Hk ->. unfold bind. rewrite Hm, Hk. reflexivity. Qed.

Lemma bind_raise {A B : Type} (m : M World A) (k : A -> M World B)
    (w w1 : World) (e : pystr) (t1 : list event) :
  m w = (Raise e, w1, t1) -> bind m k w = (Raise e, w1, t1).
Proof. intros Hm. unfold bind. rewrite Hm. reflexivity. Qed.

(** [generate_response] always returns: the reply of the API, or the error
    text; it makes one call. *)
Lemma generate_response_run (question : pystr) (context : option pystr) (w : World) :
  let call := chat_completions_create w (user_message question context) in
  generate_response question context w =
    (Ok (llm_reply (fst call)), snd call,
     [CallGenerate question context (llm_reply (fst call))]).
Proof.
  cbv zeta. unfold generate_response.
  destruct (chat_completions_create w (user_message question context)).
  reflexivity.
Qed.

(** Steps 5 and 6 in closed form. *)
Lemma generate_validated_run (question : pystr) (context : option pystr) (w : World) :
  let call1 := chat_completions_create w (user_message question context) in
  let reply1 := llm_reply (fst call1) in
  let call2 :=
    chat_completions_create (snd call1)
      (user_message (question ++ safety_instruction) context) in
  let reply2 := llm_reply (fst call2) in
  generate_validated question context w =
    if needs_regeneration (validate_output reply1)
    then (Ok (reply2, validate_output reply2), snd call2,
          [CallGenerate question context reply1;
           CallGenerate (question ++ safety_instruction) context reply2])
    else (Ok (reply1, validate_output reply1), snd call1,
          [CallGenerate question context reply1]).
Proof.
  cbv zeta. unfold generate_validated, needs_regeneration.
  set (call1 := chat_completions_create w (user_message question context)).
  destruct (negb (is_valid (validate_output (llm_reply (fst call1))))
            && String.eqb (severity (validate_output (llm_reply (fst call1)))) "high")
    eqn:Hregen.
  - eapply bind_ok; [apply generate_response_run | | reflexivity].
    fold call1. cbv zeta. rewrite Hregen.
    eapply bind_ok; [apply generate_response_run | reflexivity | reflexivity].
  - eapply bind_ok; [apply generate_response_run | | reflexivity].
    fold call1. cbv zeta. rewrite Hregen. reflexivity.
Qed.

Lemma web_outcome_consistent (question : pystr) (r : web_search_result) :
  web_consistent (web_outcome question r).
Proof.
  unfold web_outcome, web_consistent.
  destruct (ws_success r && _); [| left; reflexivity].
  destruct (validate_answer_exists question (ws_results r)).
  - right. eexists. reflexivity.
  - left. reflexivity.
Qed.

(** Step 3 never raises, asks the web agent exactly when the trigger holds,
    and leaves a consistent pair. *)
Lemma web_step_run (cfg : config) (question : pystr) (kb_results : list passage)
    (w : World) :
  exists web w',
    web_step cfg question (0 <? length kb_results)%nat (best_kb_score kb_results) w
      = (Ok web, w', web_calls cfg question kb_results)
    /\ web_consistent web
    /\ (web_trigger cfg kb_results = false -> web = (None, None)).
Proof.
  unfold web_step, web_calls, web_trigger.
  destruct (enable_web_search cfg
            && (negb (0 <? length kb_results)%nat
                || (best_kb_score kb_results <? web_search_threshold cfg)%float)).
  - unfold bind, web_search, ret.
    destruct (search_math_content w question) as [r w'].
    exists (web_outcome question r), w'. split; [reflexivity |].
    split; [apply web_outcome_consistent | discriminate].
  - exists (None, None), w. split; [reflexivity |].
    split; [left; reflexivity | reflexivity].
Qed.

(** Step 4 does not raise on a consistent pair. *)
Lemma prepare_context_run (kb_results : list passage)
    (web : option pystr * option (list web_result)) (w : World) :
  web_consistent web ->
  prepare_context kb_results (0 <? length kb_results)%nat (fst web) (snd web) w
    = (Ok (select_context kb_results web), w, []).
Proof.
  intros Hweb. unfold prepare_context, select_context.
  destruct (0 <? length kb_results)%nat.
  - rewrite kb_context_loop_eq. reflexivity.
  - destruct Hweb as [-> | [results ->]]; [reflexivity |].
    cbn [fst snd truthy_opt].
    destruct (truthy (format_search_context results)); reflexivity.
Qed.

Lemma generate_validated_shape (question : pystr) (context : option pystr)
    (w : World) :
  exists reply w' gens,
    generate_validated question context w
      = (Ok (reply, validate_output reply), w', gens)
    /\ generation_shape question context reply gens.
Proof.
  rewrite generate_validated_run. cbv zeta.
  destruct (needs_regeneration _) eqn:Hregen.
  - do 3 eexists. split; [reflexivity |]. right. eexists. split; [reflexivity | exact Hregen].
  - do 3 eexists. split; [reflexivity |]. left. split; [reflexivity | exact Hregen].
Qed.

(** A run of steps 2 to 7 after a retrieval that returned. *)
Lemma answer_from_sources_run (cfg : config) (question : pystr)
    (session : option pystr) (input_verdict : verdict) (confidence : float)
    (w w1 : World) (kb_results : list passage) :
  vector_store_search w question 3 (min_confidence_score cfg) = (Ok kb_results, w1) ->
  exists web w2 reply w3 gens,
    web_consistent web
    /\ (web_trigger cfg kb_results = false -> web = (None, None))
    /\ generate_validated question (fst (fst (select_context kb_results web))) w2
         = (Ok (reply, validate_output reply), w3, gens)
    /\ generation_shape question (fst (fst (select_context kb_results web))) reply gens
    /\ answer_from_sources cfg question session input_verdict confidence w
         = (Ok (full_record cfg session input_verdict confidence kb_results web reply),
            w3,
            CallSearch question 3 (min_confidence_score cfg)
              :: web_calls cfg question kb_results ++ gens).
Proof.
  intros Hsearch.
  destruct (web_step_run cfg question kb_results w1) as [web [w2 [Hweb [Hcons Hnone]]]].
  destruct (generate_validated_shape question
              (fst (fst (select_context kb_results web))) w2)
    as [reply [w3 [gens [Hgen Hshape]]]].
  exists web, w2, reply, w3, gens.
  repeat split; try assumption.
  unfold answer_from_sources.
  eapply bind_ok
    with (t1 := [CallSearch question 3 (min_confidence_score cfg)])
         (t2 := web_calls cfg question kb_results ++ gens);
    [| | reflexivity].
  { unfold search. rewrite Hsearch. reflexivity. }
  cbv zeta.
  eapply bind_ok with (t2 := gens); [exact Hweb | | reflexivity].
  destruct web as [web_context web_results].
  eapply bind_ok with (t1 := []) (t2 := gens); [| | reflexivity].
  { apply (prepare_context_run kb_results (web_context, web_results) w2 Hcons). }
  destruct (select_context kb_results (web_context, web_results))
    as [[final_context cited] source_type] eqn:Hsel.
  eapply bind_ok with (t2 := []); [exact Hgen | | symmetry; apply app_nil_r].
  unfold full_record. rewrite Hsel. reflexivity.
Qed.

(** A retrieval that raises ends the run with its exception. *)
Lemma answer_from_sources_raise (cfg : config) (question : pystr)
    (session : option pystr) (input_verdict : verdict) (confidence : float)
    (w w1 : World) (e : pystr) :
  vector_store_search w question 3 (min_confidence_score cfg) = (Raise e, w1) ->
  answer_from_sources cfg question session input_verdict confidence w
    = (Raise e, w1, [CallSearch question 3 (min_confidence_score cfg)]).
Proof.
  intros Hsearch. unfold answer_from_sources.
  apply bind_raise. unfold search. rewrite Hsearch. reflexivity.
Qed.

(** The three ways [answer_question] goes on after its gates. *)
Lemma answer_question_blocked (cfg : config) (question : pystr)
    (session : option pystr) (w : World) :
  input_blocked question = true ->
  exists r,
    answer_question cfg question session w = (Ok r, w, [])
    /\ answer r = message (validate_input question)
    /\ source r = "Guardrails Blocked"%string
    /\ success r = false
    /\ used_web r = None.
Proof.
  intros H. unfold answer_question. cbv zeta.
  change (negb (is_valid (validate_input question))
          && String.eqb (severity (validate_input question)) "high")
    with (input_blocked question).
  rewrite H. eexists. split; [reflexivity |]. repeat split.
Qed.

Lemma answer_question_filtered (cfg : config) (question : pystr)
    (session : option pystr) (w : World) :
  input_blocked question = false -> math_filtered question = true ->
  exists r,
    answer_question cfg question session w = (Ok r, w, [])
    /\ source r = "Math Filter"%string
    /\ success r = false
    /\ used_web r = None.
Proof.
  intros H Hm. unfold answer_question. cbv zeta.
  change (negb (is_valid (validate_input question))
          && String.eqb (severity (validate_input question)) "high")
    with (input_blocked question).
  rewrite H. unfold math_filtered in Hm.
  destruct (is_math_related question) as [is_math confidence].
  cbn [fst snd] in Hm. rewrite Hm.
  eexists. split; [reflexivity |]. repeat split.
Qed.

Lemma answer_question_passed (cfg : config) (question : pystr)
    (session : option pystr) :
  input_blocked question = false -> math_filtered question = false ->
  answer_question cfg question session =
    answer_from_sources cfg question session (validate_input question)
      (snd (is_math_related question)).
Proof.
  intros H Hm. unfold answer_question. cbv zeta.
  change (negb (is_valid (validate_input question))
          && String.eqb (severity (validate_input question)) "high")
    with (input_blocked question).
  rewrite H. unfold math_filtered in Hm.
  destruct (is_math_related question) as [is_math confidence].
  cbn [fst snd] in Hm. rewrite Hm. reflexivity.
Qed.

End PipelineFacts.

(** ** The claims *)

Section Claims.
Context {World : Type} {rt : TextRuntime} {co : Collaborators World}.

Lemma no_web_call_in_generation (question : pystr) (context : option pystr)
    (reply : pystr) (gens : list event) :
  generation_shape question context reply gens ->
  existsb is_web_call gens = false
  /\ filter is_generate_call gens = gens
  /\ existsb is_generate_call gens = true.
Proof.
  intros [[-> _] | [reply1 [-> _]]]; repeat split.
Qed.

Lemma web_calls_facts (cfg : config) (question : pystr) (kb_results : list passage) :
  existsb is_web_call (web_calls cfg question kb_results) = web_trigger cfg kb_results
  /\ filter is_generate_call (web_calls cfg question kb_results) = [].
Proof.
  unfold web_calls. destruct (web_trigger cfg kb_results); split; reflexivity.
Qed.

Lemma web_trigger_true_iff (cfg : config) (kb_results : list passage) :
  web_trigger cfg kb_results = true <->
  enable_web_search cfg = true
  /\ (kb_results = []
      \/ (best_kb_score kb_results <? web_search_threshold cfg)%float = true).
Proof.
  unfold web_trigger. rewrite andb_true_iff, orb_true_iff.
  destruct kb_results as [| first rest]; simpl.
  - intuition auto.
  - intuition (auto; discriminate).
Qed.

(** C1: an input in which a forbidden term occurs after lower-casing gets
    the verdict invalid with severity high from [validate_input], and
    [answer_question] returns at once the record with source
    'Guardrails Blocked' and success false: the world is unchanged and no
    collaborator call is recorded. *)
Theorem forbidden_input_is_blocked (cfg : config) (question : pystr)
    (session : option pystr) (w : World) :
  any_in forbidden_keywords (lower question) = true ->
  (severity (validate_input question) = "high"%string
   /\ is_valid (validate_input question) = false)
  /\ exists r,
       answer_question cfg question session w = (Ok r, w, [])
       /\ source r = "Guardrails Blocked"%string
       /\ success r = false.
Proof.
  intros H. split.
  - rewrite (validate_input_forbidden _ H). split; reflexivity.
  - destruct (answer_question_blocked cfg question session w
                (input_blocked_forbidden _ H)) as [r [Hrun [_ [Hsrc [Hok _]]]]].
    exists r. auto.
Qed.

(** C2: in a run that passes both gates and whose retrieval returns, the
    web agent is called if and only if web search is enabled and the
    result list is empty or its best score is below the web-search
    threshold; with the threshold 0.4, a best score of 0.39 has it called
    and a best score of 0.40 has it not called. *)
Theorem web_search_invoked_iff (cfg : config) (question : pystr)
    (session : option pystr) (w w1 : World) (kb_results : list passage) :
  input_blocked question = false ->
  math_filtered question = false ->
  vector_store_search w question 3 (min_confidence_score cfg) = (Ok kb_results, w1) ->
  let calls := trace_of (answer_question cfg question session w) in
  (existsb is_web_call calls = true <->
     enable_web_search cfg = true
     /\ (kb_results = []
         \/ (best_kb_score kb_results <? web_search_threshold cfg)%float = true))
  /\ (enable_web_search cfg = true ->
      web_search_threshold cfg = 0.4%float ->
      forall first rest, kb_results = first :: rest ->
        (chunk_score first = 0.39%float -> existsb is_web_call calls = true)
        /\ (chunk_score first = 0.40%float -> existsb is_web_call calls = false)).
Proof.
  intros Hblock Hfilter Hsearch calls.
  assert (Hcalls : existsb is_web_call calls = web_trigger cfg kb_results).
  { unfold calls. rewrite (answer_question_passed cfg question session Hblock Hfilter).
    destruct (answer_from_sources_run cfg question session
                (validate_input question) (snd (is_math_related question))
                w w1 kb_results Hsearch)
      as [web [w2 [reply [w3 [gens [_ [_ [_ [Hshape Hrun]]]]]]]]].
    rewrite Hrun. unfold trace_of. cbn [snd existsb is_web_call].
    rewrite existsb_app.
    destruct (no_web_call_in_generation _ _ _ _ Hshape) as [-> _].
    rewrite orb_false_r. apply web_calls_facts. }
  rewrite Hcalls. split.
  - apply web_trigger_true_iff.
  - intros Hen Hthr first rest ->. unfold web_trigger.
    rewrite Hen, Hthr. cbn [best_kb_score length Nat.ltb Nat.leb negb orb andb].
    split; intros ->; reflexivity.
Qed.

Lemma select_context_kb (kb_results : list passage)
    (web : option pystr * option (list web_result)) :
  kb_results <> [] ->
  select_context kb_results web =
    (Some (kb_context kb_results),
     dedup_first_seen (map passage_source kb_results),
     "Knowledge Base (PDF)"%string).
Proof.
  intros Hne. unfold select_context.
  destruct kb_results; [congruence | reflexivity].
Qed.

Lemma select_context_source (kb_results : list passage)
    (web : option pystr * option (list web_result)) :
  snd (select_context kb_results web) <> "Math Filter"%string.
Proof.
  unfold select_context.
  destruct (0 <? length kb_results)%nat; [discriminate |].
  destruct web as [[c |] [results |]]; try discriminate.
  destruct (truthy c); discriminate.
Qed.

(** Every way a run of [answer_question] can end. *)
Lemma answer_question_cases (cfg : config) (question : pystr)
    (session : option pystr) (w : World) :
  (exists r,
     answer_question cfg question session w = (Ok r, w, [])
     /\ used_web r = None /\ success r = false
     /\ (source r = "Guardrails Blocked"%string
         \/ input_blocked question = false /\ math_filtered question = true))
  \/ (exists e w1,
        vector_store_search w question 3 (min_confidence_score cfg) = (Raise e, w1)
        /\ answer_question cfg question session w
             = (Raise e, w1, [CallSearch question 3 (min_confidence_score cfg)]))
  \/ (exists kb_results w1 web w2 reply w3 gens,
        input_blocked question = false /\ math_filtered question = false
        /\ vector_store_search w question 3 (min_confidence_score cfg)
             = (Ok kb_results, w1)
        /\ (web_trigger cfg kb_results = false -> web = (None, None))
        /\ generate_validated question
             (fst (fst (select_context kb_results web))) w2
             = (Ok (reply, validate_output reply), w3, gens)
        /\ generation_shape question
             (fst (fst (select_context kb_results web))) reply gens
        /\ answer_question cfg question session w
             = (Ok (full_record cfg session (validate_input question)
                      (snd (is_math_related question)) kb_results web reply),
                w3,
                CallSearch question 3 (min_confidence_score cfg)
                  :: web_calls cfg question kb_results ++ gens)).
Proof.
  destruct (input_blocked question) eqn:Hblock.
  { left. destruct (answer_question_blocked cfg question session w Hblock)
      as [r [Hrun [_ [Hsrc [Hok Hweb]]]]].
    exists r. auto. }
  destruct (math_filtered question) eqn:Hfilter.
  { left. destruct (answer_question_filtered cfg question session w Hblock Hfilter)
      as [r [Hrun [Hsrc [Hok Hweb]]]].
    exists r. auto 6. }
  right. rewrite (answer_question_passed cfg question session Hblock Hfilter).
  destruct (vector_store_search w question 3 (min_confidence_score cfg))
    as [[kb_results | e] w1] eqn:Hsearch.
  - right.
    destruct (answer_from_sources_run cfg question session
                (validate_input question) (snd (is_math_related question))
                w w1 kb_results Hsearch)
      as [web [w2 [reply [w3 [gens [_ [Hnone [Hgen [Hshape Hrun]]]]]]]]].
    exists kb_results, w1, web, w2, reply, w3, gens. auto 8.
  - left. exists e, w1. split; [reflexivity |].
    apply answer_from_sources_raise. exact Hsearch.
Qed.

(** C3: in a run whose retrieval returned a non-empty list and that ends
    with validated web results ([used_web] true), the source is
    'Knowledge Base (PDF)' and not 'Web Search', every generator call is
    given the context joined from the passage blocks alone, and [sources]
    is the list of passage labels deduplicated in first-seen order. *)
Theorem knowledge_base_has_priority (cfg : config) (question : pystr)
    (session : option pystr) (w w1 w' : World) (kb_results : list passage)
    (r : answer_record) (calls : list event) :
  vector_store_search w question 3 (min_confidence_score cfg) = (Ok kb_results, w1) ->
  kb_results <> [] ->
  answer_question cfg question session w = (Ok r, w', calls) ->
  used_web r = Some true ->
  source r = "Knowledge Base (PDF)"%string
  /\ source r <> "Web Search"%string
  /\ sources r = Some (dedup_first_seen (map passage_source kb_results))
  /\ existsb is_generate_call calls = true
  /\ (forall e, In e calls -> is_generate_call e = true ->
        generate_context e = Some (Some (kb_context kb_results))).
Proof.
  intros Hsearch Hne Hrun Hweb.
  destruct (answer_question_cases cfg question session w)
    as [[r0 [Hrun0 [Hnoweb _]]]
        | [[e [w2 [Hraise _]]]
           | [kb [w2 [web [w3 [reply [w4 [gens
               [_ [_ [Hsearch' [_ [_ [Hshape Hrun']]]]]]]]]]]]]]].
  - rewrite Hrun0 in Hrun. injection Hrun as <- _ _. congruence.
  - congruence.
  - rewrite Hsearch in Hsearch'. injection Hsearch' as <- <-.
    rewrite Hrun' in Hrun. injection Hrun as <- _ <-.
    rewrite (select_context_kb kb_results web Hne) in Hshape.
    cbn [fst snd] in Hshape.
    unfold full_record. cbn [source sources].
    rewrite (select_context_kb kb_results web Hne). cbn [fst snd].
    split; [reflexivity |]. split; [discriminate |]. split; [reflexivity |].
    split.
    + cbn [existsb is_generate_call orb]. rewrite existsb_app.
      destruct (no_web_call_in_generation _ _ _ _ Hshape) as [_ [_ ->]].
      apply orb_true_r.
    + intros e [<- | Hin] Hgen; [discriminate |].
      apply in_app_or in Hin as [Hin | Hin].
      * unfold web_calls in Hin.
        destruct (web_trigger cfg kb_results); [| contradiction].
        destruct Hin as [<- | []]. discriminate.
      * destruct Hshape as [[-> _] | [reply1 [-> _]]]; simpl in Hin;
          intuition (subst; reflexivity).
Qed.

(** C4: the generator calls of a run are none (the run ended before step
    5), one, or two; the second call is there exactly when the verdict of
    [validate_output] on the first reply is invalid with severity high, it
    has the same context and the question with the safety instruction
    appended, and nothing follows it. *)
Theorem generator_called_at_most_twice (cfg : config) (question : pystr)
    (session : option pystr) (w : World) :
  let gens :=
    filter is_generate_call (trace_of (answer_question cfg question session w)) in
  (length gens <= 2)%nat
  /\ (gens = []
      \/ (exists context reply,
            gens = [CallGenerate question context reply]
            /\ needs_regeneration (validate_output reply) = false)
      \/ (exists context reply1 reply2,
            gens = [CallGenerate question context reply1;
                    CallGenerate (question ++ safety_instruction) context reply2]
            /\ needs_regeneration (validate_output reply1) = true)).
Proof.
  cbv zeta.
  destruct (answer_question_cases cfg question session w)
    as [[r0 [Hrun0 _]]
        | [[e [w2 [_ Hraise]]]
           | [kb [w2 [web [w3 [reply [w4 [gens
               [_ [_ [_ [_ [_ [Hshape Hrun]]]]]]]]]]]]]]].
  - rewrite Hrun0. simpl. split; [lia | auto].
  - rewrite Hraise. simpl. split; [lia | auto].
  - rewrite Hrun. unfold trace_of. cbn [snd filter is_generate_call].
    rewrite filter_app.
    destruct (web_calls_facts cfg question kb) as [_ ->].
    destruct (no_web_call_in_generation _ _ _ _ Hshape) as [_ [-> _]].
    cbn [app].
    destruct Hshape as [[-> Hno] | [reply1 [-> Hyes]]].
    + split; [simpl; lia |]. right. left. eauto.
    + split; [simpl; lia |]. right. right. eauto.
Qed.

(** C5, as the code has it: when every call of the LLM API raises, a run
    that passes both gates and whose retrieval returns does not raise; it
    returns a record with success true whose answer is the text
    'Error generating response from LLM: ' followed by the message of the
    exception. *)
Theorem generation_failure_returned_as_text (cfg : config) (question : pystr)
    (session : option pystr) (w w1 : World) (kb_results : list passage) :
  input_blocked question = false ->
  math_filtered question = false ->
  vector_store_search w question 3 (min_confidence_score cfg) = (Ok kb_results, w1) ->
  (forall w0 prompt, exists e, fst (chat_completions_create w0 prompt) = Raise e) ->
  exists r e,
    result_of (answer_question cfg question session w) = Ok r
    /\ success r = true
    /\ answer r = llm_error_prefix ++ e.
Proof.
  intros Hblock Hfilter Hsearch Hfail.
  rewrite (answer_question_passed cfg question session Hblock Hfilter).
  destruct (answer_from_sources_run cfg question session
              (validate_input question) (snd (is_math_related question))
              w w1 kb_results Hsearch)
    as [web [w2 [reply [w3 [gens [_ [_ [Hgen [_ Hrun]]]]]]]]].
  rewrite Hrun. unfold result_of. cbn [fst].
  rewrite generate_validated_run in Hgen. cbv zeta in Hgen.
  set (context := fst (fst (select_context kb_results web))) in Hgen.
  set (call1 := chat_completions_create w2 (user_message question context)) in Hgen.
  destruct (Hfail w2 (user_message question context)) as [e1 He1].
  destruct (Hfail (snd call1)
              (user_message (question ++ safety_instruction) context)) as [e2 He2].
  fold call1 in He1.
  destruct (needs_regeneration (validate_output (llm_reply (fst call1))));
    injection Hgen as <- _ _ _.
  - eexists. exists e2. split; [reflexivity |]. split; [reflexivity |].
    cbn [full_record answer]. rewrite He2. reflexivity.
  - eexists. exists e1. split; [reflexivity |]. split; [reflexivity |].
    cbn [full_record answer]. rewrite He1. reflexivity.
Qed.

(** C6, as the code has it: with a feedback id that is given and not 0,
    [refine_response] returns the refined answer with success true when the
    insert into the feedback database succeeds, and raises the exception of
    the insert when it fails. *)
Theorem refine_response_depends_on_store
    (original_question original_response user_feedback : pystr)
    (feedback_id : Z) (w : World) :
  feedback_id <> 0%Z ->
  let generation :=
    chat_completions_create w
      (user_message
         (refinement_prompt original_question original_response user_feedback)
         None) in
  let refined := llm_reply (fst generation) in
  let stored :=
    store_refined_response (snd generation) feedback_id refined user_feedback in
  result_of
    (refine_response original_question original_response user_feedback
       (Some feedback_id) w)
  = match fst stored with
    | Ok _ =>
        Ok {| refined_answer := refined;
              refined_validation := validate_output refined;
              refined_success := true |}
    | Raise e => Raise e
    end.
Proof.
  intros Hid. cbv zeta. unfold refine_response, feedback_id_given.
  apply Z.eqb_neq in Hid. rewrite Hid. cbn [negb].
  unfold bind at 1. rewrite generate_response_run. cbv zeta.
  unfold bind, store_refinement, ret, result_of.
  destruct (store_refined_response _ feedback_id _ user_feedback) as [[[] | e] w'];
    reflexivity.
Qed.

Lemma single_letter_y_facts :
  validate_input (u "y") = too_short_verdict
  /\ input_blocked (u "y") = false
  /\ math_filtered (u "y") = false.
Proof.
  assert (Hlower : lower (u "y") = u "y").
  { rewrite lower_ascii; reflexivity. }
  assert (Hclean : any_in forbidden_keywords (lower (u "y")) = false).
  { rewrite Hlower. vm_compute. reflexivity. }
  split; [| split].
  - apply validate_input_too_short; [exact Hclean | simpl; lia].
  - rewrite input_blocked_iff. exact Hclean.
  - apply math_filtered_with_numbers, contains_numbers_or_symbols_intro.
    left. exists 121%N. split; [left; reflexivity |].
    right. right. right. left. reflexivity.
Qed.

(** C7, as the code has it: for the question "y", [validate_input] gives
    the verdict too_short with severity low, and [answer_question] goes on:
    whenever the retrieval returns, the run calls the retriever and the
    generator and ends with a record of success true that carries the
    too_short verdict as its input validation. *)
Theorem single_letter_question_proceeds (cfg : config) (session : option pystr)
    (w w1 : World) (kb_results : list passage) :
  vector_store_search w (u "y") 3 (min_confidence_score cfg) = (Ok kb_results, w1) ->
  (reason (validate_input (u "y")) = "too_short"%string
   /\ severity (validate_input (u "y")) = "low"%string
   /\ is_valid (validate_input (u "y")) = false)
  /\ exists r w' calls,
       answer_question cfg (u "y") session w = (Ok r, w', calls)
       /\ success r = true
       /\ input_validation r = Some too_short_verdict
       /\ existsb is_search_call calls = true
       /\ existsb is_generate_call calls = true.
Proof.
  intros Hsearch.
  destruct single_letter_y_facts as [Hverdict [Hblock Hfilter]].
  split; [rewrite Hverdict; repeat split |].
  rewrite (answer_question_passed cfg (u "y") session Hblock Hfilter).
  destruct (answer_from_sources_run cfg (u "y") session
              (validate_input (u "y")) (snd (is_math_related (u "y")))
              w w1 kb_results Hsearch)
    as [web [w2 [reply [w3 [gens [_ [_ [_ [Hshape Hrun]]]]]]]]].
  rewrite Hrun, Hverdict. do 3 eexists. split; [reflexivity |].
  repeat split.
  cbn [existsb is_generate_call orb]. rewrite existsb_app.
  destruct (no_web_call_in_generation _ _ _ _ Hshape) as [_ [_ ->]].
  apply orb_true_r.
Qed.

(** C8: a response whose stripped length is below 20 gets from
    [validate_output] the verdict invalid, reason response_too_short,
    severity medium, whatever it contains. *)
Theorem short_output_is_rejected (response : pystr) :
  (length (strip response) < 20)%nat ->
  is_valid (validate_output response) = false
  /\ reason (validate_output response) = "response_too_short"%string
  /\ severity (validate_output response) = "medium"%string.
Proof.
  intros Hlen. unfold validate_output.
  apply Nat.ltb_lt in Hlen. rewrite Hlen. repeat split.
Qed.

(** C9: with the configuration of [__init__] (retrieval threshold 0.5,
    web search enabled, web threshold 0.4) and a retriever whose returned
    scores are all at least the threshold it was passed, the best score of
    a non-empty result list is never below 0.4, and the web agent is called
    exactly when the result list is empty. *)
Theorem web_search_only_for_empty_results (question : pystr)
    (session : option pystr) (w w1 : World) (kb_results : list passage) :
  input_blocked question = false ->
  math_filtered question = false ->
  vector_store_search w question 3 (min_confidence_score default_config)
    = (Ok kb_results, w1) ->
  (forall p, In p kb_results ->
     (min_confidence_score default_config <=? chunk_score p)%float = true) ->
  (kb_results <> [] ->
     (best_kb_score kb_results <? web_search_threshold default_config)%float = false)
  /\ (existsb is_web_call
        (trace_of (answer_question default_config question session w)) = true
      <-> kb_results = []).
Proof.
  intros Hblock Hfilter Hsearch Hcontract.
  assert (Hbest : kb_results <> [] ->
    (best_kb_score kb_results <? web_search_threshold default_config)%float = false).
  { destruct kb_results as [| first rest]; [congruence |]. intros _.
    apply above_half_not_below_two_fifths.
    apply (Hcontract first). left. reflexivity. }
  split; [exact Hbest |].
  rewrite (answer_question_passed default_config question session Hblock Hfilter).
  destruct (answer_from_sources_run default_config question session
              (validate_input question) (snd (is_math_related question))
              w w1 kb_results Hsearch)
    as [web [w2 [reply [w3 [gens [_ [_ [_ [Hshape Hrun]]]]]]]]].
  rewrite Hrun. unfold trace_of. cbn [snd existsb is_web_call orb].
  rewrite existsb_app.
  destruct (no_web_call_in_generation _ _ _ _ Hshape) as [-> _].
  rewrite orb_false_r.
  destruct (web_calls_facts default_config question kb_results) as [-> _].
  rewrite web_trigger_true_iff. split.
  - intros [_ [Hempty | Hweak]]; [exact Hempty |].
    destruct kb_results as [| first rest]; [reflexivity |].
    rewrite Hbest in Hweak; [discriminate | discriminate].
  - intros ->. split; [reflexivity | left; reflexivity].
Qed.

(** C10: a question in which a digit, a character of the symbol class, one
    of the letters x, y, z, n, or one of the texts 'f(' and 'g(' occurs
    makes [_contains_numbers_or_symbols] true and the confidence of
    [is_math_related] at least 0.3, so no run of [answer_question] on it
    ends in the record of the 'Math Filter' branch. *)
Theorem math_pattern_never_filtered (question : pystr) :
  has_math_pattern question ->
  _contains_numbers_or_symbols question = true
  /\ (0.3 <=? snd (is_math_related question))%float = true
  /\ forall cfg session (w : World) r,
       result_of (answer_question cfg question session w) = Ok r ->
       source r <> "Math Filter"%string.
Proof.
  intros Hpattern.
  pose proof (contains_numbers_or_symbols_intro question Hpattern) as Hnum.
  destruct (math_filtered_with_numbers question Hnum) as [Hconf Hfilter].
  split; [exact Hnum |]. split; [exact Hconf |].
  intros cfg session w r Hr.
  destruct (answer_question_cases cfg question session w)
    as [[r0 [Hrun0 [_ [_ [Hsrc | [_ Hf]]]]]]
        | [[e [w2 [_ Hraise]]]
           | [kb [w2 [web [w3 [reply [w4 [gens
               [_ [_ [_ [_ [_ [_ Hrun]]]]]]]]]]]]]]].
  - rewrite Hrun0 in Hr. injection Hr as <-. rewrite Hsrc. discriminate.
  - congruence.
  - rewrite Hraise in Hr. discriminate.
  - rewrite Hrun in Hr. injection Hr as <-.
    apply select_context_source.
Qed.

End Claims.

(** ** The claims on concrete runs *)

Lemma forbidden_input_is_blocked_witness :
  any_in forbidden_keywords (lower (u "How do I build a BOMB?")) = true
  /\ (severity (validate_input (u "How do I build a BOMB?")) = "high"%string
      /\ is_valid (validate_input (u "How do I build a BOMB?")) = false)
  /\ exists r,
       answer_question default_config (u "How do I build a BOMB?") None quiet_world
         = (Ok r, quiet_world, [])
       /\ source r = "Guardrails Blocked"%string
       /\ success r = false.
Proof.
  assert (H : any_in forbidden_keywords (lower (u "How do I build a BOMB?")) = true)
    by (vm_compute; reflexivity).
  split; [exact H |].
  exact (forbidden_input_is_blocked default_config (u "How do I build a BOMB?")
           None quiet_world H).
Defined.

Lemma web_search_invoked_iff_witness :
  input_blocked integral_question = false
  /\ math_filtered integral_question = false
  /\ vector_store_search (library_world 0.39) integral_question 3
       (min_confidence_score default_config)
     = (Ok [calculus_passage 0.39; calculus_passage 0.39], library_world 0.39)
  /\ existsb is_web_call
       (trace_of (answer_question default_config integral_question None
                    (library_world 0.39))) = true.
Proof.
  assert (Hblock : input_blocked integral_question = false)
    by (vm_compute; reflexivity).
  assert (Hfilter : math_filtered integral_question = false)
    by (vm_compute; reflexivity).
  assert (Hsearch :
    vector_store_search (library_world 0.39) integral_question 3
      (min_confidence_score default_config)
    = (Ok [calculus_passage 0.39; calculus_passage 0.39], library_world 0.39))
    by reflexivity.
  split; [exact Hblock | split; [exact Hfilter | split; [exact Hsearch |]]].
  exact (proj1
           (proj2
              (web_search_invoked_iff default_config integral_question None
                 (library_world 0.39) (library_world 0.39)
                 [calculus_passage 0.39; calculus_passage 0.39]
                 Hblock Hfilter Hsearch)
              eq_refl eq_refl
              (calculus_passage 0.39) [calculus_passage 0.39] eq_refl)
           eq_refl).
Defined.

Lemma knowledge_base_has_priority_witness :
  exists r w' calls,
    vector_store_search (library_world 0.39) integral_question 3
      (min_confidence_score default_config)
    = (Ok [calculus_passage 0.39; calculus_passage 0.39], library_world 0.39)
    /\ [calculus_passage 0.39; calculus_passage 0.39] <> []
    /\ answer_question default_config integral_question None (library_world 0.39)
       = (Ok r, w', calls)
    /\ used_web r = Some true
    /\ source r = "Knowledge Base (PDF)"%string
    /\ source r <> "Web Search"%string
    /\ sources r = Some [u "calculus.pdf"]
    /\ existsb is_generate_call calls = true
    /\ (forall e, In e calls -> is_generate_call e = true ->
          generate_context e
          = Some (Some (kb_context [calculus_passage 0.39; calculus_passage 0.39]))).
Proof.
  eassert (Hrun :
    answer_question default_config integral_question None (library_world 0.39)
    = (Ok _, _, _)) by (vm_compute; reflexivity).
  assert (Hne : [calculus_passage 0.39; calculus_passage 0.39] <> [])
    by discriminate.
  do 3 eexists.
  split; [reflexivity |]. split; [exact Hne |].
  split; [exact Hrun |]. split; [reflexivity |].
  exact (knowledge_base_has_priority default_config integral_question None
           (library_world 0.39) (library_world 0.39) _
           [calculus_passage 0.39; calculus_passage 0.39] _ _
           eq_refl Hne Hrun eq_refl).
Defined.

Lemma generation_failure_counterexample :
  fst (chat_completions_create (Collaborators := llm_outage) quiet_world
         (user_message integral_question None))
  = Raise (u "Connection error.")
  /\ exists r,
       result_of (answer_question (co := llm_outage) default_config
                    integral_question None quiet_world) = Ok r
       /\ success r = true
       /\ success r <> false
       /\ answer r = llm_error_prefix ++ u "Connection error.".
Proof.
  split; [reflexivity |].
  eexists. split; [vm_compute; reflexivity |].
  split; [reflexivity |]. split; [discriminate | reflexivity].
Qed.

Lemma generation_failure_returned_as_text_witness :
  input_blocked integral_question = false
  /\ math_filtered integral_question = false
  /\ vector_store_search (Collaborators := llm_outage) quiet_world
       integral_question 3 (min_confidence_score default_config)
     = (Ok [], quiet_world)
  /\ (forall w0 prompt, exists e,
        fst (chat_completions_create (Collaborators := llm_outage) w0 prompt)
        = Raise e)
  /\ exists r e,
       result_of (answer_question (co := llm_outage) default_config
                    integral_question None quiet_world) = Ok r
       /\ success r = true
       /\ answer r = llm_error_prefix ++ e.
Proof.
  assert (Hblock : input_blocked integral_question = false)
    by (vm_compute; reflexivity).
  assert (Hfilter : math_filtered integral_question = false)
    by (vm_compute; reflexivity).
  assert (Hfail : forall (w0 : script) (prompt : pystr), exists e,
            fst (chat_completions_create (Collaborators := llm_outage) w0 prompt)
            = Raise e)
    by (intros w0 prompt; exists (u "Connection error."); reflexivity).
  split; [exact Hblock | split; [exact Hfilter | split; [reflexivity |]]].
  split; [exact Hfail |].
  exact (generation_failure_returned_as_text (co := llm_outage) default_config
           integral_question None quiet_world quiet_world []
           Hblock Hfilter eq_refl Hfail).
Defined.

Lemma refine_response_counterexample :
  trace_of
    (refine_response (u "What is y?") (u "y is a variable.")
       (u "Please explain with an example.") (Some 7%Z) failing_store_world)
  = [CallGenerate
       (refinement_prompt (u "What is y?") (u "y is a variable.")
          (u "Please explain with an example."))
       None (u "First, y is a variable; it stands for an unknown number.");
     CallStoreRefined 7
       (u "First, y is a variable; it stands for an unknown number.")
       (u "Please explain with an example.")]
  /\ result_of
       (refine_response (u "What is y?") (u "y is a variable.")
          (u "Please explain with an example.") (Some 7%Z) failing_store_world)
     = Raise (u "database is locked")
  /\ forall refined,
       result_of
         (refine_response (u "What is y?") (u "y is a variable.")
            (u "Please explain with an example.") (Some 7%Z) failing_store_world)
       <> Ok refined.
Proof.
  split; [reflexivity |]. split; [reflexivity |].
  intros refined. vm_compute. discriminate.
Qed.

Lemma refine_response_depends_on_store_witness :
  7%Z <> 0%Z
  /\ result_of
       (refine_response (u "What is y?") (u "y is a variable.")
          (u "Please explain with an example.") (Some 7%Z) quiet_world)
     = Ok {| refined_answer :=
               u "First, y is a variable; it stands for an unknown number.";
             refined_validation :=
               validate_output
                 (u "First, y is a variable; it stands for an unknown number.");
             refined_success := true |}.
Proof.
  assert (Hid : 7%Z <> 0%Z) by discriminate.
  split; [exact Hid |].
  exact (refine_response_depends_on_store (u "What is y?") (u "y is a variable.")
           (u "Please explain with an example.") 7%Z quiet_world Hid).
Defined.

Lemma single_letter_question_counterexample :
  reason (validate_input (u "y")) = "too_short"%string
  /\ trace_of (answer_question default_config (u "y") None quiet_world)
     = [CallSearch (u "y") 3 0.5;
        CallWebSearch (u "y");
        CallGenerate (u "y") None
          (u "First, y is a variable; it stands for an unknown number.")]
  /\ exists r,
       result_of (answer_question default_config (u "y") None quiet_world) = Ok r
       /\ success r = true
       /\ success r <> false
       /\ source r = "LLM General Knowledge"%string.
Proof.
  split; [reflexivity |]. split; [vm_compute; reflexivity |].
  eexists. split; [vm_compute; reflexivity |].
  split; [reflexivity |]. split; [discriminate | reflexivity].
Qed.

Lemma single_letter_question_proceeds_witness :
  vector_store_search quiet_world (u "y") 3 (min_confidence_score default_config)
  = (Ok [], quiet_world)
  /\ (reason (validate_input (u "y")) = "too_short"%string
      /\ severity (validate_input (u "y")) = "low"%string
      /\ is_valid (validate_input (u "y")) = false)
  /\ exists r w' calls,
       answer_question default_config (u "y") None quiet_world = (Ok r, w', calls)
       /\ success r = true
       /\ input_validation r = Some too_short_verdict
       /\ existsb is_search_call calls = true
       /\ existsb is_generate_call calls = true.
Proof.
  split; [reflexivity |].
  exact (single_letter_question_proceeds default_config None
           quiet_world quiet_world [] eq_refl).
Defined.

Lemma short_output_is_rejected_witness :
  (length (strip (u "  I cannot.  ")) < 20)%nat
  /\ is_valid (validate_output (u "  I cannot.  ")) = false
  /\ reason (validate_output (u "  I cannot.  ")) = "response_too_short"%string
  /\ severity (validate_output (u "  I cannot.  ")) = "medium"%string.
Proof.
  assert (Hlen : (length (strip (u "  I cannot.  ")) < 20)%nat)
    by (vm_compute; lia).
  split; [exact Hlen |].
  exact (short_output_is_rejected (u "  I cannot.  ") Hlen).
Defined.

Lemma web_search_only_for_empty_results_witness :
  input_blocked integral_question = false
  /\ math_filtered integral_question = false
  /\ vector_store_search (library_world 0.8) integral_question 3
       (min_confidence_score default_config)
     = (Ok [calculus_passage 0.8; calculus_passage 0.8], library_world 0.8)
  /\ (forall p, In p [calculus_passage 0.8; calculus_passage 0.8] ->
        (min_confidence_score default_config <=? chunk_score p)%float = true)
  /\ ([calculus_passage 0.8; calculus_passage 0.8] <> [] ->
       (best_kb_score [calculus_passage 0.8; calculus_passage 0.8]
          <? web_search_threshold default_config)%float = false)
  /\ (existsb is_web_call
        (trace_of (answer_question default_config integral_question None
                     (library_world 0.8))) = true
      <-> [calculus_passage 0.8; calculus_passage 0.8] = []).
Proof.
  assert (Hblock : input_blocked integral_question = false)
    by (vm_compute; reflexivity).
  assert (Hfilter : math_filtered integral_question = false)
    by (vm_compute; reflexivity).
  assert (Hcontract :
    forall p, In p [calculus_passage 0.8; calculus_passage 0.8] ->
      (min_confidence_score default_config <=? chunk_score p)%float = true).
  { intros p [<- | [<- | []]]; reflexivity. }
  split; [exact Hblock | split; [exact Hfilter | split; [reflexivity |]]].
  split; [exact Hcontract |].
  exact (web_search_only_for_empty_results integral_question None
           (library_world 0.8) (library_world 0.8)
           [calculus_passage 0.8; calculus_passage 0.8]
           Hblock Hfilter eq_refl Hcontract).
Defined.

Lemma math_pattern_never_filtered_witness :
  has_math_pattern (u "2+2")
  /\ _contains_numbers_or_symbols (u "2+2") = true
  /\ (0.3 <=? snd (is_math_related (u "2+2")))%float = true
  /\ forall cfg session (w : script) r,
       result_of (answer_question cfg (u "2+2") session w) = Ok r ->
       source r <> "Math Filter"%string.
Proof.
  assert (Hpattern : has_math_pattern (u "2+2")).
  { left. exists 50%N. split; [left; reflexivity | left; reflexivity]. }
  split; [exact Hpattern |].
  exact (math_pattern_never_filtered (u "2+2") Hpattern).
Defined.

(** * Further properties *)

(** ** The guardrails *)

Section MoreGuardrailFacts.
Context {rt : TextRuntime}.

(** X1: the verdict of [validate_input] has severity high exactly when a
    forbidden term occurs in the lower-cased input; too short, hostile or
    off-topic inputs never get it. *)
Theorem high_severity_only_for_forbidden (user_input : pystr) :
  severity (validate_input user_input) = "high"%string
  <-> any_in forbidden_keywords (lower user_input) = true.
Proof.
  unfold validate_input.
  destruct (any_in forbidden_keywords (lower user_input)).
  - split; reflexivity.
  - destruct (length (strip user_input) <? 5)%nat;
      [split; discriminate |].
    destruct (match polarity user_input with
              | Ok sentiment => (sentiment <? -0.5)%float
              | Raise _ => false
              end); [split; discriminate |].
    destruct ((keyword_hits math_keywords (lower user_input) =? 0)%nat
              && negb (_contains_numbers_or_symbols user_input));
      split; discriminate.
Qed.

(** The confidence for every attainable keyword count and pair of flags:
    it lies in [0, 1], the cap at 1.0 changes nothing, and it is below 0.3
    exactly when no pattern is present and there is no keyword, or one
    keyword and no question word. *)
Lemma math_confidence_table (keyword_count : nat) (has_numbers has_question : bool) :
  (keyword_count <= length math_keywords)%nat ->
  let confidence := math_confidence_of keyword_count has_numbers has_question in
  py_min confidence 1.0 = confidence
  /\ (0 <=? confidence)%float = true
  /\ (confidence <=? 1)%float = true
  /\ (confidence <? 0.3)%float
     = negb has_numbers
       && ((keyword_count =? 0)%nat
           || ((keyword_count =? 1)%nat && negb has_question))
  /\ ((confidence <? 0.3)%float = true -> (0.3 <? confidence)%float = false).
Proof.
  intros Hle.
  assert (Hall :
    forallb (fun kc =>
      forallb (fun hn =>
        forallb (fun hq =>
          let c := math_confidence_of kc hn hq in
          (negb (1.0 <? c)%float && (0 <=? c)%float && (c <=? 1)%float
           && Bool.eqb (c <? 0.3)%float
                (negb hn && ((kc =? 0)%nat || ((kc =? 1)%nat && negb hq)))
           && (negb (c <? 0.3)%float || negb (0.3 <? c)%float)))
          [true; false]) [true; false])
      (seq 0 (S (length math_keywords))) = true) by (vm_compute; reflexivity).
  rewrite forallb_forall in Hall.
  assert (Hin : In keyword_count (seq 0 (S (length math_keywords))))
    by (apply in_seq; lia).
  specialize (Hall keyword_count Hin).
  rewrite forallb_forall in Hall.
  assert (Hn : In has_numbers [true; false])
    by (destruct has_numbers; simpl; auto).
  specialize (Hall has_numbers Hn).
  rewrite forallb_forall in Hall.
  assert (Hq : In has_question [true; false])
    by (destruct has_question; simpl; auto).
  specialize (Hall has_question Hq). cbv zeta in Hall.
  apply andb_true_iff in Hall as [Hall Hexcl].
  apply andb_true_iff in Hall as [Hall Hlow].
  apply andb_true_iff in Hall as [Hall Hone].
  apply andb_true_iff in Hall as [Hcap Hzero].
  cbv zeta. split; [| split; [| split; [| split]]].
  - unfold py_min. apply negb_true_iff in Hcap. rewrite Hcap. reflexivity.
  - exact Hzero.
  - exact Hone.
  - apply Bool.eqb_prop. exact Hlow.
  - intros H. rewrite H in Hexcl. simpl in Hexcl.
    apply negb_true_iff in Hexcl. exact Hexcl.
Qed.

Lemma math_filtered_formula (question : pystr) :
  math_filtered question
  = negb (_contains_numbers_or_symbols question)
    && ((keyword_hits math_keywords (lower question) =? 0)%nat
        || ((keyword_hits math_keywords (lower question) =? 1)%nat
            && negb (any_in question_words (lower question)))).
Proof.
  unfold math_filtered, is_math_related. cbn [fst snd].
  destruct (math_confidence_table
              (keyword_hits math_keywords (lower question))
              (_contains_numbers_or_symbols question)
              (any_in question_words (lower question))
              (keyword_hits_le _ _)) as [Hcap [_ [_ [Hlow Hexcl]]]].
  cbv zeta in Hcap, Hlow, Hexcl. rewrite Hcap, <- Hlow.
  destruct (math_confidence_of _ _ _ <? 0.3)%float eqn:E.
  - rewrite (Hexcl eq_refl). reflexivity.
  - apply andb_false_r.
Qed.

(** X2: the confidence [is_math_related] returns lies between 0 and 1, and
    its flag says exactly that this confidence exceeds 0.3. *)
Theorem math_confidence_in_unit_interval (text : pystr) :
  (0 <=? snd (is_math_related text))%float = true
  /\ (snd (is_math_related text) <=? 1)%float = true
  /\ fst (is_math_related text) = (0.3 <? snd (is_math_related text))%float.
Proof.
  unfold is_math_related. cbn [fst snd].
  destruct (math_confidence_table
              (keyword_hits math_keywords (lower text))
              (_contains_numbers_or_symbols text)
              (any_in question_words (lower text))
              (keyword_hits_le _ _)) as [Hcap [Hzero [Hone _]]].
  cbv zeta in Hcap, Hzero, Hone. rewrite Hcap. auto.
Qed.

(** X3: the relevance gate of [answer_question] stops a question exactly
    when none of the three patterns of [_contains_numbers_or_symbols]
    matches it and its lower-cased text has no math keyword, or has one
    keyword and no question word. *)
Theorem math_filter_characterisation (question : pystr) :
  math_filtered question = true
  <-> _contains_numbers_or_symbols question = false
      /\ (keyword_hits math_keywords (lower question) = 0%nat
          \/ keyword_hits math_keywords (lower question) = 1%nat
             /\ any_in question_words (lower question) = false).
Proof.
  rewrite math_filtered_formula.
  rewrite andb_true_iff, orb_true_iff, andb_true_iff, !negb_true_iff,
    !Nat.eqb_eq.
  tauto.
Qed.

Lemma low_relevance_inversion (user_input : pystr) :
  reason (validate_input user_input) = "low_math_relevance"%string ->
  any_in forbidden_keywords (lower user_input) = false
  /\ keyword_hits math_keywords (lower user_input) = 0%nat
  /\ _contains_numbers_or_symbols user_input = false.
Proof.
  unfold validate_input.
  destruct (any_in forbidden_keywords (lower user_input)); [discriminate |].
  destruct (length (strip user_input) <? 5)%nat; [discriminate |].
  destruct (match polarity user_input with
            | Ok sentiment => (sentiment <? -0.5)%float
            | Raise _ => false
            end); [discriminate |].
  destruct ((keyword_hits math_keywords (lower user_input) =? 0)%nat
            && negb (_contains_numbers_or_symbols user_input)) eqn:E;
    [| discriminate].
  intros _. apply andb_true_iff in E as [E1 E2].
  apply Nat.eqb_eq in E1. apply negb_true_iff in E2. auto.
Qed.

Lemma validate_output_cases (response : pystr) :
  ((length (strip response) < 20)%nat
   /\ reason (validate_output response) = "response_too_short"%string
   /\ is_valid (validate_output response) = false
   /\ needs_regeneration (validate_output response) = false
   /\ quality_score (validate_output response) = None)
  \/ ((20 <= length (strip response))%nat
      /\ any_in forbidden_keywords (lower response) = true
      /\ reason (validate_output response) = "inappropriate_output"%string
      /\ is_valid (validate_output response) = false
      /\ needs_regeneration (validate_output response) = true
      /\ quality_score (validate_output response) = None)
  \/ ((20 <= length (strip response))%nat
      /\ any_in forbidden_keywords (lower response) = false
      /\ reason (validate_output response) = "valid"%string
      /\ is_valid (validate_output response) = true
      /\ needs_regeneration (validate_output response) = false
      /\ exists quality,
           quality_score (validate_output response) = Some quality
           /\ (quality <= 3)%nat).
Proof.
  unfold needs_regeneration, validate_output.
  destruct (length (strip response) <? 20)%nat eqn:Hlen.
  - left. apply Nat.ltb_lt in Hlen. repeat split; assumption.
  - apply Nat.ltb_ge in Hlen. right.
    destruct (any_in forbidden_keywords (lower response)).
    + left. repeat split; assumption.
    + right. cbn [is_valid reason severity quality_score].
      repeat split; try assumption.
      eexists. split; [reflexivity |].
      destruct (any_in explanation_words (lower response)),
               (100 <? length response)%nat,
               (any_in refusal_patterns (lower response)); simpl; lia.
Qed.

(** X4: [validate_output] accepts a response exactly when its stripped
    length is at least 20 and no forbidden term occurs in it; it asks for
    a regeneration (invalid with severity high) exactly when the response
    is long enough and has a forbidden term; an accepted response carries
    a quality score of at most 3 and a rejected one carries none. *)
Theorem validate_output_classification (response : pystr) :
  (is_valid (validate_output response) = true
   <-> (20 <= length (strip response))%nat
       /\ any_in forbidden_keywords (lower response) = false)
  /\ (needs_regeneration (validate_output response) = true
      <-> (20 <= length (strip response))%nat
          /\ any_in forbidden_keywords (lower response) = true)
  /\ (is_valid (validate_output response) = true ->
      exists quality,
        quality_score (validate_output response) = Some quality
        /\ (quality <= 3)%nat)
  /\ (is_valid (validate_output response) = false ->
      quality_score (validate_output response) = None).
Proof.
  destruct (validate_output_cases response)
    as [[Hlen [_ [Hv [Hr Hq]]]]
        | [[Hlen [Hf [_ [Hv [Hr Hq]]]]]
           | [Hlen [Hf [_ [Hv [Hr Hq]]]]]]];
    rewrite Hv, Hr; repeat split; try congruence; try tauto;
    try (intros [? ?]; (lia || congruence)); try (intros; assumption).
Qed.

End MoreGuardrailFacts.

(** ** Runs of the pipeline, stage by stage *)

Section MoreRunFacts.
Context {World : Type} {rt : TextRuntime} {co : Collaborators World}.

Lemma generate_validated_stage (question : pystr) (context : option pystr)
    (w : World) :
  generate_validated question context w
  = (Ok (fst (fst (generation_stage question context w)),
         validate_output (fst (fst (generation_stage question context w)))),
     snd (fst (generation_stage question context w)),
     snd (generation_stage question context w)).
Proof.
  rewrite generate_validated_run. unfold generation_stage. cbv zeta.
  destruct (needs_regeneration _); reflexivity.
Qed.

Lemma generation_stage_shape (question : pystr) (context : option pystr)
    (w : World) :
  generation_shape question context
    (fst (fst (generation_stage question context w)))
    (snd (generation_stage question context w)).
Proof.
  unfold generation_stage, generation_shape. cbv zeta.
  destruct (needs_regeneration _) eqn:Hregen; cbn [fst snd].
  - right. eexists. split; [reflexivity | exact Hregen].
  - left. split; [reflexivity | exact Hregen].
Qed.

Lemma web_step_stage (cfg : config) (question : pystr)
    (kb_results : list passage) (w1 : World) :
  web_step cfg question (0 <? length kb_results)%nat (best_kb_score kb_results) w1
  = (Ok (fst (web_stage cfg question kb_results w1)),
     snd (web_stage cfg question kb_results w1),
     web_calls cfg question kb_results).
Proof.
  unfold web_step, web_stage, web_calls, web_trigger.
  destruct (enable_web_search cfg
            && (negb (0 <? length kb_results)%nat
                || (best_kb_score kb_results <? web_search_threshold cfg)%float)).
  - unfold bind, web_search, ret.
    destruct (search_math_content w1 question) as [r w']. reflexivity.
  - reflexivity.
Qed.

(** What step 3 can leave: nothing, or a non-empty validated result list
    with its formatted context. *)
Lemma web_stage_cases (cfg : config) (question : pystr)
    (kb_results : list passage) (w1 : World) :
  fst (web_stage cfg question kb_results w1) = (None, None)
  \/ exists results,
       results <> []
       /\ web_trigger cfg kb_results = true
       /\ ws_results (fst (search_math_content w1 question)) = results
       /\ validate_answer_exists question results = true
       /\ fst (web_stage cfg question kb_results w1)
          = (Some (format_search_context results), Some results).
Proof.
  unfold web_stage.
  destruct (web_trigger cfg kb_results); [| left; reflexivity].
  cbn [fst]. unfold web_outcome.
  destruct (ws_success (fst (search_math_content w1 question))); cbn [andb];
    [| left; reflexivity].
  destruct (ws_results (fst (search_math_content w1 question)))
    as [| first rest] eqn:Hres; [left; reflexivity |].
  destruct (validate_answer_exists question (first :: rest)) eqn:Hval;
    [| left; reflexivity].
  right. exists (first :: rest). repeat split; try assumption. discriminate.
Qed.

Lemma web_stage_consistent (cfg : config) (question : pystr)
    (kb_results : list passage) (w1 : World) :
  web_consistent (fst (web_stage cfg question kb_results w1)).
Proof.
  destruct (web_stage_cases cfg question kb_results w1)
    as [-> | [results [_ [_ [_ [_ ->]]]]]].
  - left. reflexivity.
  - right. exists results. reflexivity.
Qed.

(** A run that passes both gates and whose retrieval returns, in closed
    form. *)
Lemma answer_question_exact (cfg : config) (question : pystr)
    (session : option pystr) (w w1 : World) (kb_results : list passage) :
  input_blocked question = false ->
  math_filtered question = false ->
  vector_store_search w question 3 (min_confidence_score cfg) = (Ok kb_results, w1) ->
  let web := fst (web_stage cfg question kb_results w1) in
  let w2 := snd (web_stage cfg question kb_results w1) in
  let context := fst (fst (select_context kb_results web)) in
  let generation := generation_stage question context w2 in
  answer_question cfg question session w
  = (Ok (full_record cfg session (validate_input question)
           (snd (is_math_related question)) kb_results web
           (fst (fst generation))),
     snd (fst generation),
     CallSearch question 3 (min_confidence_score cfg)
       :: web_calls cfg question kb_results ++ snd generation).
Proof.
  intros Hblock Hfilter Hsearch. cbv zeta.
  rewrite (answer_question_passed cfg question session Hblock Hfilter).
  unfold answer_from_sources.
  eapply bind_ok
    with (t1 := [CallSearch question 3 (min_confidence_score cfg)]);
    [| | reflexivity].
  { unfold search. rewrite Hsearch. reflexivity. }
  cbv zeta.
  eapply bind_ok; [apply web_step_stage | | reflexivity].
  pose proof (web_stage_consistent cfg question kb_results w1) as Hcons.
  destruct (fst (web_stage cfg question kb_results w1))
    as [web_context web_results] eqn:Hweb.
  eapply bind_ok with (t1 := []); [| | reflexivity].
  { apply (prepare_context_run kb_results (web_context, web_results) _ Hcons). }
  destruct (select_context kb_results (web_context, web_results))
    as [[final_context cited] source_type] eqn:Hsel.
  cbn [fst].
  eapply bind_ok with (t2 := []);
    [apply generate_validated_stage | | symmetry; apply app_nil_r].
  unfold full_record. rewrite Hsel. reflexivity.
Qed.

Lemma truthy_join_cons (sep first : pystr) (rest : list pystr) :
  truthy first = true -> truthy (join sep (first :: rest)) = true.
Proof.
  destruct first as [| c first]; [discriminate |].
  intros _. destruct rest; reflexivity.
Qed.

(** The context formatted from a non-empty result list is not empty. *)
Lemma format_search_context_truthy (results : list web_result) :
  results <> [] -> truthy (format_search_context results) = true.
Proof.
  destruct results as [| first rest]; [congruence |]. intros _.
  unfold format_search_context, enumerate.
  cbn [length seq combine map].
  apply truthy_join_cons. reflexivity.
Qed.

End MoreRunFacts.

(** ** More about [answer_question] and [refine_response] *)

Section MorePipelineFacts.
Context {World : Type} {rt : TextRuntime} {co : Collaborators World}.

(** X5: an input that [validate_input] accepts with the advisory verdict
    low_math_relevance never reaches retrieval: the relevance gate stops
    it with the 'Math Filter' record, success false, no collaborator
    called. *)
Theorem low_relevance_warning_is_filtered (cfg : config) (question : pystr)
    (session : option pystr) (w : World) :
  reason (validate_input question) = "low_math_relevance"%string ->
  is_valid (validate_input question) = true
  /\ exists r,
       answer_question cfg question session w = (Ok r, w, [])
       /\ source r = "Math Filter"%string
       /\ success r = false.
Proof.
  intros Hreason.
  destruct (low_relevance_inversion question Hreason) as [Hclean [Hkc Hnum]].
  split.
  - revert Hreason. unfold validate_input. rewrite Hclean.
    destruct (length (strip question) <? 5)%nat; [discriminate |].
    destruct (match polarity question with
              | Ok sentiment => (sentiment <? -0.5)%float
              | Raise _ => false
              end); [discriminate |].
    destruct ((keyword_hits math_keywords (lower question) =? 0)%nat
              && negb (_contains_numbers_or_symbols question)); reflexivity.
  - assert (Hblock : input_blocked question = false)
      by (rewrite input_blocked_iff; exact Hclean).
    assert (Hfilter : math_filtered question = true).
    { rewrite math_filtered_formula, Hnum, Hkc. reflexivity. }
    destruct (answer_question_filtered cfg question session w Hblock Hfilter)
      as [r [Hrun [Hsrc [Hok _]]]].
    exists r. auto.
Qed.

(** X6: when the retriever raises, a run that passed both gates raises the
    same exception: the web agent and the generator are not called and no
    record is returned. *)
Theorem retrieval_failure_propagates (cfg : config) (question : pystr)
    (session : option pystr) (w w1 : World) (e : pystr) :
  input_blocked question = false ->
  math_filtered question = false ->
  vector_store_search w question 3 (min_confidence_score cfg) = (Raise e, w1) ->
  answer_question cfg question session w
  = (Raise e, w1, [CallSearch question 3 (min_confidence_score cfg)]).
Proof.
  intros Hblock Hfilter Hsearch.
  rewrite (answer_question_passed cfg question session Hblock Hfilter).
  apply answer_from_sources_raise. exact Hsearch.
Qed.

(** X7: with web search switched off in the configuration, no run calls
    the web agent, and no record has source 'Web Search' or [used_web]
    true. *)
Theorem disabled_web_search_is_never_called (cfg : config) (question : pystr)
    (session : option pystr) (w : World) :
  enable_web_search cfg = false ->
  existsb is_web_call (trace_of (answer_question cfg question session w)) = false
  /\ forall r,
       result_of (answer_question cfg question session w) = Ok r ->
       source r <> "Web Search"%string /\ used_web r <> Some true.
Proof.
  intros Hoff.
  assert (Htrigger : forall kb, web_trigger cfg kb = false)
    by (intros kb; unfold web_trigger; rewrite Hoff; reflexivity).
  destruct (answer_question_cases cfg question session w)
    as [[r0 [Hrun0 [Hnoweb [_ [Hsrc | [Hb Hf]]]]]]
        | [[e [w2 [_ Hraise]]]
           | [kb [w2 [web [w3 [reply [w4 [gens
               [_ [_ [_ [Hnone [_ [Hshape Hrun]]]]]]]]]]]]]]].
  - rewrite Hrun0. split; [reflexivity |].
    intros r Hr. injection Hr as <-. rewrite Hsrc, Hnoweb.
    split; discriminate.
  - rewrite Hrun0. split; [reflexivity |].
    intros r Hr. injection Hr as <-. rewrite Hnoweb.
    destruct (answer_question_filtered cfg question session w Hb Hf)
      as [r1 [Hrun1 [Hsrc1 _]]].
    rewrite Hrun0 in Hrun1. injection Hrun1 as <-.
    rewrite Hsrc1. split; discriminate.
  - rewrite Hraise. split; [reflexivity |]. intros r Hr. discriminate.
  - rewrite Hrun. unfold trace_of, result_of. cbn [fst snd].
    split.
    + cbn [existsb is_web_call orb]. rewrite existsb_app.
      destruct (web_calls_facts cfg question kb) as [-> _].
      destruct (no_web_call_in_generation _ _ _ _ Hshape) as [-> _].
      rewrite Htrigger. reflexivity.
    + intros r Hr. injection Hr as <-.
      rewrite (Hnone (Htrigger kb)). unfold full_record, select_context.
      cbn [source used_web snd].
      destruct (0 <? length kb)%nat; split; discriminate.
Qed.

(** X8: when the knowledge base returns nothing and the web agent returns
    a non-empty result list that passes [validate_answer_exists], the
    record has source 'Web Search', cites the URLs of the first two
    results, and the generator is given the formatted web context. *)
Theorem web_results_used_when_kb_empty (cfg : config) (question : pystr)
    (session : option pystr) (w w1 : World) :
  input_blocked question = false ->
  math_filtered question = false ->
  enable_web_search cfg = true ->
  vector_store_search w question 3 (min_confidence_score cfg) = (Ok [], w1) ->
  ws_success (fst (search_math_content w1 question)) = true ->
  ws_results (fst (search_math_content w1 question)) <> [] ->
  validate_answer_exists question
    (ws_results (fst (search_math_content w1 question))) = true ->
  exists r w' reply,
    answer_question cfg question session w
    = (Ok r, w',
       [CallSearch question 3 (min_confidence_score cfg);
        CallWebSearch question]
       ++ snd (generation_stage question
                 (Some (format_search_context
                          (ws_results (fst (search_math_content w1 question)))))
                 (snd (search_math_content w1 question))))
    /\ answer r = reply
    /\ source r = "Web Search"%string
    /\ sources r
       = Some (map url (firstn 2 (ws_results (fst (search_math_content w1 question)))))
    /\ used_kb r = Some false
    /\ used_web r = Some true
    /\ success r = true.
Proof.
  intros Hblock Hfilter Hon Hsearch Hok Hne Hval.
  pose proof (answer_question_exact cfg question session w w1 []
                Hblock Hfilter Hsearch) as Hrun.
  cbv zeta in Hrun.
  assert (Htrigger : web_trigger cfg [] = true)
    by (unfold web_trigger; rewrite Hon; reflexivity).
  assert (Hstage :
    web_stage cfg question [] w1
    = ((Some (format_search_context
                (ws_results (fst (search_math_content w1 question)))),
        Some (ws_results (fst (search_math_content w1 question)))),
       snd (search_math_content w1 question))).
  { unfold web_stage. rewrite Htrigger. unfold web_outcome.
    rewrite Hok, Hval.
    destruct (ws_results (fst (search_math_content w1 question)));
      [congruence | reflexivity]. }
  rewrite Hstage in Hrun. cbn [fst snd] in Hrun.
  unfold web_calls in Hrun. rewrite Htrigger in Hrun.
  assert (Hsel :
    select_context []
      (Some (format_search_context
               (ws_results (fst (search_math_content w1 question)))),
       Some (ws_results (fst (search_math_content w1 question))))
    = (Some (format_search_context
               (ws_results (fst (search_math_content w1 question)))),
       map url (firstn 2 (ws_results (fst (search_math_content w1 question)))),
       "Web Search"%string)).
  { unfold select_context. cbn [length Nat.ltb Nat.leb].
    rewrite (format_search_context_truthy _ Hne). reflexivity. }
  rewrite Hsel in Hrun. cbn [fst snd] in Hrun.
  do 3 eexists. split; [exact Hrun |].
  unfold full_record. rewrite Hsel. cbn. repeat split.
Qed.

(** X9: the answer of every record with success true is the reply of the
    last generator call of the run, and the attached output verdict is
    the verdict of that very answer; if this verdict still asks for a
    regeneration, the generator has already been called twice. *)
Theorem returned_answer_is_last_reply (cfg : config) (question : pystr)
    (session : option pystr) (w w' : World) (r : answer_record)
    (calls : list event) :
  answer_question cfg question session w = (Ok r, w', calls) ->
  success r = true ->
  (exists earlier asked context,
     calls = earlier ++ [CallGenerate asked context (answer r)])
  /\ output_validation r = Some (validate_output (answer r))
  /\ (needs_regeneration (validate_output (answer r)) = true ->
      length (filter is_generate_call calls) = 2%nat).
Proof.
  intros Hrun Hok.
  destruct (answer_question_cases cfg question session w)
    as [[r0 [Hrun0 [_ [Hfail _]]]]
        | [[e [w2 [_ Hraise]]]
           | [kb [w2 [web [w3 [reply [w4 [gens
               [_ [_ [_ [_ [_ [Hshape Hrun']]]]]]]]]]]]]]].
  - rewrite Hrun0 in Hrun. injection Hrun as <- _ _. congruence.
  - congruence.
  - rewrite Hrun' in Hrun. injection Hrun as <- _ <-.
    cbn [full_record answer output_validation].
    split; [| split; [reflexivity |]].
    + destruct Hshape as [[-> _] | [reply1 [-> _]]].
      * exists (CallSearch question 3 (min_confidence_score cfg)
                  :: web_calls cfg question kb). do 2 eexists. reflexivity.
      * exists (CallSearch question 3 (min_confidence_score cfg)
                  :: web_calls cfg question kb
                  ++ [CallGenerate question
                        (fst (fst (select_context kb web))) reply1]).
        do 2 eexists. cbn [app]. rewrite <- app_assoc. reflexivity.
    + intros Hregen. cbn [filter is_generate_call]. rewrite filter_app.
      destruct (web_calls_facts cfg question kb) as [_ ->].
      destruct Hshape as [[-> Hno] | [reply1 [-> _]]]; [congruence |].
      reflexivity.
Qed.

(** X10: a first reply whose stripped length is below 20 is never
    regenerated, although its verdict says 'Regenerating...': the run
    makes this one generator call and returns the reply with the verdict
    response_too_short and success true. *)
Theorem short_reply_is_not_regenerated (cfg : config) (question : pystr)
    (session : option pystr) (w : World)
    (asked reply1 : pystr) (context : option pystr) (later : list event) :
  filter is_generate_call (trace_of (answer_question cfg question session w))
  = CallGenerate asked context reply1 :: later ->
  (length (strip reply1) < 20)%nat ->
  later = []
  /\ exists r,
       result_of (answer_question cfg question session w) = Ok r
       /\ answer r = reply1
       /\ success r = true
       /\ option_map reason (output_validation r)
          = Some "response_too_short"%string
       /\ option_map is_valid (output_validation r) = Some false.
Proof.
  intros Hgens Hshort.
  destruct (validate_output_cases reply1)
    as [[_ [Hreason [Hvalid [Hregen _]]]] | [[Hlen _] | [Hlen _]]];
    try lia.
  destruct (answer_question_cases cfg question session w)
    as [[r0 [Hrun0 _]]
        | [[e [w2 [_ Hraise]]]
           | [kb [w2 [web [w3 [reply [w4 [gens
               [_ [_ [_ [_ [_ [Hshape Hrun]]]]]]]]]]]]]]].
  - rewrite Hrun0 in Hgens. discriminate.
  - rewrite Hraise in Hgens. discriminate.
  - rewrite Hrun in Hgens |- *. unfold trace_of, result_of in *.
    cbn [fst snd filter is_generate_call] in *.
    rewrite filter_app in Hgens.
    destruct (web_calls_facts cfg question kb) as [_ Hw].
    rewrite Hw in Hgens. cbn [app] in Hgens.
    destruct Hshape as [[-> _] | [first [-> Hyes]]];
      cbn [filter is_generate_call] in Hgens.
    + injection Hgens as _ _ <- <-. split; [reflexivity |].
      eexists. split; [reflexivity |].
      cbn [full_record answer success output_validation option_map].
      rewrite Hreason, Hvalid. auto.
    + injection Hgens as _ _ -> _. congruence.
Qed.

(** X11: a record with success true has exactly one of three shapes:
    knowledge base (non-empty citations without repetition, [used_kb]
    true), web search ([used_kb] false, [used_web] true, one or two cited
    URLs), or general knowledge (no citations, both flags false). *)
Theorem source_kind_matches_flags (cfg : config) (question : pystr)
    (session : option pystr) (w w' : World) (r : answer_record)
    (calls : list event) :
  answer_question cfg question session w = (Ok r, w', calls) ->
  success r = true ->
  (source r = "Knowledge Base (PDF)"%string
   /\ used_kb r = Some true
   /\ exists cited, sources r = Some cited /\ cited <> [] /\ NoDup cited)
  \/ (source r = "Web Search"%string
      /\ used_kb r = Some false /\ used_web r = Some true
      /\ exists cited,
           sources r = Some cited /\ (1 <= length cited <= 2)%nat)
  \/ (source r = "LLM General Knowledge"%string
      /\ used_kb r = Some false /\ used_web r = Some false
      /\ sources r = Some []).
Proof.
  intros Hrun Hok.
  destruct (answer_question_cases cfg question session w)
    as [[r0 [Hrun0 [_ [Hfail _]]]]
        | [[e [w2 [_ Hraise]]]
           | [kb [w1 [web0 [w3 [reply0 [w4 [gens
               [Hblock [Hfilter [Hsearch _]]]]]]]]]]]].
  - rewrite Hrun0 in Hrun. injection Hrun as <- _ _. congruence.
  - congruence.
  - pose proof (answer_question_exact cfg question session w w1 kb
                  Hblock Hfilter Hsearch) as Hexact.
    cbv zeta in Hexact. rewrite Hexact in Hrun. injection Hrun as <- _ _.
    unfold full_record, select_context. cbn [source sources used_kb used_web].
    destruct kb as [| first rest].
    + cbn [length Nat.ltb Nat.leb]. right.
      destruct (web_stage_cases cfg question [] w1)
        as [-> | [results [Hne [_ [_ [_ ->]]]]]].
      * right. cbn. auto.
      * left. rewrite (format_search_context_truthy results Hne).
        cbn [fst snd]. repeat split.
        eexists. split; [reflexivity |].
        rewrite length_map.
        destruct results as [| a [| b results]]; [congruence | | ];
          simpl; lia.
    + left. cbn [length Nat.ltb Nat.leb fst snd]. repeat split.
      eexists. split; [reflexivity |]. split.
      * simpl. discriminate.
      * apply dedup_first_seen_NoDup.
Qed.

Lemma refine_response_without_store
    (original_question original_response user_feedback : pystr)
    (feedback_id : option Z) (w : World) :
  feedback_id_given feedback_id = false ->
  let prompt :=
    refinement_prompt original_question original_response user_feedback in
  let call := chat_completions_create w (user_message prompt None) in
  refine_response original_question original_response user_feedback
    feedback_id w
  = (Ok {| refined_answer := llm_reply (fst call);
           refined_validation := validate_output (llm_reply (fst call));
           refined_success := true |},
     snd call,
     [CallGenerate prompt None (llm_reply (fst call))]).
Proof.
  intros Hgiven. cbv zeta. unfold refine_response.
  eapply bind_ok; [apply generate_response_run | | reflexivity].
  cbv zeta.
  eapply bind_ok with (t1 := []) (t2 := []); [| reflexivity | reflexivity].
  destruct feedback_id as [id |]; [| reflexivity].
  rewrite Hgiven. reflexivity.
Qed.

Lemma refine_response_with_store
    (original_question original_response user_feedback : pystr)
    (id : Z) (w : World) :
  (id =? 0)%Z = false ->
  let prompt :=
    refinement_prompt original_question original_response user_feedback in
  let call := chat_completions_create w (user_message prompt None) in
  trace_of
    (refine_response original_question original_response user_feedback
       (Some id) w)
  = [CallGenerate prompt None (llm_reply (fst call));
     CallStoreRefined id (llm_reply (fst call)) user_feedback].
Proof.
  intros Hid. cbv zeta. unfold refine_response, feedback_id_given.
  rewrite Hid. cbn [negb].
  unfold bind at 1. rewrite generate_response_run. cbv zeta.
  unfold bind, store_refinement, ret, trace_of.
  destruct (store_refined_response _ id _ user_feedback) as [[[] | e] w'];
    reflexivity.
Qed.

(** X12: [refine_response] calls the generator exactly once, with the
    refinement prompt and no context, never the retriever or the web
    agent, and then the feedback store exactly when a feedback id other
    than 0 was given; without such an id it always returns the reply with
    success true. *)
Theorem refine_response_calls
    (original_question original_response user_feedback : pystr)
    (feedback_id : option Z) (w : World) :
  let prompt :=
    refinement_prompt original_question original_response user_feedback in
  let reply :=
    llm_reply (fst (chat_completions_create w (user_message prompt None))) in
  trace_of
    (refine_response original_question original_response user_feedback
       feedback_id w)
  = CallGenerate prompt None reply
      :: match feedback_id with
         | Some id =>
             if (id =? 0)%Z then []
             else [CallStoreRefined id reply user_feedback]
         | None => []
         end
  /\ (feedback_id_given feedback_id = false ->
      result_of
        (refine_response original_question original_response user_feedback
           feedback_id w)
      = Ok {| refined_answer := reply;
              refined_validation := validate_output reply;
              refined_success := true |}).
Proof.
  cbv zeta. split.
  - destruct feedback_id as [id |].
    + destruct (id =? 0)%Z eqn:Hid.
      * rewrite refine_response_without_store;
          [reflexivity | unfold feedback_id_given; rewrite Hid; reflexivity].
      * apply refine_response_with_store. exact Hid.
    + rewrite refine_response_without_store; reflexivity.
  - intros Hgiven. rewrite refine_response_without_store; [reflexivity | exact Hgiven].
Qed.

End MorePipelineFacts.

(** ** The retriever *)

Lemma format_results_length (hits : list raw_hit) (score_threshold : float) :
  (length (format_results hits score_threshold) <= length hits)%nat.
Proof.
  induction hits as [| hit hits IH]; simpl; [lia |].
  destruct (score_threshold <=? 1 - hit_distance hit)%float; simpl; lia.
Qed.

Lemma format_results_provenance (hits : list raw_hit) (score_threshold : float) :
  forall p, In p (format_results hits score_threshold) ->
    exists hit,
      In hit hits
      /\ chunk_text p = hit_document hit
      /\ chunk_metadata p = hit_metadata hit
      /\ chunk_score p = (1 - hit_distance hit)%float.
Proof.
  induction hits as [| hit hits IH]; simpl; [contradiction |].
  destruct (score_threshold <=? 1 - hit_distance hit)%float.
  - intros p [<- | Hin].
    + exists hit. auto.
    + destruct (IH p Hin) as [h [Hh Hrest]]. exists h. auto.
  - intros p Hin. destruct (IH p Hin) as [h [Hh Hrest]]. exists h. auto.
Qed.

(** X13: a list returned by [VectorStore.search] is no longer than the raw
    query result behind it; each passage is one of the raw rows with score
    1 - distance, and that score is at least the threshold passed in. *)
Theorem search_returns_filtered_hits {World : Type}
    (collection_query : World -> pystr -> nat -> Res (list raw_hit) * World)
    (w w' : World) (query : pystr) (n_results : nat) (score_threshold : float)
    (kb_results : list passage) :
  VectorStore_search collection_query w query n_results score_threshold
  = (Ok kb_results, w') ->
  exists hits,
    collection_query w query n_results = (Ok hits, w')
    /\ (length kb_results <= length hits)%nat
    /\ forall p, In p kb_results ->
         (score_threshold <=? chunk_score p)%float = true
         /\ exists hit,
              In hit hits
              /\ chunk_text p = hit_document hit
              /\ chunk_metadata p = hit_metadata hit
              /\ chunk_score p = (1 - hit_distance hit)%float.
Proof.
  unfold VectorStore_search.
  destruct (collection_query w query n_results) as [[hits | e] w0];
    [| discriminate].
  intros H. injection H as <- <-. exists hits.
  split; [reflexivity |]. split; [apply format_results_length |].
  intros p Hin. split.
  - apply (format_results_scores hits score_threshold p Hin).
  - apply (format_results_provenance hits score_threshold p Hin).
Qed.

(** X14: with [VectorStore.search] as the retriever and the configuration
    of [__init__], a run that passes both gates calls the web agent
    exactly when the search returned no passage: a weak but non-empty
    result never triggers the web fallback. *)
Theorem own_retriever_web_search_only_when_empty {World : Type}
    {rt : TextRuntime} (co : Collaborators World)
    (collection_query : World -> pystr -> nat -> Res (list raw_hit) * World)
    (question : pystr) (session : option pystr) (w w1 : World)
    (kb_results : list passage) :
  input_blocked question = false ->
  math_filtered question = false ->
  VectorStore_search collection_query w question 3
    (min_confidence_score default_config) = (Ok kb_results, w1) ->
  existsb is_web_call
    (trace_of
       (answer_question (co := with_vector_store co collection_query)
          default_config question session w)) = true
  <-> kb_results = [].
Proof.
  intros Hblock Hfilter Hsearch.
  pose proof (answer_question_exact (co := with_vector_store co collection_query)
                default_config question session w w1 kb_results
                Hblock Hfilter Hsearch) as Hrun.
  cbv zeta in Hrun. rewrite Hrun. unfold trace_of.
  cbn [snd existsb is_web_call orb]. rewrite existsb_app.
  destruct (no_web_call_in_generation _ _ _ _
              (generation_stage_shape (co := with_vector_store co collection_query)
                 question
                 (fst (fst (select_context kb_results
                              (fst (web_stage (co := with_vector_store co collection_query)
                                      default_config question kb_results w1)))))
                 (snd (web_stage (co := with_vector_store co collection_query)
                         default_config question kb_results w1))))
    as [-> _].
  rewrite orb_false_r.
  destruct (web_calls_facts default_config question kb_results) as [-> _].
  rewrite web_trigger_true_iff. split.
  - intros [_ [Hempty | Hweak]]; [exact Hempty |].
    destruct kb_results as [| first rest]; [reflexivity |].
    cbn [best_kb_score] in Hweak.
    rewrite above_half_not_below_two_fifths in Hweak; [discriminate |].
    apply (VectorStore_search_contract collection_query w w1 question 3
             (min_confidence_score default_config) (first :: rest) Hsearch).
    left. reflexivity.
  - intros ->. split; [reflexivity | left; reflexivity].
Qed.

(** ** [VectorStore.add_documents] *)

Lemma firstn_add_skipn {A : Type} (a b : nat) (xs : list A) :
  firstn (a + b) xs = firstn a xs ++ firstn b (skipn a xs).
Proof.
  revert xs. induction a as [| a IH]; intros xs; [reflexivity |].
  destruct xs as [| x xs]; simpl.
  - rewrite firstn_nil. reflexivity.
  - rewrite IH. reflexivity.
Qed.

(** The slices of the batch loop, taken over a list as long as [texts],
    put the list together again. *)
Lemma concat_batch_slices {A : Type} (xs : list A) (step : nat) :
  (0 < step)%nat ->
  concat (map (fun i => slice xs i (Nat.min (i + step) (length xs)))
              (range_step (length xs) step))
  = xs.
Proof.
  intros Hstep. unfold range_step.
  set (n := length xs). set (m := ((n + step - 1) / step)%nat).
  assert (Hm : (forall j, j < m -> j * step < n)%nat /\ (n <= m * step)%nat).
  { unfold m.
    pose proof (Nat.div_mod_eq (n + step - 1) step) as Hdiv.
    pose proof (Nat.mod_upper_bound (n + step - 1) step) as Hmod.
    split; [intros j Hj |]; nia. }
  assert (Hprefix : forall j, (j <= m)%nat ->
    concat (map (fun i => slice xs i (Nat.min (i + step) n))
                (map (fun k => (k * step)%nat) (seq 0 j)))
    = firstn (Nat.min (j * step) n) xs).
  { induction j as [| j IH]; intros Hj; [reflexivity |].
    rewrite seq_S, !map_app, concat_app, IH by lia.
    cbn [map concat plus]. rewrite app_nil_r. unfold slice.
    assert (Hlt : (j * step < n)%nat) by (apply Hm; lia).
    replace (Nat.min (j * step) n) with (j * step)%nat by lia.
    rewrite <- firstn_add_skipn. f_equal. lia. }
  rewrite (Hprefix m (Nat.le_refl m)).
  replace (Nat.min (m * step) n) with n by lia.
  apply firstn_all.
Qed.

Lemma range_step_bound (stop step i : nat) :
  (0 < step)%nat -> In i (range_step stop step) -> (i < stop)%nat.
Proof.
  intros Hstep Hin. unfold range_step in Hin.
  apply in_map_iff in Hin as [k [<- Hk]]. apply in_seq in Hk.
  pose proof (Nat.div_mod_eq (stop + step - 1) step) as Hdiv.
  pose proof (Nat.mod_upper_bound (stop + step - 1) step) as Hmod.
  nia.
Qed.

Lemma slice_length {A : Type} (xs : list A) (i j : nat) :
  (j <= length xs)%nat -> length (slice xs i j) = (j - i)%nat.
Proof.
  intros Hj. unfold slice. rewrite length_firstn, length_skipn. lia.
Qed.

Section AddDocumentsFacts.
Context {World : Type} {ix : IndexBackend World}.

Lemma embed_all_length (texts : list pystr) (w w' : World)
    (embeddings : list (list float)) :
  embed_all texts w = (Ok embeddings, w') -> length embeddings = length texts.
Proof.
  revert w w' embeddings. induction texts as [| text rest IH];
    intros w w' embeddings; simpl.
  - intros H. injection H as <- _. reflexivity.
  - destruct (embed_text w text) as [[embedding | e] w1]; [| discriminate].
    destruct (embed_all rest w1) as [[es | e] w2] eqn:Hrest; [| discriminate].
    intros H. injection H as <- _. simpl. f_equal. apply (IH w1 w2 es Hrest).
Qed.

Lemma add_all_accepted (requests : list add_request) (w w' : World)
    (r : Res unit) (accepted : list add_request) :
  add_all requests w = (r, w', accepted) ->
  exists pending,
    requests = accepted ++ pending
    /\ (forall done, r = Ok done -> pending = []).
Proof.
  revert w w' r accepted. induction requests as [| request rest IH];
    intros w w' r accepted; simpl.
  - intros H. injection H as <- _ <-. exists []. split; [reflexivity | auto].
  - destruct (collection_add w request) as [[[] | e] w1].
    + destruct (add_all rest w1) as [[r2 w2] acc] eqn:Hrest.
      intros H. injection H as <- _ <-.
      destruct (IH w1 w2 r2 acc Hrest) as [pending [-> Hdone]].
      exists pending. split; [reflexivity | exact Hdone].
    + intros H. injection H as <- _ <-. exists (request :: rest).
      split; [reflexivity | discriminate].
Qed.

(** X15: when [add_documents] returns, the [collection.add] calls it made
    carry every chunk exactly once and in order - texts, metadata and the
    ids chunk_0, chunk_1, ... - in batches of at least 1 and at most 100
    rows whose four lists have the same length. *)
Theorem add_documents_sends_every_chunk_once (chunks : list chunk)
    (w w' : World) (accepted : list add_request) :
  add_documents chunks w = (Ok tt, w', accepted) ->
  concat (map add_texts accepted) = map text_of chunks
  /\ concat (map add_metadatas accepted) = map metadata_of chunks
  /\ concat (map add_ids accepted) = chunk_ids (length chunks)
  /\ length (concat (map add_embeddings accepted)) = length chunks
  /\ Forall (fun request =>
               (1 <= length (add_ids request) <= 100)%nat
               /\ length (add_texts request) = length (add_ids request)
               /\ length (add_metadatas request) = length (add_ids request)
               /\ length (add_embeddings request) = length (add_ids request))
            accepted.
Proof.
  unfold add_documents. destruct chunks as [| c0 cs] eqn:Hchunks.
  { intros H. injection H as _ <-. repeat split; constructor. }
  rewrite <- Hchunks. clear Hchunks c0 cs.
  destruct (embed_all (map text_of chunks) w) as [[embeddings | e] w1] eqn:Hembed;
    [| discriminate].
  pose proof (embed_all_length _ _ _ _ Hembed) as Hlen.
  rewrite length_map in Hlen.
  intros Hadd. destruct (add_all_accepted _ _ _ _ _ Hadd) as [pending [Hreq Hdone]].
  rewrite (Hdone tt eq_refl), app_nil_r in Hreq. subst accepted.
  unfold add_requests. cbv zeta. rewrite !map_map. cbn [add_texts add_metadatas add_ids add_embeddings].
  assert (Hn : length (map text_of chunks) = length chunks) by apply length_map.
  assert (Hpos : (0 < batch_size)%nat) by (unfold batch_size; lia).
  split; [| split; [| split; [| split]]].
  - apply concat_batch_slices. exact Hpos.
  - rewrite Hn, <- (length_map metadata_of chunks).
    apply concat_batch_slices. exact Hpos.
  - rewrite Hn.
    assert (Hids : length (chunk_ids (length chunks)) = length chunks)
      by (unfold chunk_ids; rewrite length_map, length_seq; reflexivity).
    revert Hids. generalize (chunk_ids (length chunks)). intros ids <-.
    apply concat_batch_slices. exact Hpos.
  - rewrite Hn, <- Hlen. rewrite concat_batch_slices by exact Hpos.
    reflexivity.
  - apply Forall_forall. intros request Hin.
    apply in_map_iff in Hin as [i [<- Hi]].
    apply range_step_bound in Hi; [| exact Hpos]. rewrite Hn in Hi.
    cbn [add_texts add_metadatas add_ids add_embeddings].
    rewrite !slice_length;
      rewrite ?length_map, ?Hlen, ?Hn; unfold chunk_ids;
      rewrite ?length_map, ?length_seq; unfold batch_size; lia.
Qed.

End AddDocumentsFacts.

Lemma u_injective (a b : string) : u a = u b -> a = b.
Proof.
  unfold u. intros H.
  rewrite <- (string_of_list_ascii_of_string a),
          <- (string_of_list_ascii_of_string b).
  f_equal.
  revert H. generalize (list_ascii_of_string a) (list_ascii_of_string b).
  induction l as [| x l IH]; intros [| y l']; simpl; try discriminate.
  - reflexivity.
  - intros H. injection H as Hxy Hrest.
    rewrite <- (ascii_N_embedding x), <- (ascii_N_embedding y), Hxy.
    f_equal. apply IH. exact Hrest.
Qed.

Lemma str_of_nat_injective (n m : nat) : str_of_nat n = str_of_nat m -> n = m.
Proof.
  unfold str_of_nat. intros H. apply u_injective in H.
  assert (Hnonnil : forall k, Nat.to_uint k <> Decimal.Nil).
  { intros k. rewrite <- (DecimalNat.Unsigned.of_to k) at 1.
    rewrite DecimalNat.Unsigned.to_of. apply DecimalFacts.unorm_nonnil. }
  pose proof (DecimalString.NilZero.usu _ (Hnonnil n)) as Hn.
  pose proof (DecimalString.NilZero.usu _ (Hnonnil m)) as Hm.
  rewrite H in Hn. rewrite Hn in Hm. injection Hm as Hm.
  apply DecimalNat.Unsigned.to_uint_inj. exact Hm.
Qed.

Lemma firstn_seq_min (n start len : nat) :
  firstn n (seq start len) = seq start (Nat.min n len).
Proof.
  revert start len. induction n as [| n IH]; intros start [| len];
    simpl; try reflexivity.
  rewrite IH. reflexivity.
Qed.

(** X16: the ids [add_documents] gives the chunks of one call are pairwise
    distinct, and they depend on the position alone: the ids of a call
    with fewer chunks are the first ids of a call with more. *)
Theorem chunk_ids_distinct_and_positional (n m : nat) :
  NoDup (chunk_ids n)
  /\ ((n <= m)%nat -> chunk_ids n = firstn n (chunk_ids m)).
Proof.
  split.
  - unfold chunk_ids.
    assert (Hinj : forall i j,
      u "chunk_" ++ str_of_nat i = u "chunk_" ++ str_of_nat j -> i = j).
    { intros i j H. apply app_inv_head in H. apply str_of_nat_injective. exact H. }
    generalize (seq_NoDup n 0). generalize (seq 0 n).
    induction l as [| i l IH]; intros Hnd; simpl; constructor.
    + inversion Hnd as [| ? ? Hnotin _]; subst.
      intros Hin. apply in_map_iff in Hin as [j [Hj Hin]].
      apply Hinj in Hj. subst. contradiction.
    + inversion Hnd; subst. apply IH. assumption.
  - intros Hle. unfold chunk_ids.
    rewrite firstn_map, firstn_seq_min. f_equal. f_equal. lia.
Qed.

(** ** [GroqClient.generate_followup_response] *)

(** X17: the follow-up call sends the system prompt, then the last six
    messages of the history in their order (all of them when there are
    fewer), then the question as the user message - at most eight
    messages; an exception of the API call comes back as the text
    'Error generating response: ...'. *)
Theorem followup_sends_last_six_messages {World : Type}
    (create : World -> list chat_message -> Res pystr * World)
    (question : pystr) (chat_history : list chat_message) (w : World) :
  exists dropped kept,
    chat_history = dropped ++ kept
    /\ length kept = Nat.min 6 (length chat_history)
    /\ followup_messages question chat_history
       = ("system"%string, followup_system_prompt)
           :: kept ++ [("user"%string, question)]
    /\ (length (followup_messages question chat_history) <= 8)%nat
    /\ fst (generate_followup_response create question chat_history w)
       = match fst (create w (("system"%string, followup_system_prompt)
                                :: kept ++ [("user"%string, question)])) with
         | Ok reply => reply
         | Raise e => u "Error generating response: " ++ e
         end.
Proof.
  exists (firstn (length chat_history - 6) chat_history),
         (last_n 6 chat_history).
  assert (Hkept : length (last_n 6 chat_history) = Nat.min 6 (length chat_history)).
  { unfold last_n. rewrite length_skipn. lia. }
  split; [symmetry; apply firstn_skipn |].
  split; [exact Hkept |]. split; [reflexivity |]. split.
  - unfold followup_messages. cbn [app length].
    rewrite length_app, Hkept. cbn [length]. lia.
  - unfold generate_followup_response, followup_messages. cbn [app].
    destruct (create w _) as [[reply | e] w']; reflexivity.
Qed.

(** ** The web search agent *)

Section SortFacts.
Context {A : Type}.

Lemma insert_by_score_perm (x : Z * A) (sorted : list (Z * A)) :
  Permutation (insert_by_score x sorted) (x :: sorted).
Proof.
  induction sorted as [| y rest IH]; simpl; [reflexivity |].
  destruct (fst y <=? fst x)%Z; [reflexivity |].
  rewrite IH. apply perm_swap.
Qed.

Lemma sort_by_score_perm (scored : list (Z * A)) :
  Permutation (sort_by_score scored) scored.
Proof.
  induction scored as [| x rest IH]; simpl; [reflexivity |].
  rewrite insert_by_score_perm, IH. reflexivity.
Qed.

Lemma insert_by_score_sorted (x : Z * A) (sorted : list (Z * A)) :
  StronglySorted (fun a b => (fst b <= fst a)%Z) sorted ->
  StronglySorted (fun a b => (fst b <= fst a)%Z) (insert_by_score x sorted).
Proof.
  induction sorted as [| y rest IH]; intros Hsorted; simpl.
  - constructor; constructor.
  - inversion Hsorted as [| ? ? Hrest Hall]; subst.
    destruct (Z.leb_spec (fst y) (fst x)) as [Hle | Hgt].
    + constructor; [exact Hsorted |].
      constructor; [exact Hle |].
      eapply Forall_impl; [| exact Hall]. cbv beta. intros z Hz. lia.
    + constructor; [apply IH; exact Hrest |].
      apply (Permutation_Forall (Permutation_sym (insert_by_score_perm x rest))).
      constructor; [lia | exact Hall].
Qed.

Lemma sort_by_score_sorted (scored : list (Z * A)) :
  StronglySorted (fun a b => (fst b <= fst a)%Z) (sort_by_score scored).
Proof.
  induction scored as [| x rest IH]; simpl; [constructor |].
  apply insert_by_score_sorted. exact IH.
Qed.

(** Insertion puts [x] in front of the entries of its own score. *)
Lemma insert_by_score_stable (k : Z) (x : Z * A) (sorted : list (Z * A)) :
  filter (fun p => (fst p =? k)%Z) (insert_by_score x sorted)
  = filter (fun p => (fst p =? k)%Z) (x :: sorted).
Proof.
  induction sorted as [| y rest IH]; [reflexivity |].
  cbn [insert_by_score].
  destruct (Z.leb_spec (fst y) (fst x)) as [Hle | Hgt]; [reflexivity |].
  cbn [filter] in *. rewrite IH.
  destruct (Z.eqb_spec (fst y) k), (Z.eqb_spec (fst x) k);
    try reflexivity; lia.
Qed.

Lemma sort_by_score_stable (k : Z) (scored : list (Z * A)) :
  filter (fun p => (fst p =? k)%Z) (sort_by_score scored)
  = filter (fun p => (fst p =? k)%Z) scored.
Proof.
  induction scored as [| x rest IH]; [reflexivity |].
  cbn [sort_by_score fold_right]. rewrite insert_by_score_stable.
  cbn [filter]. fold (sort_by_score rest). rewrite IH. reflexivity.
Qed.

End SortFacts.

Section WebAgentFacts.
Context {rt : TextRuntime}.

Lemma result_score_bounds (result : raw_result) :
  (-5 <= result_score result <= 28)%Z.
Proof.
  unfold result_score. cbv zeta.
  pose proof (filter_length_le
    (fun keyword => contains keyword (lower (raw_title result))
                    || contains keyword (lower (raw_body result)))
    edu_keywords) as Hedu.
  pose proof (filter_length_le
    (fun keyword => contains keyword (lower (raw_title result))
                    || contains keyword (lower (raw_body result)))
    ranking_math_keywords) as Hmath.
  change (length edu_keywords) with 6%nat in Hedu.
  change (length ranking_math_keywords) with 6%nat in Hmath.
  destruct (_is_trusted_domain (lower (raw_href result)));
    destruct (contains (u "forum") (lower (raw_href result))
              || contains (u "reddit") (lower (raw_href result))); lia.
Qed.

Lemma scored_pairs_keep_their_score (results : list raw_result) :
  forall p,
    In p (sort_by_score (map (fun result => (result_score result, result)) results)) ->
    fst p = result_score (snd p).
Proof.
  intros p Hin.
  apply (Permutation_in _ (sort_by_score_perm _)) in Hin.
  apply in_map_iff in Hin as [r [<- _]]. reflexivity.
Qed.

(** X18: [_filter_results] returns the results it was given, reordered by
    descending score, with results of equal score in their original
    order; every score lies between -5 and 28. *)
Theorem filter_results_is_a_stable_descending_sort (results : list raw_result) :
  Permutation (_filter_results results) results
  /\ StronglySorted (fun a b => (result_score b <= result_score a)%Z)
       (_filter_results results)
  /\ (forall score,
        filter (fun r => (result_score r =? score)%Z) (_filter_results results)
        = filter (fun r => (result_score r =? score)%Z) results)
  /\ Forall (fun r => (-5 <= result_score r <= 28)%Z) (_filter_results results).
Proof.
  unfold _filter_results. cbv zeta.
  set (scored := map (fun result => (result_score result, result)) results).
  pose proof (scored_pairs_keep_their_score results) as Hkeep. fold scored in Hkeep.
  assert (Hback : map snd scored = results).
  { unfold scored. rewrite map_map. cbn [snd]. apply map_id. }
  split; [| split; [| split]].
  - rewrite <- Hback at 1. apply Permutation_map. apply sort_by_score_perm.
  - pose proof (sort_by_score_sorted scored) as Hsorted.
    clear Hback. revert Hkeep Hsorted. generalize (sort_by_score scored).
    induction l as [| p l IH]; intros Hkeep Hsorted; simpl; [constructor |].
    inversion Hsorted as [| ? ? Hrest Hall]; subst.
    constructor.
    + apply IH; [intros q Hq; apply Hkeep; right; exact Hq | exact Hrest].
    + apply Forall_forall. intros r Hr.
      apply in_map_iff in Hr as [q [<- Hq]].
      rewrite Forall_forall in Hall. specialize (Hall q Hq).
      rewrite <- (Hkeep q (or_intror Hq)), <- (Hkeep p (or_introl eq_refl)).
      exact Hall.
  - intros score.
    assert (Hfilter : forall l : list (Z * raw_result),
      (forall p, In p l -> fst p = result_score (snd p)) ->
      filter (fun r => (result_score r =? score)%Z) (map snd l)
      = map snd (filter (fun p => (fst p =? score)%Z) l)).
    { induction l as [| p l IH]; intros Hl; [reflexivity |].
      cbn [map filter]. rewrite <- (Hl p (or_introl eq_refl)).
      rewrite IH by (intros q Hq; apply Hl; right; exact Hq).
      destruct (fst p =? score)%Z; reflexivity. }
    rewrite (Hfilter _ Hkeep), sort_by_score_stable.
    rewrite <- Hfilter, Hback; [reflexivity |].
    intros p Hp. apply in_map_iff in Hp as [r [<- _]]. reflexivity.
  - apply Forall_forall. intros r _. apply result_score_bounds.
Qed.

End WebAgentFacts.

(** ** White space *)

Lemma lstrip_suffix (s : pystr) :
  exists spaces, s = spaces ++ lstrip s /\ forallb isspace spaces = true.
Proof.
  induction s as [| c s IH]; simpl.
  - exists []. split; reflexivity.
  - destruct (isspace c) eqn:Hc.
    + destruct IH as [spaces [Hs Hall]]. exists (c :: spaces). split.
      * simpl. f_equal. exact Hs.
      * simpl. rewrite Hc. exact Hall.
    + exists []. split; reflexivity.
Qed.

Lemma lstrip_head (s rest : pystr) (c : pychar) :
  lstrip s = c :: rest -> isspace c = false.
Proof.
  induction s as [| d s IH]; simpl; [discriminate |].
  destruct (isspace d) eqn:Hd; [exact IH |].
  intros H. injection H as <- _. exact Hd.
Qed.

(** [strip] cuts white space off both ends and nothing else. *)
Lemma strip_infix (s : pystr) :
  exists before after, s = before ++ strip s ++ after.
Proof.
  destruct (lstrip_suffix s) as [before [Hs _]].
  destruct (lstrip_suffix (rev (lstrip s))) as [tail [Ht _]].
  exists before, (rev tail). unfold strip.
  rewrite <- rev_app_distr, <- Ht, rev_involutive. exact Hs.
Qed.

Lemma strip_length (s : pystr) : (length (strip s) <= length s)%nat.
Proof.
  destruct (strip_infix s) as [before [after Hs]].
  rewrite Hs at 2. rewrite !length_app. lia.
Qed.

Lemma strip_last (s front : pystr) (c : pychar) :
  strip s = front ++ [c] -> isspace c = false.
Proof.
  unfold strip. intros H.
  apply (f_equal (@rev pychar)) in H.
  rewrite rev_involutive, rev_app_distr in H. simpl in H.
  apply lstrip_head in H. exact H.
Qed.

Lemma strip_head (s rest : pystr) (c : pychar) :
  strip s = c :: rest -> isspace c = false.
Proof.
  intros H.
  destruct (lstrip_suffix (rev (lstrip s))) as [tail [Ht _]].
  apply (f_equal (@rev pychar)) in Ht.
  rewrite rev_involutive, rev_app_distr in Ht.
  change (rev (lstrip (rev (lstrip s)))) with (strip s) in Ht.
  rewrite H in Ht. simpl in Ht.
  apply (lstrip_head s (rest ++ rev tail) c). exact Ht.
Qed.

Lemma well_spaced_weaken (text : pystr) :
  well_spaced true text = true -> well_spaced false text = true.
Proof.
  destruct text as [| c rest]; [reflexivity |]. simpl.
  destruct (isspace c); [| auto].
  rewrite andb_false_r. discriminate.
Qed.

Lemma well_spaced_suffix (after_space : bool) (before text : pystr) :
  well_spaced after_space (before ++ text) = true ->
  well_spaced false text = true.
Proof.
  revert after_space. induction before as [| c before IH]; intros after_space.
  - simpl. destruct after_space; [apply well_spaced_weaken | auto].
  - simpl. destruct (isspace c).
    + intros H. apply andb_true_iff in H as [_ H]. apply (IH true H).
    + apply IH.
Qed.

Lemma well_spaced_prefix (after_space : bool) (text after : pystr) :
  well_spaced after_space (text ++ after) = true ->
  well_spaced after_space text = true.
Proof.
  revert after_space. induction text as [| c text IH]; intros after_space;
    [reflexivity |].
  simpl. destruct (isspace c).
  - intros H. apply andb_true_iff in H as [H1 H2].
    rewrite H1. apply (IH true H2).
  - apply IH.
Qed.

Lemma well_spaced_dots (after_space : bool) (text : pystr) :
  well_spaced after_space text = true ->
  well_spaced after_space (text ++ u "...") = true.
Proof.
  revert after_space. induction text as [| c text IH]; intros after_space.
  - intros _. reflexivity.
  - simpl. destruct (isspace c).
    + intros H. apply andb_true_iff in H as [H1 H2].
      rewrite H1. apply (IH true H2).
    + apply IH.
Qed.

Lemma collapse_whitespace_well_spaced (in_run : bool) (text : pystr) :
  well_spaced in_run (collapse_whitespace_from in_run text) = true.
Proof.
  revert in_run. induction text as [| c text IH]; intros in_run;
    [reflexivity |].
  simpl. destruct (isspace c) eqn:Hc.
  - destruct in_run; [apply IH |].
    simpl. rewrite (IH true). reflexivity.
  - simpl. rewrite Hc. apply IH.
Qed.

Lemma starts_with_app (p s : pystr) : starts_with p (p ++ s) = true.
Proof.
  induction p as [| c p IH]; simpl; [destruct s; reflexivity |].
  rewrite N.eqb_refl. exact IH.
Qed.

Lemma contains_at_start (needle hay : pystr) :
  starts_with needle hay = true -> contains needle hay = true.
Proof.
  destruct hay as [| c hay]; simpl; [auto |].
  intros ->. reflexivity.
Qed.

(** A text contains each of its contiguous parts. *)
Lemma contains_app (needle before after : pystr) :
  contains needle (before ++ needle ++ after) = true.
Proof.
  induction before as [| c before IH].
  - cbn [app]. apply contains_at_start, starts_with_app.
  - cbn [app contains]. rewrite IH. apply orb_true_r.
Qed.

Lemma some_eq {A : Type} (a b : A) : Some a = Some b -> a = b.
Proof. congruence. Qed.

Lemma extract_text_bound (paragraphs : list pystr) (text : pystr) :
  extract_text paragraphs = Some text ->
  truthy text = true /\ (length text <= 1003)%nat.
Proof.
  unfold extract_text. cbv zeta.
  set (t0 := strip (collapse_whitespace (join (u " ") (map strip paragraphs)))).
  destruct (1000 <? length t0)%nat eqn:Hlong.
  - destruct (truthy (firstn 1000 t0 ++ u "...")) eqn:Ht; [| discriminate].
    intros H. apply some_eq in H. subst text. split; [exact Ht |].
    rewrite length_app, length_firstn.
    change (length (u "...")) with 3%nat. lia.
  - destruct (truthy t0) eqn:Ht; [| discriminate].
    intros H. apply some_eq in H. subst text. split; [exact Ht |].
    apply Nat.ltb_ge in Hlong. lia.
Qed.

(** X19: a text extracted from a web page is never empty, has at most
    1003 characters (1000 and the dots), begins and ends with a character
    that is not white space, and its white space is single plain spaces. *)
Theorem extracted_text_is_normalised (paragraphs : list pystr) (text : pystr) :
  extract_text paragraphs = Some text ->
  text <> []
  /\ (length text <= 1003)%nat
  /\ well_spaced false text = true
  /\ (forall c rest, text = c :: rest -> isspace c = false)
  /\ (forall front c, text = front ++ [c] -> isspace c = false).
Proof.
  intros Hsome.
  destruct (extract_text_bound paragraphs text Hsome) as [Htruthy Hlen].
  split; [destruct text; [discriminate | discriminate] |].
  split; [exact Hlen |].
  revert Hsome. unfold extract_text. cbv zeta.
  set (raw := join (u " ") (map strip paragraphs)).
  set (t0 := strip (collapse_whitespace raw)).
  assert (Hspaced : well_spaced false t0 = true).
  { destruct (strip_infix (collapse_whitespace raw)) as [before [after Hin]].
    fold t0 in Hin.
    pose proof (collapse_whitespace_well_spaced false raw) as Hw.
    fold (collapse_whitespace raw) in Hw. rewrite Hin in Hw.
    apply well_spaced_suffix in Hw.
    apply (well_spaced_prefix false t0 after Hw). }
  destruct (1000 <? length t0)%nat eqn:Hlong.
  - destruct (truthy (firstn 1000 t0 ++ u "...")); [| discriminate].
    intros H. apply some_eq in H. subst text.
    apply Nat.ltb_lt in Hlong.
    split; [| split].
    + apply well_spaced_dots.
      apply (well_spaced_prefix false (firstn 1000 t0) (skipn 1000 t0)).
      rewrite firstn_skipn. exact Hspaced.
    + intros c rest Heq.
      destruct t0 as [| c0 t1] eqn:Ht0; [simpl in Hlong; lia |].
      cbn [firstn app] in Heq. injection Heq as <- _.
      apply (strip_head (collapse_whitespace raw) t1 c0). exact Ht0.
    + intros front c Heq.
      change (u "...") with ([46; 46]%N ++ [46%N]) in Heq.
      rewrite app_assoc in Heq. apply app_inj_tail in Heq as [_ <-].
      reflexivity.
  - destruct (truthy t0); [| discriminate].
    intros H. apply some_eq in H. subst text.
    split; [exact Hspaced |]. split.
    + intros c rest Heq. apply (strip_head (collapse_whitespace raw) rest c Heq).
    + intros front c Heq. apply (strip_last (collapse_whitespace raw) front c Heq).
Qed.

Lemma in_firstn_in {A : Type} (n : nat) (xs : list A) (x : A) :
  In x (firstn n xs) -> In x xs.
Proof.
  intros Hin. rewrite <- (firstn_skipn n xs). apply in_or_app. left. exact Hin.
Qed.

Section WebSearchFacts.
Context {rt : TextRuntime} {World : Type} {wb : WebBackend World}.

Lemma filter_results_perm (results : list raw_result) :
  Permutation (_filter_results results) results.
Proof.
  unfold _filter_results. cbv zeta.
  rewrite sort_by_score_perm, map_map. cbn [snd]. rewrite map_id. reflexivity.
Qed.

Lemma enrich_facts (results : list raw_result) (w : World) :
  (length (fst (enrich results w)) <= length results)%nat
  /\ forall page, In page (fst (enrich results w)) ->
       truthy (content page) = true
       /\ (length (content page) <= 1003)%nat
       /\ exists raw,
            In raw results
            /\ url page = raw_href raw
            /\ title page = raw_title raw
            /\ snippet page = raw_body raw
            /\ is_trusted page = _is_trusted_domain (raw_href raw).
Proof.
  revert w. induction results as [| result rest IH]; intros w.
  - split; [simpl; lia | intros page []].
  - cbn [enrich]. unfold _extract_content.
    destruct (fetch_paragraphs w (raw_href result)) as [[paragraphs | e] w1].
    + destruct (enrich rest w1) as [more w2] eqn:Hmore.
      pose proof (IH w1) as [Hlen Hpages]. rewrite Hmore in Hlen, Hpages.
      cbn [fst] in Hlen, Hpages |- *.
      assert (Hrest : forall page, In page more ->
        truthy (content page) = true
        /\ (length (content page) <= 1003)%nat
        /\ exists raw,
             In raw (result :: rest)
             /\ url page = raw_href raw
             /\ title page = raw_title raw
             /\ snippet page = raw_body raw
             /\ is_trusted page = _is_trusted_domain (raw_href raw)).
      { intros page Hin. destruct (Hpages page Hin) as [H1 [H2 [raw [H3 H4]]]].
        split; [exact H1 |]. split; [exact H2 |].
        exists raw. split; [right; exact H3 | exact H4]. }
      destruct (extract_text paragraphs) as [text |] eqn:Htext.
      * destruct (extract_text_bound paragraphs text Htext) as [Ht Hb].
        rewrite Ht. split; [simpl; lia |].
        intros page [<- | Hin]; [| apply Hrest; exact Hin].
        cbn [content url title snippet is_trusted].
        split; [exact Ht |]. split; [exact Hb |].
        exists result. split; [left; reflexivity | auto].
      * split; [simpl; lia | exact Hrest].
    + destruct (enrich rest w1) as [more w2] eqn:Hmore.
      pose proof (IH w1) as [Hlen Hpages]. rewrite Hmore in Hlen, Hpages.
      cbn [fst] in Hlen, Hpages |- *.
      split; [simpl; lia |].
      intros page Hin. destruct (Hpages page Hin) as [H1 [H2 [raw [H3 H4]]]].
      split; [exact H1 |]. split; [exact H2 |].
      exists raw. split; [right; exact H3 | exact H4].
Qed.

(** X20: [search_math_content] returns at most two results; each has a
    non-empty extracted content of at most 1003 characters and the title,
    URL and snippet of one of the results of the search it made with the
    enhanced query; a reply with success false has no results. *)
Theorem search_returns_at_most_two_pages (query : pystr) (w : World) :
  let reply := fst (WebSearchAgent_search_math_content query w) in
  (ws_success reply = false -> ws_results reply = [])
  /\ (length (ws_results reply) <= 2)%nat
  /\ forall page, In page (ws_results reply) ->
       truthy (content page) = true
       /\ (length (content page) <= 1003)%nat
       /\ exists found w1 raw,
            ddgs_text w (_enhance_math_query query) 3 = (Ok found, w1)
            /\ In raw found
            /\ url page = raw_href raw
            /\ title page = raw_title raw
            /\ snippet page = raw_body raw
            /\ is_trusted page = _is_trusted_domain (raw_href raw).
Proof.
  cbv zeta. unfold WebSearchAgent_search_math_content. cbv zeta.
  destruct (ddgs_text w (_enhance_math_query query) 3)
    as [[found | e] w1] eqn:Hsearch.
  - destruct found as [| first others] eqn:Hfound.
    + cbn [fst ws_success ws_results]. split; [reflexivity |].
      split; [simpl; lia | intros page []].
    + rewrite <- Hfound in *. clear Hfound first others.
      destruct (enrich (firstn 2 (_filter_results found)) w1)
        as [enriched w2] eqn:Henrich.
      pose proof (enrich_facts (firstn 2 (_filter_results found)) w1)
        as [Hlen Hpages].
      rewrite Henrich in Hlen, Hpages. cbn [fst] in Hlen, Hpages.
      cbn [fst ws_success ws_results].
      split; [discriminate |]. split.
      * rewrite length_firstn in Hlen. lia.
      * intros page Hin.
        destruct (Hpages page Hin) as [H1 [H2 [raw [H3 H4]]]].
        split; [exact H1 |]. split; [exact H2 |].
        exists found, w1, raw. split; [reflexivity |]. split; [| exact H4].
        apply (Permutation_in _ (filter_results_perm found)).
        apply (in_firstn_in 2 _ _ H3).
  - cbn [fst ws_success ws_results]. split; [reflexivity |].
    split; [simpl; lia | intros page []].
Qed.

End WebSearchFacts.

Section WebQueryFacts.
Context {rt : TextRuntime}.

Lemma forallb_app_true {A : Type} (f : A -> bool) (xs ys : list A) :
  forallb f xs = true -> forallb f ys = true -> forallb f (xs ++ ys) = true.
Proof. intros Hx Hy. rewrite forallb_app, Hx, Hy. reflexivity. Qed.

(** X21: [_is_trusted_domain] is a case-insensitive substring test on the
    whole URL: an ASCII URL is trusted as soon as one of the listed
    domains occurs anywhere in its lower-cased text, host or not. *)
Theorem trusted_domain_is_a_substring_test (url domain before after : pystr) :
  In domain trusted_domains ->
  forallb is_ascii url = true ->
  map ascii_lower url = before ++ domain ++ after ->
  _is_trusted_domain url = true.
Proof.
  intros Hdomain Hascii Hparts. unfold _is_trusted_domain.
  apply existsb_exists. exists domain. split; [exact Hdomain |].
  rewrite (lower_ascii url Hascii), Hparts. apply contains_app.
Qed.

(** X22: the enhanced query always contains the query it was made from;
    for an ASCII query it contains one of the context keywords, so that
    enhancing it again changes nothing. *)
Theorem enhanced_query_keeps_the_question (query : pystr) :
  contains query (_enhance_math_query query) = true
  /\ (forallb is_ascii query = true ->
      existsb (fun keyword => contains keyword (lower (_enhance_math_query query)))
        math_context = true
      /\ _enhance_math_query (_enhance_math_query query)
         = _enhance_math_query query).
Proof.
  assert (Hcases :
    _enhance_math_query query = query
    /\ existsb (fun keyword => contains keyword (lower query)) math_context = true
    \/ _enhance_math_query query = u "mathematics " ++ query ++ u " explanation").
  { unfold _enhance_math_query. cbv zeta.
    destruct (existsb (fun keyword => contains keyword (lower query)) math_context);
      [left; split; reflexivity | right; reflexivity]. }
  split.
  - destruct Hcases as [[-> _] | ->].
    + rewrite <- (app_nil_r query) at 2.
      apply (contains_app query [] []).
    + apply contains_app.
  - intros Hascii.
    assert (Hkeyword :
      existsb (fun keyword => contains keyword (lower (_enhance_math_query query)))
        math_context = true).
    { destruct Hcases as [[-> Hhas] | ->]; [exact Hhas |].
      rewrite lower_ascii.
      - rewrite !map_app. apply existsb_exists.
        exists (u "mathematics"). split; [left; reflexivity |].
        change (map ascii_lower (u "mathematics "))
          with ([] ++ u "mathematics" ++ u " ").
        rewrite <- !app_assoc. apply contains_app.
      - apply forallb_app_true; [reflexivity |].
        apply forallb_app_true; [exact Hascii | reflexivity]. }
    split; [exact Hkeyword |].
    unfold _enhance_math_query at 1. cbv zeta. rewrite Hkeyword. reflexivity.
Qed.

Lemma word_runs_without_words (s : pystr) :
  forallb (fun c => negb (re_word c)) s = true -> word_runs s [] = [].
Proof.
  induction s as [| c s IH]; [reflexivity |].
  simpl. intros H. apply andb_true_iff in H as [Hc Hs].
  apply negb_true_iff in Hc. rewrite Hc. apply IH. exact Hs.
Qed.

(** X23: [validate_answer_exists] rejects an empty result list, and it
    accepts every non-empty result list when the lower-cased question has
    no word character at all: with no query term to look for, the first
    result passes the 50% test. *)
Theorem validation_without_query_terms (query : pystr)
    (search_results : list web_result) :
  validate_answer_exists query [] = false
  /\ (forallb (fun c => negb (re_word c)) (lower query) = true ->
      search_results <> [] ->
      validate_answer_exists query search_results = true).
Proof.
  split; [reflexivity |].
  intros Hnowords Hne. unfold validate_answer_exists.
  destruct search_results as [| first rest]; [congruence |].
  rewrite (word_runs_without_words _ Hnowords). reflexivity.
Qed.

End WebQueryFacts.

(** ** [PDFProcessor.clean_text] and [split_into_chunks] *)

Lemma collapse_whitespace_spaces (in_run : bool) (text : pystr) (c : pychar) :
  In c (collapse_whitespace_from in_run text) ->
  isspace c = true -> c = 32%N.
Proof.
  revert in_run. induction text as [| d text IH]; intros in_run; simpl;
    [contradiction |].
  destruct (isspace d) eqn:Hd.
  - destruct in_run; [apply IH |].
    intros [<- | Hin]; [reflexivity | apply (IH true Hin)].
  - intros [<- | Hin]; [congruence | apply (IH false Hin)].
Qed.

Lemma collapse_whitespace_length (in_run : bool) (text : pystr) :
  (length (collapse_whitespace_from in_run text) <= length text)%nat.
Proof.
  revert in_run. induction text as [| d text IH]; intros in_run; simpl;
    [lia |].
  destruct (isspace d); [destruct in_run |]; simpl;
    first [specialize (IH true); lia | specialize (IH false); lia].
Qed.

Section CleanTextFacts.
Context {rt : TextRuntime}.

(** X24: the text [clean_text] returns is no longer than its input, has
    no white space at either end, and consists of word characters, kept
    punctuation and plain spaces only: every other white-space character
    has become a space and every other symbol is gone. *)
Theorem clean_text_keeps_words_and_punctuation (text : pystr) :
  (length (clean_text text) <= length text)%nat
  /\ (forall c, In c (clean_text text) ->
        (re_word c = true \/ is_kept_punctuation c = true \/ c = 32%N)
        /\ (isspace c = true -> c = 32%N))
  /\ (forall c rest, clean_text text = c :: rest -> isspace c = false)
  /\ (forall front c, clean_text text = front ++ [c] -> isspace c = false).
Proof.
  unfold clean_text. cbv zeta.
  set (keep := fun c => re_word c || isspace c || is_kept_punctuation c).
  set (kept := filter keep (collapse_whitespace text)).
  split; [| split; [| split]].
  - pose proof (strip_length kept) as H1.
    pose proof (filter_length_le keep (collapse_whitespace text)) as H2.
    pose proof (collapse_whitespace_length false text) as H3.
    unfold kept, collapse_whitespace in *. lia.
  - intros c Hin.
    destruct (strip_infix kept) as [before [after Hkept]].
    assert (Hin' : In c kept).
    { rewrite Hkept. apply in_or_app. right. apply in_or_app. left. exact Hin. }
    unfold kept in Hin'. apply filter_In in Hin' as [Hcol Hkeep].
    assert (Hspace : isspace c = true -> c = 32%N)
      by (apply (collapse_whitespace_spaces false text c Hcol)).
    split; [| exact Hspace].
    unfold keep in Hkeep.
    apply orb_true_iff in Hkeep as [Hkeep | Hp]; [| auto].
    apply orb_true_iff in Hkeep as [Hw | Hs]; auto.
  - intros c rest. apply strip_head.
  - intros front c. apply strip_last.
Qed.

End CleanTextFacts.

Lemma rfind_down_bound (sub text : pystr) (start : Z) (count : nat) :
  rfind_down sub text start count = (-1)%Z
  \/ (start <= rfind_down sub text start count < start + Z.of_nat count)%Z.
Proof.
  induction count as [| k IH]; [left; reflexivity |].
  cbn [rfind_down].
  destruct (starts_with sub (skipn (Z.to_nat (start + Z.of_nat k)) text)).
  - right. lia.
  - destruct IH as [-> | IH]; [left; reflexivity | right; lia].
Qed.

(** The window of a chunk is not empty and at most [chunk_size] long, and
    the next window begins later. *)
Lemma chunk_end_progress (text : pystr) (chunk_size chunk_overlap start : Z) :
  (1 <= chunk_size)%Z ->
  (0 <= chunk_overlap <= chunk_size / 2)%Z ->
  (0 <= start)%Z ->
  (start < chunk_end text chunk_size start <= start + chunk_size)%Z
  /\ (start < chunk_end text chunk_size start - chunk_overlap)%Z.
Proof.
  intros Hsize Hoverlap Hstart.
  assert (Hhalf : (0 <= chunk_size / 2 /\ 2 * (chunk_size / 2) <= chunk_size)%Z).
  { split; [apply Z.div_pos; lia |].
    pose proof (Z.mul_div_le chunk_size 2). lia. }
  unfold chunk_end. cbv zeta.
  destruct (start + chunk_size <? py_len text)%Z eqn:Hinside; [| lia].
  apply Z.ltb_lt in Hinside.
  destruct (negb (rfind (u ". ") text start (start + chunk_size) =? -1)%Z
            && (start + chunk_size / 2
                <? rfind (u ". ") text start (start + chunk_size))%Z) eqn:Hbreak;
    [| lia].
  apply andb_true_iff in Hbreak as [Hfound Hlate].
  apply negb_true_iff, Z.eqb_neq in Hfound. apply Z.ltb_lt in Hlate.
  revert Hfound Hlate. unfold rfind. cbv zeta.
  replace (py_len text <? start + chunk_size)%Z with false
    by (symmetry; apply Z.ltb_ge; lia).
  replace (start + chunk_size <? 0)%Z with false
    by (symmetry; apply Z.ltb_ge; lia).
  replace (start <? 0)%Z with false by (symmetry; apply Z.ltb_ge; lia).
  match goal with
  | |- context [rfind_down ?s ?t ?a ?n] =>
      destruct (rfind_down_bound s t a n) as [-> | Hbound]
  end; [congruence |].
  change (py_len (u ". ")) with 2%Z in *.
  intros _ Hlate. lia.
Qed.

Lemma split_loop_fuel (text : pystr) (chunk_size chunk_overlap : Z)
    (metadata : list (string * pystr)) (fuel fuel' : nat) (start : Z)
    (chunks : list chunk) :
  split_loop fuel text chunk_size chunk_overlap metadata start = Some chunks ->
  (fuel <= fuel')%nat ->
  split_loop fuel' text chunk_size chunk_overlap metadata start = Some chunks.
Proof.
  revert fuel' start chunks. induction fuel as [| fuel IH];
    intros fuel' start chunks; [discriminate |].
  intros Hrun Hle. destruct fuel' as [| fuel']; [lia |].
  cbn [split_loop] in *.
  destruct (start <? py_len text)%Z; [| exact Hrun].
  cbv zeta in *.
  destruct (split_loop fuel text chunk_size chunk_overlap metadata
              (chunk_end text chunk_size start - chunk_overlap)%Z)
    as [later |] eqn:Hlater; [| discriminate].
  rewrite (IH fuel' _ later Hlater) by lia. exact Hrun.
Qed.

Lemma split_loop_terminates (text : pystr) (chunk_size chunk_overlap : Z)
    (metadata : list (string * pystr)) (fuel : nat) (start : Z) :
  (1 <= chunk_size)%Z ->
  (0 <= chunk_overlap <= chunk_size / 2)%Z ->
  (0 <= start)%Z ->
  (Z.max 0 (py_len text - start) < Z.of_nat fuel)%Z ->
  exists chunks,
    split_loop fuel text chunk_size chunk_overlap metadata start = Some chunks
    /\ (Z.of_nat (length chunks) <= Z.max 0 (py_len text - start))%Z.
Proof.
  intros Hsize Hoverlap. revert start.
  induction fuel as [| fuel IH]; intros start Hstart Hfuel.
  - lia.
  - cbn [split_loop].
    destruct (start <? py_len text)%Z eqn:Hin.
    + apply Z.ltb_lt in Hin. cbv zeta.
      destruct (chunk_end_progress text chunk_size chunk_overlap start
                  Hsize Hoverlap Hstart) as [Hwindow Hnext].
      destruct (IH (chunk_end text chunk_size start - chunk_overlap)%Z)
        as [later [Hlater Hcount]]; [lia | lia |].
      rewrite Hlater. eexists. split; [reflexivity |].
      destruct (truthy _); cbn [length]; lia.
    + exists []. split; [reflexivity | simpl; lia].
Qed.

(** X25: with a chunk size of at least 1 and an overlap of at most half
    the chunk size - the pipeline uses 1000 and 200 - the loop of
    [split_into_chunks] ends within as many turns as the text has
    characters, whatever the text; more fuel gives the same chunks, and
    there are at most as many chunks as characters. *)
Theorem split_into_chunks_terminates (chunk_size chunk_overlap : Z)
    (text : pystr) (metadata : option (list (string * pystr))) (fuel : nat) :
  (1 <= chunk_size)%Z ->
  (0 <= chunk_overlap <= chunk_size / 2)%Z ->
  (length text < fuel)%nat ->
  exists chunks,
    split_into_chunks fuel chunk_size chunk_overlap text metadata = Some chunks
    /\ (length chunks <= length text)%nat
    /\ forall more,
         (fuel <= more)%nat ->
         split_into_chunks more chunk_size chunk_overlap text metadata
         = Some chunks.
Proof.
  intros Hsize Hoverlap Hfuel. unfold split_into_chunks.
  destruct (truthy text).
  - destruct (split_loop_terminates text chunk_size chunk_overlap
                (match metadata with Some m => m | None => [] end) fuel 0
                Hsize Hoverlap (Z.le_refl 0)) as [chunks [Hrun Hcount]].
    + unfold py_len. lia.
    + exists chunks. split; [exact Hrun |]. split.
      * unfold py_len in Hcount. lia.
      * intros more Hmore. apply (split_loop_fuel _ _ _ _ fuel); assumption.
  - exists []. split; [reflexivity |]. split; [simpl; lia | reflexivity].
Qed.

Lemma py_slice_length (text : pystr) (start stop : Z) :
  (0 <= start)%Z -> (0 <= stop)%Z ->
  (py_len (py_slice text start stop) <= Z.max 0 (stop - start))%Z.
Proof.
  intros Hstart Hstop. unfold py_slice, slice_index, py_len. cbv zeta.
  rewrite length_firstn.
  replace (start <? 0)%Z with false by (symmetry; apply Z.ltb_ge; lia).
  replace (stop <? 0)%Z with false by (symmetry; apply Z.ltb_ge; lia).
  lia.
Qed.

Lemma py_slice_in (text : pystr) (start stop : Z) (i : nat) (c : pychar) :
  nth_error text i = Some c ->
  (0 <= start <= Z.of_nat i)%Z -> (Z.of_nat i < stop)%Z ->
  In c (py_slice text start stop).
Proof.
  intros Hnth Hstart Hstop.
  assert (Hlen : (i < length text)%nat)
    by (apply nth_error_Some; congruence).
  unfold py_slice, slice_index, py_len. cbv zeta.
  replace (start <? 0)%Z with false by (symmetry; apply Z.ltb_ge; lia).
  replace (stop <? 0)%Z with false by (symmetry; apply Z.ltb_ge; lia).
  apply (nth_error_In _ (i - Z.to_nat (Z.min start (Z.of_nat (length text))))).
  rewrite nth_error_firstn.
  replace (_ <? _)%nat with true by (symmetry; apply Nat.ltb_lt; lia).
  rewrite nth_error_skipn. rewrite <- Hnth. f_equal. lia.
Qed.

Lemma lstrip_keeps (s : pystr) (c : pychar) :
  In c s -> isspace c = false -> In c (lstrip s).
Proof.
  induction s as [| d s IH]; simpl; [contradiction |].
  intros [-> | Hin] Hc.
  - rewrite Hc. left. reflexivity.
  - destruct (isspace d); [apply IH; assumption | right; exact Hin].
Qed.

(** [strip] keeps every character that is not white space. *)
Lemma strip_keeps (s : pystr) (c : pychar) :
  In c s -> isspace c = false -> In c (strip s).
Proof.
  intros Hin Hc. unfold strip.
  apply in_rev. rewrite rev_involutive.
  apply lstrip_keeps; [| exact Hc].
  apply -> in_rev. apply lstrip_keeps; assumption.
Qed.

Lemma truthy_in (s : pystr) (c : pychar) : In c s -> truthy s = true.
Proof. destruct s; [contradiction | reflexivity]. Qed.

(** What the loop yields from a position [start] that is not negative. *)
Lemma split_loop_chunks (text : pystr) (chunk_size chunk_overlap : Z)
    (metadata : list (string * pystr)) (fuel : nat) (start : Z)
    (chunks : list chunk) :
  (1 <= chunk_size)%Z ->
  (0 <= chunk_overlap <= chunk_size / 2)%Z ->
  (0 <= start)%Z ->
  split_loop fuel text chunk_size chunk_overlap metadata start = Some chunks ->
  Forall (fun c =>
            (start <= start_index c < py_len text)%Z
            /\ text_of c = strip (py_slice text (start_index c) (end_index c))
            /\ text_of c <> []
            /\ (start_index c < end_index c <= start_index c + chunk_size)%Z
            /\ (py_len (text_of c) <= chunk_size)%Z
            /\ metadata_of c = metadata)
         chunks
  /\ StronglySorted (fun a b => (start_index a < start_index b)%Z) chunks.
Proof.
  intros Hsize Hoverlap. revert start chunks.
  induction fuel as [| fuel IH]; intros start chunks Hstart; [discriminate |].
  cbn [split_loop].
  destruct (start <? py_len text)%Z eqn:Hin.
  - apply Z.ltb_lt in Hin. cbv zeta.
    destruct (chunk_end_progress text chunk_size chunk_overlap start
                Hsize Hoverlap Hstart) as [Hwindow Hnext].
    set (stop := chunk_end text chunk_size start) in *.
    destruct (split_loop fuel text chunk_size chunk_overlap metadata
                (stop - chunk_overlap)%Z) as [later |] eqn:Hlater;
      [| discriminate].
    destruct (IH (stop - chunk_overlap)%Z later ltac:(lia) Hlater)
      as [Hall Hsorted].
    assert (Hall' : Forall (fun c =>
              (start < start_index c < py_len text)%Z
              /\ text_of c = strip (py_slice text (start_index c) (end_index c))
              /\ text_of c <> []
              /\ (start_index c < end_index c <= start_index c + chunk_size)%Z
              /\ (py_len (text_of c) <= chunk_size)%Z
              /\ metadata_of c = metadata) later).
    { eapply Forall_impl; [| exact Hall]. cbv beta.
      intros c [H1 H2]. split; [lia | exact H2]. }
    destruct (truthy (strip (py_slice text start stop))) eqn:Htext;
      intros H; apply some_eq in H; subst chunks.
    + split.
      * constructor.
        -- cbn [start_index end_index text_of metadata_of].
           split; [lia |]. split; [reflexivity |].
           split; [destruct (strip (py_slice text start stop)); discriminate |].
           split; [lia |]. split; [| reflexivity].
           pose proof (py_slice_length text start stop Hstart ltac:(lia))
             as Hslice.
           pose proof (strip_length (py_slice text start stop)) as Hstrip.
           unfold py_len in *. lia.
        -- eapply Forall_impl; [| exact Hall']. cbv beta.
           intros c [H1 H2]. split; [lia | exact H2].
      * constructor; [exact Hsorted |].
        eapply Forall_impl; [| exact Hall']. cbv beta.
        intros c [H1 _]. cbn [start_index]. lia.
    + split; [| exact Hsorted].
      eapply Forall_impl; [| exact Hall']. cbv beta.
      intros c [H1 H2]. split; [lia | exact H2].
  - intros H. apply some_eq in H. subst chunks. split; constructor.
Qed.

(** X26: with a chunk size of at least 1 and an overlap of at most half
    of it, every chunk of [split_into_chunks] is the stripped text of its
    window [start_index, end_index): it is not empty, at most [chunk_size]
    characters long, starts inside the text and carries the metadata
    passed in; the chunks come in the order of strictly increasing start
    positions. *)
Theorem chunks_are_stripped_windows (chunk_size chunk_overlap : Z)
    (text : pystr) (metadata : option (list (string * pystr))) (fuel : nat)
    (chunks : list chunk) :
  (1 <= chunk_size)%Z ->
  (0 <= chunk_overlap <= chunk_size / 2)%Z ->
  split_into_chunks fuel chunk_size chunk_overlap text metadata = Some chunks ->
  Forall (fun c =>
            (0 <= start_index c < py_len text)%Z
            /\ text_of c = strip (py_slice text (start_index c) (end_index c))
            /\ text_of c <> []
            /\ (start_index c < end_index c <= start_index c + chunk_size)%Z
            /\ (py_len (text_of c) <= chunk_size)%Z
            /\ metadata_of c = match metadata with Some m => m | None => [] end)
         chunks
  /\ StronglySorted (fun a b => (start_index a < start_index b)%Z) chunks.
Proof.
  intros Hsize Hoverlap. unfold split_into_chunks.
  destruct (truthy text).
  - apply split_loop_chunks; [exact Hsize | exact Hoverlap | lia].
  - intros H. apply some_eq in H. subst chunks. split; constructor.
Qed.

Lemma split_loop_covers (text : pystr) (chunk_size chunk_overlap : Z)
    (metadata : list (string * pystr)) (fuel : nat) (start : Z)
    (chunks : list chunk) (i : nat) (c : pychar) :
  (1 <= chunk_size)%Z ->
  (0 <= chunk_overlap <= chunk_size / 2)%Z ->
  (0 <= start <= Z.of_nat i)%Z ->
  split_loop fuel text chunk_size chunk_overlap metadata start = Some chunks ->
  nth_error text i = Some c ->
  isspace c = false ->
  exists piece,
    In piece chunks
    /\ (start_index piece <= Z.of_nat i < end_index piece)%Z
    /\ In c (text_of piece).
Proof.
  intros Hsize Hoverlap. revert start chunks.
  induction fuel as [| fuel IH]; intros start chunks Hstart; [discriminate |].
  intros Hrun Hnth Hc. cbn [split_loop] in Hrun.
  assert (Hlen : (i < length text)%nat)
    by (apply nth_error_Some; congruence).
  replace (start <? py_len text)%Z with true in Hrun
    by (symmetry; apply Z.ltb_lt; unfold py_len; lia).
  cbv zeta in Hrun.
  destruct (chunk_end_progress text chunk_size chunk_overlap start
              Hsize Hoverlap ltac:(lia)) as [Hwindow Hnext].
  set (stop := chunk_end text chunk_size start) in *.
  destruct (split_loop fuel text chunk_size chunk_overlap metadata
              (stop - chunk_overlap)%Z) as [later |] eqn:Hlater;
    [| discriminate].
  apply some_eq in Hrun.
  destruct (Z.lt_ge_cases (Z.of_nat i) stop) as [Hinside | Hbeyond].
  - assert (Hin : In c (strip (py_slice text start stop))).
    { apply strip_keeps; [| exact Hc].
      apply (py_slice_in text start stop i c Hnth); lia. }
    rewrite (truthy_in _ _ Hin) in Hrun. subst chunks.
    eexists. split; [left; reflexivity |].
    cbn [start_index end_index text_of]. split; [lia | exact Hin].
  - destruct (IH (stop - chunk_overlap)%Z later ltac:(lia) Hlater Hnth Hc)
      as [piece [Hpiece Hfacts]].
    exists piece. split; [| exact Hfacts].
    subst chunks. destruct (truthy _); [right |]; exact Hpiece.
Qed.

(** X27: no text is lost between chunks: with a chunk size of at least 1
    and an overlap of at most half of it, every character of the text
    that is not white space lies in the window of some chunk and occurs
    in that chunk's text. *)
Theorem chunks_cover_the_text (chunk_size chunk_overlap : Z)
    (text : pystr) (metadata : option (list (string * pystr))) (fuel : nat)
    (chunks : list chunk) (i : nat) (c : pychar) :
  (1 <= chunk_size)%Z ->
  (0 <= chunk_overlap <= chunk_size / 2)%Z ->
  split_into_chunks fuel chunk_size chunk_overlap text metadata = Some chunks ->
  nth_error text i = Some c ->
  isspace c = false ->
  exists piece,
    In piece chunks
    /\ (start_index piece <= Z.of_nat i < end_index piece)%Z
    /\ In c (text_of piece).
Proof.
  intros Hsize Hoverlap Hrun Hnth Hc. unfold split_into_chunks in Hrun.
  rewrite (truthy_in text c (nth_error_In _ _ Hnth)) in Hrun.
  apply (split_loop_covers text chunk_size chunk_overlap
           (match metadata with Some m => m | None => [] end)
           fuel 0 chunks i c);
    try assumption. lia.
Qed.

(** ** The feedback database *)

Lemma find_app {A : Type} (p : A -> bool) (xs ys : list A) :
  find p (xs ++ ys)
  = match find p xs with Some x => Some x | None => find p ys end.
Proof.
  induction xs as [| x xs IH]; simpl; [reflexivity |].
  destruct (p x); [reflexivity | exact IH].
Qed.

Lemma find_none_intro {A : Type} (p : A -> bool) (xs : list A) :
  (forall x, In x xs -> p x = false) -> find p xs = None.
Proof.
  induction xs as [| x xs IH]; intros H; simpl; [reflexivity |].
  rewrite (H x (or_introl eq_refl)). apply IH.
  intros y Hy. apply H. right. exact Hy.
Qed.

Lemma nodup_snoc {A : Type} (xs : list A) (x : A) :
  NoDup xs -> ~ In x xs -> NoDup (xs ++ [x]).
Proof.
  intros Hxs Hx.
  apply (Permutation_NoDup (l := x :: xs)).
  - apply Permutation_cons_append.
  - constructor; assumption.
Qed.

Lemma nodup_map_injective {A B : Type} (f : A -> B) (xs : list A) (a b : A) :
  NoDup (map f xs) -> In a xs -> In b xs -> f a = f b -> a = b.
Proof.
  induction xs as [| x xs IH]; simpl; [contradiction |].
  intros Hnd Ha Hb Hab. inversion Hnd as [| ? ? Hnotin Hrest]; subst.
  destruct Ha as [-> | Ha], Hb as [-> | Hb].
  - reflexivity.
  - exfalso. apply Hnotin. rewrite Hab. apply in_map. exact Hb.
  - exfalso. apply Hnotin. rewrite <- Hab. apply in_map. exact Ha.
  - apply IH; assumption.
Qed.

Lemma update_analytics_row_ids (aid : Z) (avg : float) (t p n : Z)
    (rows : list analytics_row) :
  map an_id (update_analytics_row aid avg t p n rows) = map an_id rows
  /\ map an_question_type (update_analytics_row aid avg t p n rows)
     = map an_question_type rows.
Proof.
  unfold update_analytics_row. rewrite !map_map.
  split; apply map_ext; intros row; destruct (an_id row =? aid)%Z; reflexivity.
Qed.

Lemma update_analytics_row_find (aid : Z) (avg : float) (t p n : Z)
    (rows : list analytics_row) (source : pystr) :
  find (fun row => str_eqb (an_question_type row) source)
       (update_analytics_row aid avg t p n rows)
  = match find (fun row => str_eqb (an_question_type row) source) rows with
    | Some row =>
        Some (if (an_id row =? aid)%Z
              then {| an_id := an_id row;
                      an_question_type := an_question_type row;
                      an_avg_rating := avg;
                      an_total_responses := t;
                      an_positive_feedback := p;
                      an_negative_feedback := n |}
              else row)
    | None => None
    end.
Proof.
  unfold update_analytics_row.
  induction rows as [| row rows IH]; [reflexivity |].
  cbn [map find].
  destruct (an_id row =? aid)%Z eqn:Eid; cbn [an_question_type];
    destruct (str_eqb (an_question_type row) source);
    try exact IH; rewrite ?Eid; reflexivity.
Qed.

Lemma ratings_of_snoc (source s : pystr) (rating : option Z)
    (given : list (pystr * option Z)) :
  ratings_of source (given ++ [(s, rating)])
  = ratings_of source given
    ++ (if str_eqb s source
        then match rating with Some r => [r] | None => [] end
        else []).
Proof.
  unfold ratings_of. rewrite flat_map_app. simpl. rewrite app_nil_r.
  reflexivity.
Qed.

Lemma count_if_snoc (p : Z -> bool) (xs : list Z) (x : Z) :
  count_if p (xs ++ [x]) = (count_if p xs + (if p x then 1 else 0))%Z.
Proof.
  unfold count_if. rewrite filter_app, length_app. simpl.
  destruct (p x); simpl; lia.
Qed.

Lemma str_eqb_neq (a b : pystr) : a <> b -> str_eqb a b = false.
Proof.
  intros H. destruct (str_eqb a b) eqn:E; [| reflexivity].
  apply str_eqb_eq in E. contradiction.
Qed.

(** [_update_analytics] keeps the analytics table in step with the
    feedback given. *)
Lemma update_analytics_agree (given : list (pystr * option Z))
    (s : pystr) (rating : option Z) (db : feedback_db) :
  analytics_agree given db ->
  analytics_agree (given ++ [(s, rating)]) (_update_analytics s rating db).
Proof.
  intros [Hids [Hseq [Htypes Hrows]]].
  destruct rating as [r |].
  2:{ simpl. split; [exact Hids |]. split; [exact Hseq |].
      split; [exact Htypes |]. intros source. cbv zeta.
      rewrite ratings_of_snoc. destruct (str_eqb s source);
        rewrite app_nil_r; apply Hrows. }
  unfold _update_analytics.
  destruct (find (fun row => str_eqb (an_question_type row) s)
                 (analytics_table db)) as [result |] eqn:Hfind.
  - cbv zeta. unfold analytics_agree, analytics_of.
    cbn [analytics_table analytics_seq].
    match goal with
    | |- context [update_analytics_row ?a ?v ?t ?p ?n _] =>
        destruct (update_analytics_row_ids a v t p n (analytics_table db))
          as [Eids Etypes]
    end.
    rewrite Eids, Etypes.
    split; [exact Hids |]. split; [exact Hseq |]. split; [exact Htypes |].
    intros source. rewrite update_analytics_row_find, ratings_of_snoc.
    pose proof (Hrows source) as Hsource. cbv zeta in Hsource.
    unfold analytics_of in Hsource.
    destruct (str_eqb s source) eqn:Es.
    + apply str_eqb_eq in Es. subst source. rewrite Hfind in *.
      rewrite Z.eqb_refl.
      cbn [an_total_responses an_positive_feedback an_negative_feedback].
      destruct Hsource as [_ [Ht [Hp Hn]]].
      split; [intros E; apply app_eq_nil in E; destruct E; discriminate |].
      rewrite length_app, !count_if_snoc. simpl.
      unfold positive_vote, negative_vote. rewrite Ht, Hp, Hn.
      split; [lia |]. split; reflexivity.
    + rewrite app_nil_r.
      destruct (find (fun row => str_eqb (an_question_type row) source)
                     (analytics_table db)) as [row |] eqn:Hother;
        [| exact Hsource].
      destruct (an_id row =? an_id result)%Z eqn:Eid; [| exact Hsource].
      exfalso. apply Z.eqb_eq in Eid.
      apply find_some in Hfind. apply find_some in Hother.
      destruct Hfind as [Hin1 Ht1], Hother as [Hin2 Ht2].
      assert (row = result)
        by (apply (nodup_map_injective an_id (analytics_table db));
            assumption).
      subst row. apply str_eqb_eq in Ht1. apply str_eqb_eq in Ht2.
      rewrite Ht1 in Ht2. subst source. rewrite str_eqb_refl in Es.
      discriminate.
  - unfold analytics_agree, analytics_of.
    cbn [analytics_table analytics_seq].
    rewrite !map_app. cbn [map an_id an_question_type].
    split.
    { apply nodup_snoc; [exact Hids |]. intros Hin.
      rewrite Forall_forall in Hseq. specialize (Hseq _ Hin). lia. }
    split.
    { apply Forall_app. split.
      - eapply Forall_impl; [| exact Hseq]. simpl. intros; lia.
      - constructor; [lia | constructor]. }
    split.
    { apply nodup_snoc; [exact Htypes |]. intros Hin.
      apply in_map_iff in Hin. destruct Hin as [row [Et Hin]].
      pose proof (find_none _ _ Hfind row Hin) as Hno. simpl in Hno.
      rewrite Et, str_eqb_refl in Hno. discriminate. }
    intros source. rewrite find_app, ratings_of_snoc.
    pose proof (Hrows source) as Hsource. cbv zeta in Hsource.
    unfold analytics_of in Hsource.
    destruct (str_eqb s source) eqn:Es.
    + apply str_eqb_eq in Es. subst source. rewrite Hfind in *.
      cbn [find an_question_type]. rewrite str_eqb_refl.
      cbn [an_total_responses an_positive_feedback an_negative_feedback].
      rewrite Hsource. cbn [app length]. unfold count_if. cbn [filter].
      unfold positive_vote, negative_vote.
      split; [discriminate |]. split; [reflexivity |].
      split; [destruct (4 <=? r)%Z | destruct (r <=? 2)%Z]; reflexivity.
    + rewrite app_nil_r.
      destruct (find (fun row => str_eqb (an_question_type row) source)
                     (analytics_table db)) as [row |]; [exact Hsource |].
      cbn [find an_question_type]. rewrite Es. exact Hsource.
Qed.

Lemma update_analytics_feedback (s : pystr) (rating : option Z)
    (db : feedback_db) :
  feedback_table (_update_analytics s rating db) = feedback_table db
  /\ feedback_seq (_update_analytics s rating db) = feedback_seq db.
Proof.
  unfold _update_analytics. destruct rating as [r |]; [| split; reflexivity].
  destruct (find _ _); split; reflexivity.
Qed.

Lemma record_all_agree (calls : list feedback_call)
    (given : list (pystr * option Z)) (db : feedback_db) :
  analytics_agree given db ->
  analytics_agree (given ++ given_by_calls calls) (record_all calls db).
Proof.
  revert given db. induction calls as [| call calls IH]; intros given db H.
  - simpl. rewrite app_nil_r. exact H.
  - unfold record_all. cbn [fold_left given_by_calls map].
    change (given ++ (call_source call, call_rating call)
                     :: map (fun c => (call_source c, call_rating c)) calls)
      with (given ++ [(call_source call, call_rating call)]
                  ++ given_by_calls calls).
    rewrite app_assoc. apply IH. unfold record_feedback. cbn [snd].
    apply update_analytics_agree. exact H.
Qed.

Lemma empty_db_agree : analytics_agree [] empty_db.
Proof.
  split; [constructor |]. split; [constructor |]. split; [constructor |].
  intros source. reflexivity.
Qed.

(** The ids of the feedback rows after a series of calls. *)
Lemma record_all_ids (calls : list feedback_call) (db : feedback_db) :
  map fb_id (feedback_table (record_all calls db))
  = map fb_id (feedback_table db)
    ++ map (fun k => (feedback_seq db + Z.of_nat k)%Z) (seq 1 (length calls))
  /\ feedback_seq (record_all calls db)
     = (feedback_seq db + Z.of_nat (length calls))%Z.
Proof.
  revert db. induction calls as [| call calls IH]; intros db.
  - simpl. rewrite app_nil_r. split; [reflexivity | lia].
  - unfold record_all. cbn [fold_left].
    match goal with
    | |- context [fold_left _ calls ?d] =>
        destruct (IH d) as [Eids Eseq]; unfold record_all in Eids, Eseq;
        rewrite Eids, Eseq
    end.
    unfold record_feedback. cbn [snd].
    match goal with
    | |- context [_update_analytics ?s ?r ?d] =>
        destruct (update_analytics_feedback s r d) as [Et Es];
        rewrite Et, Es
    end.
    cbn [feedback_table feedback_seq]. rewrite map_app. cbn [map fb_id].
    rewrite <- app_assoc. cbn [app length seq].
    split; [| lia]. f_equal. cbn [map]. f_equal.
    rewrite <- (seq_shift (length calls) 1), map_map.
    apply map_ext. intros k. lia.
Qed.

(** X28: after any series of [record_feedback] calls on a new database,
    the analytics table has one row per source that was rated at least
    once and none for the others; the row's total is the number of ratings
    given for the source, its positive count the number of ratings of 4 or
    more, its negative count the number of ratings of 2 or less. *)
Theorem analytics_count_the_ratings (calls : list feedback_call)
    (source : pystr) :
  let db := record_all calls empty_db in
  let ratings := ratings_of source (given_by_calls calls) in
  NoDup (map an_question_type (analytics_table db))
  /\ match analytics_of source db with
     | None => ratings = []
     | Some row =>
         ratings <> []
         /\ an_total_responses row = Z.of_nat (length ratings)
         /\ an_positive_feedback row = count_if (Z.leb 4) ratings
         /\ an_negative_feedback row = count_if (fun r => (r <=? 2)%Z) ratings
         /\ (an_positive_feedback row + an_negative_feedback row
             <= an_total_responses row)%Z
     end.
Proof.
  cbv zeta.
  destruct (record_all_agree calls [] empty_db empty_db_agree)
    as [_ [_ [Htypes Hrows]]].
  split; [exact Htypes |].
  specialize (Hrows source). cbv zeta in Hrows. cbn [app] in Hrows.
  destruct (analytics_of source (record_all calls empty_db)) as [row |];
    [| exact Hrows].
  destruct Hrows as [Hne [Ht [Hp Hn]]].
  split; [exact Hne |]. split; [exact Ht |]. split; [exact Hp |].
  split; [exact Hn |].
  rewrite Ht, Hp, Hn. unfold count_if.
  generalize (ratings_of source (given_by_calls calls)). intros rs.
  induction rs as [| r rs IH]; cbn [filter length]; [lia |].
  destruct (4 <=? r)%Z eqn:E4; destruct (r <=? 2)%Z eqn:E2;
    cbn [length]; lia.
Qed.

(** X29: the id [record_feedback] returns on a database that started
    empty is one more than the number of earlier calls;
    [request_refinement] with
    that id gives back the question, the response and the source just
    recorded, and with an id that was never given out it answers that the
    feedback was not found and leaves the database as it is. *)
Theorem refinement_request_round_trip (calls : list feedback_call)
    (question response source : pystr) (rating : option Z)
    (feedback_text session : option pystr) (request : pystr) :
  let db := record_all calls empty_db in
  let recorded :=
    record_feedback question response source rating feedback_text session db in
  let feedback_id := fst recorded in
  feedback_id = Z.of_nat (S (length calls))
  /\ fst (request_refinement feedback_id request (snd recorded))
     = {| rr_success := true;
          rr_message := None;
          rr_feedback_id := Some feedback_id;
          rr_question := Some question;
          rr_original_response := Some response;
          rr_user_input := Some request;
          rr_source := Some source |}
  /\ forall other,
       (other <= 0 \/ Z.of_nat (S (length calls)) < other)%Z ->
       request_refinement other request (snd recorded)
       = (feedback_not_found, snd recorded).
Proof.
  cbv zeta.
  destruct (record_all_ids calls empty_db) as [Eids Eseq].
  cbn [feedback_table feedback_seq empty_db map app] in Eids, Eseq.
  set (db := record_all calls empty_db) in *.
  assert (Hold : forall row, In row (feedback_table db) ->
                   (1 <= fb_id row <= Z.of_nat (length calls))%Z).
  { intros row Hin. apply (in_map fb_id) in Hin. rewrite Eids in Hin.
    apply in_map_iff in Hin. destruct Hin as [k [<- Hk]].
    apply in_seq in Hk. lia. }
  unfold record_feedback. cbn [fst snd].
  split; [lia |].
  unfold request_refinement.
  match goal with
  | |- context [_update_analytics ?s ?r ?d] =>
      set (db1 := _update_analytics s r d);
      destruct (update_analytics_feedback s r d) as [Et _];
      fold db1 in Et
  end.
  cbn [feedback_table] in Et. rewrite Et. split.
  - rewrite find_app.
    rewrite find_none_intro.
    + cbn [find fb_id]. rewrite Z.eqb_refl. reflexivity.
    + intros row Hin. apply Z.eqb_neq. specialize (Hold row Hin). lia.
  - intros other Hother. rewrite find_none_intro; [reflexivity |].
    intros row Hin. apply Z.eqb_neq. apply in_app_or in Hin.
    destruct Hin as [Hin | [<- | []]].
    + specialize (Hold row Hin). lia.
    + cbn [fb_id]. lia.
Qed.

(** ** Loading the knowledge base *)

Lemma slice_incl {A : Type} (xs : list A) (i j : nat) : incl (slice xs i j) xs.
Proof.
  unfold slice. intros x Hx. apply in_firstn_in in Hx.
  revert xs Hx. induction i as [| i IH]; intros xs Hx; [exact Hx |].
  destruct xs as [| y ys]; [contradiction |]. right. apply IH. exact Hx.
Qed.

Lemma dict_set_keys (d : list (pystr * pystr)) (k v : pystr) :
  incl (map fst (dict_set d k v)) (k :: map fst d).
Proof.
  induction d as [| [k' v'] d IH]; simpl.
  - intros x Hx. exact Hx.
  - destruct (str_eqb k' k); simpl.
    + intros x Hx. right. exact Hx.
    + intros x [<- | Hx]; [right; left; reflexivity |].
      destruct (IH x Hx) as [<- | Hin]; [left; reflexivity |].
      right. right. exact Hin.
Qed.

Section KnowledgeBaseFacts.
Context {World : Type} {rt : TextRuntime} {files : PdfFiles World}
        {ix : IndexBackend World}.

Lemma load_loop_keys (pdf_paths : list pystr) (d : list (pystr * pystr))
    (w : World) (key : pystr) :
  In key (map fst (fst (load_loop pdf_paths d w))) ->
  In key (map fst d) \/ In key (map last_component pdf_paths).
Proof.
  revert d w. induction pdf_paths as [| pdf_path rest IH]; intros d w.
  - simpl. intros H. left. exact H.
  - cbn [load_loop map]. cbv zeta.
    destruct (load_pdf pdf_path w) as [[text | e] w1]; intros H;
      destruct (IH _ _ H) as [Hd | Hrest].
    + destruct (dict_set_keys d (last_component pdf_path) text key Hd)
        as [<- | Hold]; [right; left; reflexivity | left; exact Hold].
    + right. right. exact Hrest.
    + left. exact Hd.
    + right. right. exact Hrest.
Qed.

(** The chunking of [process_pdfs] ends for every text, and what it
    yields. *)
Lemma chunk_texts_total (chunk_size chunk_overlap : Z)
    (pdf_texts : list (pystr * pystr)) :
  (1 <= chunk_size)%Z ->
  (0 <= chunk_overlap <= chunk_size / 2)%Z ->
  exists chunks,
    chunk_texts chunk_size chunk_overlap pdf_texts = Some chunks
    /\ Forall (fun c =>
                 text_of c <> []
                 /\ (py_len (text_of c) <= chunk_size)%Z
                 /\ exists filename,
                      In filename (map fst pdf_texts)
                      /\ metadata_of c = [("source"%string, filename)])
              chunks.
Proof.
  intros Hsize Hoverlap.
  induction pdf_texts as [| [filename text] rest [more [Hmore Hall]]].
  - exists []. split; [reflexivity | constructor].
  - cbn [chunk_texts]. cbv zeta. unfold split_into_chunks.
    assert (Hhere : exists chunks,
               (if truthy (clean_text text)
                then split_loop (S (length (clean_text text))) (clean_text text)
                       chunk_size chunk_overlap [("source"%string, filename)] 0
                else Some [])
               = Some chunks
               /\ Forall (fun c =>
                            text_of c <> []
                            /\ (py_len (text_of c) <= chunk_size)%Z
                            /\ metadata_of c = [("source"%string, filename)])
                         chunks).
    { destruct (truthy (clean_text text)).
      - destruct (split_loop_terminates (clean_text text) chunk_size
                    chunk_overlap [("source"%string, filename)]
                    (S (length (clean_text text))) 0 Hsize Hoverlap
                    (Z.le_refl 0)) as [chunks [Hrun _]].
        { unfold py_len. lia. }
        exists chunks. split; [exact Hrun |].
        destruct (split_loop_chunks _ _ _ _ _ _ _ Hsize Hoverlap
                    (Z.le_refl 0) Hrun) as [Hfacts _].
        eapply Forall_impl; [| exact Hfacts].
        intros c [_ [_ [Hne [_ [Hlen Hmeta]]]]].
        split; [exact Hne |]. split; [exact Hlen | exact Hmeta].
      - exists []. split; [reflexivity | constructor]. }
    destruct Hhere as [chunks [Hrun Hfacts]]. rewrite Hrun, Hmore.
    exists (chunks ++ more). split; [reflexivity |].
    apply Forall_app. split.
    + eapply Forall_impl; [| exact Hfacts].
      intros c [Hne [Hlen Hmeta]]. split; [exact Hne |].
      split; [exact Hlen |]. exists filename.
      split; [left; reflexivity | exact Hmeta].
    + eapply Forall_impl; [| exact Hall].
      intros c [Hne [Hlen [name [Hin Hmeta]]]]. split; [exact Hne |].
      split; [exact Hlen |]. exists name.
      split; [right; exact Hin | exact Hmeta].
Qed.

(** Whatever [add_documents] sent, it took from the chunks. *)
Lemma add_documents_accepted_in (chunks : list chunk) (w w' : World)
    (r : Res unit) (accepted : list add_request) :
  add_documents chunks w = (r, w', accepted) ->
  Forall (fun request =>
            incl (add_texts request) (map text_of chunks)
            /\ incl (add_metadatas request) (map metadata_of chunks))
         accepted.
Proof.
  unfold add_documents. destruct chunks as [| c0 cs] eqn:Hchunks.
  { intros H. injection H as _ _ <-. constructor. }
  rewrite <- Hchunks. clear Hchunks c0 cs.
  destruct (embed_all (map text_of chunks) w) as [[embeddings | e] w1];
    [| intros H; injection H as _ _ <-; constructor].
  intros Hadd.
  destruct (add_all_accepted _ _ _ _ _ Hadd) as [pending [Hreq _]].
  apply Forall_forall. intros request Hin.
  assert (Hsent : In request (add_requests chunks embeddings))
    by (rewrite Hreq; apply in_or_app; left; exact Hin).
  unfold add_requests in Hsent. cbv zeta in Hsent.
  apply in_map_iff in Hsent. destruct Hsent as [i [<- _]].
  cbn [add_texts add_metadatas]. split; apply slice_incl.
Qed.

(** When [add_documents] returns, it has sent as many texts as there are
    chunks. *)
Lemma add_documents_accepted_count (chunks : list chunk) (w w' : World)
    (accepted : list add_request) :
  add_documents chunks w = (Ok tt, w', accepted) ->
  length (concat (map add_texts accepted)) = length chunks.
Proof.
  unfold add_documents. destruct chunks as [| c0 cs] eqn:Hchunks.
  { intros H. injection H as _ <-. reflexivity. }
  rewrite <- Hchunks. clear Hchunks c0 cs.
  destruct (embed_all (map text_of chunks) w) as [[embeddings | e] w1];
    [| discriminate].
  intros Hadd.
  destruct (add_all_accepted _ _ _ _ _ Hadd) as [pending [Hreq Hdone]].
  rewrite (Hdone tt eq_refl), app_nil_r in Hreq. subst accepted.
  unfold add_requests. cbv zeta. rewrite map_map. cbn [add_texts].
  rewrite concat_batch_slices by (unfold batch_size; lia).
  apply length_map.
Qed.

(** X30: [initialize_knowledge_base] always returns a report, whatever
    the files and the index do. A report of success carries the number
    of paths given - also of those that could not be read - and a chunk
    count of at least 1 that is the number of texts sent to the
    collection; any other report carries a count of 0. When no content
    was extracted the collection is neither cleared nor written. Every
    text sent is not empty, at most 1000 characters long, and labelled
    with the file name of one of the paths. *)
Theorem initialize_knowledge_base_report (pdf_paths : list pystr)
    (w : World) :
  exists report w' accepted,
    initialize_knowledge_base pdf_paths w = Some (report, w', accepted)
    /\ (kb_success report = true ->
        kb_pdfs_loaded report = Some (length pdf_paths)
        /\ (1 <= kb_chunks_count report)%nat
        /\ length (concat (map add_texts accepted)) = kb_chunks_count report)
    /\ (kb_success report = false ->
        kb_chunks_count report = 0%nat /\ kb_pdfs_loaded report = None)
    /\ (kb_message report = u "No content extracted from PDFs" ->
        accepted = [] /\ w' = snd (load_multiple_pdfs pdf_paths w))
    /\ Forall (fun request =>
                 Forall (fun text =>
                           text <> [] /\ (py_len text <= 1000)%Z)
                        (add_texts request)
                 /\ Forall (fun metadata =>
                              exists pdf_path,
                                In pdf_path pdf_paths
                                /\ metadata
                                   = [("source"%string,
                                       last_component pdf_path)])
                           (add_metadatas request))
              accepted.
Proof.
  unfold initialize_knowledge_base, process_pdfs.
  destruct (load_multiple_pdfs pdf_paths w) as [pdf_texts w1] eqn:Hload.
  assert (Hkeys : forall key, In key (map fst pdf_texts) ->
                    exists pdf_path,
                      In pdf_path pdf_paths /\ key = last_component pdf_path).
  { intros key Hkey.
    pose proof (load_loop_keys pdf_paths [] w key) as H.
    unfold load_multiple_pdfs in Hload. rewrite Hload in H.
    destruct (H Hkey) as [[] | Hin].
    apply in_map_iff in Hin. destruct Hin as [pdf_path [<- Hin]].
    exists pdf_path. split; [exact Hin | reflexivity]. }
  destruct (chunk_texts_total 1000 200 pdf_texts) as [chunks [Hchunks Hall]];
    [lia | split; [lia | apply Z.div_le_lower_bound; lia] |].
  rewrite Hchunks. cbn [snd].
  destruct chunks as [| c0 cs] eqn:Hshape.
  { do 3 eexists. split; [reflexivity |].
    cbn [kb_success kb_chunks_count kb_pdfs_loaded kb_message].
    split; [discriminate |]. split; [intros _; split; reflexivity |].
    split; [intros _; split; reflexivity | constructor]. }
  rewrite <- Hshape in *.
  assert (Hcount : (1 <= length chunks)%nat) by (rewrite Hshape; simpl; lia).
  clear Hshape c0 cs.
  destruct (add_documents chunks (reset_collection w1))
    as [[r w3] accepted] eqn:Hadd.
  assert (Hsent :
    Forall (fun request =>
              Forall (fun text => text <> [] /\ (py_len text <= 1000)%Z)
                     (add_texts request)
              /\ Forall (fun metadata =>
                           exists pdf_path,
                             In pdf_path pdf_paths
                             /\ metadata
                                = [("source"%string, last_component pdf_path)])
                        (add_metadatas request))
           accepted).
  { pose proof (add_documents_accepted_in _ _ _ _ _ Hadd) as Hin.
    rewrite Forall_forall in Hall.
    eapply Forall_impl; [| exact Hin].
    intros request [Htexts Hmetas]. split; apply Forall_forall.
    - intros text Htext. apply Htexts in Htext.
      apply in_map_iff in Htext. destruct Htext as [c [<- Hc]].
      destruct (Hall c Hc) as [Hne [Hlen _]]. split; assumption.
    - intros metadata Hmeta. apply Hmetas in Hmeta.
      apply in_map_iff in Hmeta. destruct Hmeta as [c [<- Hc]].
      destruct (Hall c Hc) as [_ [_ [filename [Hname Hm]]]].
      destruct (Hkeys filename Hname) as [pdf_path [Hpath ->]].
      exists pdf_path. split; [exact Hpath | exact Hm]. }
  destruct r as [[] | e]; do 3 eexists; (split; [reflexivity |]);
    cbn [kb_success kb_chunks_count kb_pdfs_loaded kb_message].
  - split.
    { intros _. split; [reflexivity |]. split; [exact Hcount |].
      apply (add_documents_accepted_count _ _ _ _ Hadd). }
    split; [discriminate |]. split; [| exact Hsent].
    intros H. apply (f_equal (hd 0%N)) in H. vm_compute in H. discriminate.
  - split; [discriminate |]. split; [intros _; split; reflexivity |].
    split; [| exact Hsent].
    intros H. apply (f_equal (hd 0%N)) in H. vm_compute in H. discriminate.
Qed.

End KnowledgeBaseFacts.

(** ** The further properties on concrete inputs *)

Lemma low_relevance_warning_is_filtered_witness :
  reason (validate_input (u "Hello there")) = "low_math_relevance"%string
  /\ is_valid (validate_input (u "Hello there")) = true
  /\ exists r,
       answer_question default_config (u "Hello there") None quiet_world
       = (Ok r, quiet_world, [])
       /\ source r = "Math Filter"%string
       /\ success r = false.
Proof.
  assert (H : reason (validate_input (u "Hello there"))
              = "low_math_relevance"%string) by (vm_compute; reflexivity).
  split; [exact H |].
  exact (low_relevance_warning_is_filtered default_config (u "Hello there")
           None quiet_world H).
Defined.

Lemma retrieval_failure_propagates_witness :
  input_blocked integral_question = false
  /\ math_filtered integral_question = false
  /\ vector_store_search broken_index_world integral_question 3
       (min_confidence_score default_config)
     = (Raise (u "Collection math_knowledge does not exist."),
        broken_index_world)
  /\ answer_question default_config integral_question None broken_index_world
     = (Raise (u "Collection math_knowledge does not exist."),
        broken_index_world,
        [CallSearch integral_question 3 (min_confidence_score default_config)]).
Proof.
  assert (Hblock : input_blocked integral_question = false)
    by (vm_compute; reflexivity).
  assert (Hfilter : math_filtered integral_question = false)
    by (vm_compute; reflexivity).
  split; [exact Hblock |]. split; [exact Hfilter |].
  split; [reflexivity |].
  exact (retrieval_failure_propagates default_config integral_question None
           broken_index_world broken_index_world
           (u "Collection math_knowledge does not exist.")
           Hblock Hfilter eq_refl).
Defined.

Lemma disabled_web_search_is_never_called_witness :
  enable_web_search offline_config = false
  /\ existsb is_web_call
       (trace_of (answer_question offline_config integral_question None
                    (library_world 0.39))) = false
  /\ forall r,
       result_of (answer_question offline_config integral_question None
                    (library_world 0.39)) = Ok r ->
       source r <> "Web Search"%string /\ used_web r <> Some true.
Proof.
  split; [reflexivity |].
  exact (disabled_web_search_is_never_called offline_config integral_question
           None (library_world 0.39) eq_refl).
Defined.

Lemma web_results_used_when_kb_empty_witness :
  input_blocked integral_question = false
  /\ math_filtered integral_question = false
  /\ enable_web_search default_config = true
  /\ vector_store_search web_only_world integral_question 3
       (min_confidence_score default_config) = (Ok [], web_only_world)
  /\ ws_success (fst (search_math_content web_only_world integral_question))
     = true
  /\ ws_results (fst (search_math_content web_only_world integral_question))
     <> []
  /\ validate_answer_exists integral_question
       (ws_results (fst (search_math_content web_only_world integral_question)))
     = true
  /\ exists r w' reply,
       answer_question default_config integral_question None web_only_world
       = (Ok r, w',
          [CallSearch integral_question 3 (min_confidence_score default_config);
           CallWebSearch integral_question]
          ++ snd (generation_stage integral_question
                    (Some (format_search_context
                             (ws_results
                                (fst (search_math_content web_only_world
                                        integral_question)))))
                    (snd (search_math_content web_only_world
                            integral_question))))
       /\ answer r = reply
       /\ source r = "Web Search"%string
       /\ sources r
          = Some (map url
                    (firstn 2
                       (ws_results
                          (fst (search_math_content web_only_world
                                  integral_question)))))
       /\ used_kb r = Some false
       /\ used_web r = Some true
       /\ success r = true.
Proof.
  assert (Hblock : input_blocked integral_question = false)
    by (vm_compute; reflexivity).
  assert (Hfilter : math_filtered integral_question = false)
    by (vm_compute; reflexivity).
  assert (Hne :
    ws_results (fst (search_math_content web_only_world integral_question))
    <> []) by discriminate.
  assert (Hvalid :
    validate_answer_exists integral_question
      (ws_results (fst (search_math_content web_only_world integral_question)))
    = true) by (vm_compute; reflexivity).
  split; [exact Hblock |]. split; [exact Hfilter |].
  split; [reflexivity |]. split; [reflexivity |]. split; [reflexivity |].
  split; [exact Hne |]. split; [exact Hvalid |].
  exact (web_results_used_when_kb_empty default_config integral_question None
           web_only_world web_only_world Hblock Hfilter eq_refl eq_refl
           eq_refl Hne Hvalid).
Defined.

Lemma returned_answer_is_last_reply_witness :
  exists r w' calls,
    answer_question default_config integral_question None (library_world 0.8)
    = (Ok r, w', calls)
    /\ success r = true
    /\ (exists earlier asked context,
          calls = earlier ++ [CallGenerate asked context (answer r)])
    /\ output_validation r = Some (validate_output (answer r))
    /\ (needs_regeneration (validate_output (answer r)) = true ->
        length (filter is_generate_call calls) = 2%nat).
Proof.
  eassert (Hrun :
    answer_question default_config integral_question None (library_world 0.8)
    = (Ok _, _, _)) by (vm_compute; reflexivity).
  do 3 eexists.
  split; [exact Hrun |]. split; [reflexivity |].
  exact (returned_answer_is_last_reply default_config integral_question None
           (library_world 0.8) _ _ _ Hrun eq_refl).
Defined.

Lemma short_reply_is_not_regenerated_witness :
  exists asked context reply1 later,
    filter is_generate_call
      (trace_of (answer_question default_config integral_question None
                   web_only_world))
    = CallGenerate asked context reply1 :: later
    /\ (length (strip reply1) < 20)%nat
    /\ later = []
    /\ exists r,
         result_of (answer_question default_config integral_question None
                      web_only_world) = Ok r
         /\ answer r = reply1
         /\ success r = true
         /\ option_map reason (output_validation r)
            = Some "response_too_short"%string
         /\ option_map is_valid (output_validation r) = Some false.
Proof.
  eassert (Htrace :
    filter is_generate_call
      (trace_of (answer_question default_config integral_question None
                   web_only_world))
    = CallGenerate _ _ (u "x^3/3 + C") :: _) by (vm_compute; reflexivity).
  assert (Hshort : (length (strip (u "x^3/3 + C")) < 20)%nat)
    by (vm_compute; lia).
  do 4 eexists.
  split; [exact Htrace |]. split; [exact Hshort |].
  exact (short_reply_is_not_regenerated default_config integral_question None
           web_only_world _ _ _ _ Htrace Hshort).
Defined.

Lemma source_kind_matches_flags_witness :
  exists r w' calls,
    answer_question default_config integral_question None (library_world 0.8)
    = (Ok r, w', calls)
    /\ success r = true
    /\ ((source r = "Knowledge Base (PDF)"%string
         /\ used_kb r = Some true
         /\ exists cited, sources r = Some cited /\ cited <> [] /\ NoDup cited)
        \/ (source r = "Web Search"%string
            /\ used_kb r = Some false /\ used_web r = Some true
            /\ exists cited,
                 sources r = Some cited /\ (1 <= length cited <= 2)%nat)
        \/ (source r = "LLM General Knowledge"%string
            /\ used_kb r = Some false /\ used_web r = Some false
            /\ sources r = Some [])).
Proof.
  eassert (Hrun :
    answer_question default_config integral_question None (library_world 0.8)
    = (Ok _, _, _)) by (vm_compute; reflexivity).
  do 3 eexists.
  split; [exact Hrun |]. split; [reflexivity |].
  exact (source_kind_matches_flags default_config integral_question None
           (library_world 0.8) _ _ _ Hrun eq_refl).
Defined.

Lemma search_returns_filtered_hits_witness :
  exists kb_results,
    VectorStore_search shelf_query quiet_world integral_question 3 0.5
    = (Ok kb_results, quiet_world)
    /\ exists hits,
         shelf_query quiet_world integral_question 3 = (Ok hits, quiet_world)
         /\ (length kb_results <= length hits)%nat
         /\ forall p, In p kb_results ->
              (0.5 <=? chunk_score p)%float = true
              /\ exists hit,
                   In hit hits
                   /\ chunk_text p = hit_document hit
                   /\ chunk_metadata p = hit_metadata hit
                   /\ chunk_score p = (1 - hit_distance hit)%float.
Proof.
  eassert (Hrun :
    VectorStore_search shelf_query quiet_world integral_question 3 0.5
    = (Ok _, quiet_world)) by (vm_compute; reflexivity).
  eexists. split; [exact Hrun |].
  exact (search_returns_filtered_hits shelf_query quiet_world quiet_world
           integral_question 3 0.5%float _ Hrun).
Defined.

Lemma own_retriever_web_search_only_when_empty_witness :
  exists kb_results,
    input_blocked integral_question = false
    /\ math_filtered integral_question = false
    /\ VectorStore_search shelf_query web_only_world integral_question 3
         (min_confidence_score default_config) = (Ok kb_results, web_only_world)
    /\ (existsb is_web_call
          (trace_of
             (answer_question (co := with_vector_store scripted shelf_query)
                default_config integral_question None web_only_world)) = true
        <-> kb_results = []).
Proof.
  assert (Hblock : input_blocked integral_question = false)
    by (vm_compute; reflexivity).
  assert (Hfilter : math_filtered integral_question = false)
    by (vm_compute; reflexivity).
  eassert (Hrun :
    VectorStore_search shelf_query web_only_world integral_question 3
      (min_confidence_score default_config) = (Ok _, web_only_world))
    by (vm_compute; reflexivity).
  eexists. split; [exact Hblock |]. split; [exact Hfilter |].
  split; [exact Hrun |].
  exact (own_retriever_web_search_only_when_empty scripted shelf_query
           integral_question None web_only_world web_only_world _
           Hblock Hfilter Hrun).
Defined.

Lemma add_documents_sends_every_chunk_once_witness :
  exists accepted,
    add_documents (ix := memory_index) two_chunks tt = (Ok tt, tt, accepted)
    /\ concat (map add_texts accepted) = map text_of two_chunks
    /\ concat (map add_metadatas accepted) = map metadata_of two_chunks
    /\ concat (map add_ids accepted) = chunk_ids (length two_chunks)
    /\ length (concat (map add_embeddings accepted)) = length two_chunks
    /\ Forall (fun request =>
                 (1 <= length (add_ids request) <= 100)%nat
                 /\ length (add_texts request) = length (add_ids request)
                 /\ length (add_metadatas request) = length (add_ids request)
                 /\ length (add_embeddings request) = length (add_ids request))
              accepted.
Proof.
  eassert (Hrun :
    add_documents (ix := memory_index) two_chunks tt = (Ok tt, tt, _))
    by (vm_compute; reflexivity).
  eexists. split; [exact Hrun |].
  exact (add_documents_sends_every_chunk_once (ix := memory_index)
           two_chunks tt tt _ Hrun).
Defined.

Lemma extracted_text_is_normalised_witness :
  extract_text sample_paragraphs = Some (u "The integral of x^2 is x^3/3 + C.")
  /\ u "The integral of x^2 is x^3/3 + C." <> []
  /\ (length (u "The integral of x^2 is x^3/3 + C.") <= 1003)%nat
  /\ well_spaced false (u "The integral of x^2 is x^3/3 + C.") = true
  /\ (forall c rest,
        u "The integral of x^2 is x^3/3 + C." = c :: rest ->
        isspace c = false)
  /\ (forall front c,
        u "The integral of x^2 is x^3/3 + C." = front ++ [c] ->
        isspace c = false).
Proof.
  assert (Hrun : extract_text sample_paragraphs
                 = Some (u "The integral of x^2 is x^3/3 + C."))
    by (vm_compute; reflexivity).
  split; [exact Hrun |].
  exact (extracted_text_is_normalised sample_paragraphs
           (u "The integral of x^2 is x^3/3 + C.") Hrun).
Defined.

Lemma trusted_domain_is_a_substring_test_witness :
  In (u "wikipedia.org") trusted_domains
  /\ forallb is_ascii (u "https://evil.example/?ref=WIKIPEDIA.ORG") = true
  /\ map ascii_lower (u "https://evil.example/?ref=WIKIPEDIA.ORG")
     = u "https://evil.example/?ref=" ++ u "wikipedia.org" ++ []
  /\ _is_trusted_domain (u "https://evil.example/?ref=WIKIPEDIA.ORG") = true.
Proof.
  assert (Hdomain : In (u "wikipedia.org") trusted_domains)
    by (right; right; left; reflexivity).
  assert (Hascii :
    forallb is_ascii (u "https://evil.example/?ref=WIKIPEDIA.ORG") = true)
    by (vm_compute; reflexivity).
  assert (Hlower :
    map ascii_lower (u "https://evil.example/?ref=WIKIPEDIA.ORG")
    = u "https://evil.example/?ref=" ++ u "wikipedia.org" ++ [])
    by (vm_compute; reflexivity).
  split; [exact Hdomain |]. split; [exact Hascii |]. split; [exact Hlower |].
  exact (trusted_domain_is_a_substring_test
           (u "https://evil.example/?ref=WIKIPEDIA.ORG") (u "wikipedia.org")
           (u "https://evil.example/?ref=") [] Hdomain Hascii Hlower).
Defined.

Lemma split_into_chunks_terminates_witness :
  (1 <= 20)%Z
  /\ (0 <= 5 <= 20 / 2)%Z
  /\ (length sample_text < 57)%nat
  /\ exists chunks,
       split_into_chunks 57 20 5 sample_text None = Some chunks
       /\ (length chunks <= length sample_text)%nat
       /\ forall more,
            (57 <= more)%nat ->
            split_into_chunks more 20 5 sample_text None = Some chunks.
Proof.
  assert (Hsize : (1 <= 20)%Z) by lia.
  assert (Hoverlap : (0 <= 5 <= 20 / 2)%Z) by (vm_compute; split; discriminate).
  assert (Hfuel : (length sample_text < 57)%nat) by (vm_compute; lia).
  split; [exact Hsize |]. split; [exact Hoverlap |]. split; [exact Hfuel |].
  exact (split_into_chunks_terminates 20 5 sample_text None 57
           Hsize Hoverlap Hfuel).
Defined.

Lemma chunks_are_stripped_windows_witness :
  exists chunks,
    (1 <= 20)%Z
    /\ (0 <= 5 <= 20 / 2)%Z
    /\ split_into_chunks 57 20 5 sample_text None = Some chunks
    /\ Forall (fun c =>
                 (0 <= start_index c < py_len sample_text)%Z
                 /\ text_of c
                    = strip (py_slice sample_text (start_index c) (end_index c))
                 /\ text_of c <> []
                 /\ (start_index c < end_index c <= start_index c + 20)%Z
                 /\ (py_len (text_of c) <= 20)%Z
                 /\ metadata_of c = [])
              chunks
    /\ StronglySorted (fun a b => (start_index a < start_index b)%Z) chunks.
Proof.
  assert (Hsize : (1 <= 20)%Z) by lia.
  assert (Hoverlap : (0 <= 5 <= 20 / 2)%Z) by (vm_compute; split; discriminate).
  eassert (Hrun : split_into_chunks 57 20 5 sample_text None = Some _)
    by (vm_compute; reflexivity).
  eexists. split; [exact Hsize |]. split; [exact Hoverlap |].
  split; [exact Hrun |].
  exact (chunks_are_stripped_windows 20 5 sample_text None 57 _
           Hsize Hoverlap Hrun).
Defined.

Lemma chunks_cover_the_text_witness :
  exists chunks,
    (1 <= 20)%Z
    /\ (0 <= 5 <= 20 / 2)%Z
    /\ split_into_chunks 57 20 5 sample_text None = Some chunks
    /\ nth_error sample_text 23 = Some 101%N
    /\ isspace 101%N = false
    /\ exists piece,
         In piece chunks
         /\ (start_index piece <= Z.of_nat 23 < end_index piece)%Z
         /\ In 101%N (text_of piece).
Proof.
  assert (Hsize : (1 <= 20)%Z) by lia.
  assert (Hoverlap : (0 <= 5 <= 20 / 2)%Z) by (vm_compute; split; discriminate).
  eassert (Hrun : split_into_chunks 57 20 5 sample_text None = Some _)
    by (vm_compute; reflexivity).
  assert (Hnth : nth_error sample_text 23 = Some 101%N)
    by (vm_compute; reflexivity).
  assert (Hchar : isspace 101%N = false) by (vm_compute; reflexivity).
  eexists. split; [exact Hsize |]. split; [exact Hoverlap |].
  split; [exact Hrun |]. split; [exact Hnth |]. split; [exact Hchar |].
  exact (chunks_cover_the_text 20 5 sample_text None 57 _ 23 101%N
           Hsize Hoverlap Hrun Hnth Hchar).
Defined.
